(** * Barber-shop backend: the SQL access layer, the store it talks to,
      and the HTTP routes, with the properties of the specification.

    The development follows the repository:
    - [Db]     db.js: the statement builders ([insert], [update],
               [hardDelete], [buildWhereClause]);
    - [Pg]     the relational store the statements run against: text input
               of the column types, constraints of the schema;
    - [Schema] setupDatabase.js: the six tables, their constraints, the
               seed rows;
    - [Api]    routes/api.js: one function per route;
    - [App]    app.js: [cors()], dispatch of a request and the 404
               fallback;
    - [DbUtil] db.js: [escapeIdentifier], [softDelete], [tableExists],
               [initializeDatabase];
    - [Catalog], [Order], [Analysis], [History], [Refusal]: the vocabulary
               of the further properties (quoted identifiers, the order
               of the lists, the groups of the service analysis,
               sequences of requests and seeding, the parameters that
               the store refuses).

    Assumptions.  The properties hold of the store and the application
    under these assumptions, which the model builds in:
    - text parameters are read in the spellings that the application
      sends: an integer as decimal digits with an optional sign, a date
      as YYYY-MM-DD, an amount as digits with an optional fraction.  The
      store reads further spellings (blanks around a number, a fraction
      without integer digits, an exponent, a date written 20240310,
      2024-3-10 or 10.03.2024).  What is stated of a parameter that is
      read assumes the reading of the model; what is stated of a
      parameter that is refused is stated of the texts of [Refusal],
      which the store refuses whatever the spelling;
    - no text holds the character NUL, which the store refuses in any
      text;
    - the sequences behind [id SERIAL] stay below 2^31 - 1, the largest
      INTEGER: the store refuses a row whose id would be larger, and the
      model does not count that far;
    - a statement is a text that the store can parse, as the statements
      of the routes are: a syntax error is not modelled;
    - requests are served one at a time: the statements of a request are
      not interleaved with those of another request. *)

From Stdlib Require Import ZArith List String Ascii Bool Lia Arith.
From Stdlib Require Import Floats Uint63 QArith Qabs.
From Stdlib Require Import DecimalString DecimalNat Sorted Permutation.
Import ListNotations.

Local Open Scope string_scope.
Local Open Scope list_scope.
Local Open Scope Z_scope.

(** ** Small list and string helpers used by every layer *)

(** JavaScript's [array.map((x, i) => f x i)]. *)
Fixpoint mapi_from {A B : Type} (i : nat) (f : A -> nat -> B) (l : list A) : list B :=
  match l with
  | [] => []
  | x :: l' => f x i :: mapi_from (S i) f l'
  end.

Definition mapi {A B : Type} (f : A -> nat -> B) (l : list A) : list B :=
  mapi_from 0 f l.

(** Decimal text of a natural number, as [`${n}`] prints it. *)
Definition string_of_nat (n : nat) : string :=
  NilEmpty.string_of_uint (Nat.to_uint n).

(** ** db.js: statement builders *)

Module Db.

(** The JavaScript values a caller can put in a column map. *)
#[local] Set Warnings "-register-all".
Inductive jsval :=
| JNull
| JUndefined
| JBool (b : bool)
| JNum (z : Z)
| JStr (s : string)
| JArr (l : list jsval).

(** A plain object, as the list of its own properties in iteration order:
    [Object.keys], [Object.values] and [Object.entries] all walk it in
    this order. *)
Definition object := list (string * jsval).

Definition keys (o : object) : list string := map fst o.
Definition values (o : object) : list jsval := map snd o.
Definition entries (o : object) : list (string * jsval) := o.

(** A statement text is a template literal: pieces of literal text and
    positional placeholders [$n]. *)
Inductive frag :=
| Lit (s : string)
| Ph (n : nat).

Definition sql := list frag.

Definition render_frag (f : frag) : string :=
  match f with
  | Lit s => s
  | Ph n => ("$" ++ string_of_nat n)%string
  end.

Definition render (q : sql) : string :=
  fold_right (fun f acc => (render_frag f ++ acc)%string) "" q.

(** The placeholders of a statement, in the order of the text. *)
Fixpoint placeholders (q : sql) : list nat :=
  match q with
  | [] => []
  | Lit _ :: q' => placeholders q'
  | Ph n :: q' => n :: placeholders q'
  end.

(** The placeholders the store finds in a statement text: every [$]
    with the digits that follow it ([pending] is the number being read).
    For statements built from plain identifiers this is [placeholders]
    of the template, lemma [scan_render]. *)
Definition digit_of (c : ascii) : option nat :=
  let n := N.to_nat (N_of_ascii c) in
  if ((48 <=? n) && (n <=? 57))%nat then Some (n - 48)%nat else None.

Definition flush (pending : option nat) : list nat :=
  match pending with
  | Some n => [n]
  | None => []
  end.

Fixpoint scan_from (pending : option nat) (s : string) : list nat :=
  match s with
  | EmptyString => flush pending
  | String c s' =>
      match pending, digit_of c with
      | Some n, Some d => scan_from (Some (10 * n + d)%nat) s'
      | _, _ =>
          flush pending
          ++ (if Ascii.eqb c "$" then scan_from (Some 0%nat) s' else scan_from None s')
      end
  end.

Definition scan (s : string) : list nat := scan_from None s.

(** A literal piece is plain when it holds no [$] and does not begin
    with a digit, as table names, column names and the fixed text of the
    builders are. *)
Fixpoint no_dollar (s : string) : bool :=
  match s with
  | EmptyString => true
  | String c s' => negb (Ascii.eqb c "$") && no_dollar s'
  end.

Definition starts_with_digit (s : string) : bool :=
  match s with
  | EmptyString => false
  | String c _ => match digit_of c with Some _ => true | None => false end
  end.

Definition plain (s : string) : bool := no_dollar s && negb (starts_with_digit s).

Definition plain_sql (q : sql) : bool :=
  forallb (fun f => match f with Lit s => plain s | Ph _ => true end) q.

(** The value a placeholder [$k] is bound to: element [k - 1] of the
    parameter array, absent when the array is too short. *)
Definition bound_value (params : list jsval) (k : nat) : option jsval :=
  match k with
  | O => None
  | S k' => nth_error params k'
  end.

(** [parts.join(sep)]. *)
Fixpoint join (sep : string) (parts : list sql) : sql :=
  match parts with
  | [] => []
  | [p] => p
  | p :: rest => p ++ Lit sep :: join sep rest
  end.

(** [`${col} = $${n}`]. *)
Definition assign (col : string) (n : nat) : sql :=
  [Lit col; Lit " = "; Ph n].


(** The [(column, placeholder number)] pairs of the SET clause and of the
    WHERE clause of [update], lines 161-162. *)
Definition set_items (data : object) : list (string * nat) :=
  mapi (fun col i => (col, (i + 1)%nat)) (keys data).

Definition where_items (data where_ : object) : list (string * nat) :=
  mapi (fun col i => (col, (List.length (values data) + i + 1)%nat)) (keys where_).

(** [update(table, data, where)], lines 155-173. *)
Definition update (table : string) (data where_ : object) : sql * list jsval :=
  let dataValues := values data in
  let whereValues := values where_ in
  let setClause := join ", " (map (fun '(col, n) => assign col n) (set_items data)) in
  let whereClause :=
    join " AND " (map (fun '(col, n) => assign col n) (where_items data where_)) in
  ([Lit "
    UPDATE "; Lit table; Lit "
    SET "] ++ setClause ++ [Lit ", updated_at = CURRENT_TIMESTAMP
    WHERE "] ++ whereClause ++ [Lit "
    RETURNING *
  "], dataValues ++ whereValues).

(** [hardDelete(table, where)], lines 191-204. *)
Definition hardDelete (table : string) (where_ : object) : sql * list jsval :=
  let whereColumns := keys where_ in
  let whereValues := values where_ in
  let whereClause :=
    join " AND " (mapi (fun col i => assign col (i + 1)) whereColumns) in
  ([Lit "
    DELETE FROM "; Lit table; Lit "
    WHERE "] ++ whereClause ++ [Lit "
    RETURNING *
  "], whereValues).

Definition is_null (v : jsval) : bool :=
  match v with JNull => true | _ => false end.

Definition is_array (v : jsval) : bool :=
  match v with JArr _ => true | _ => false end.

(** One condition of [buildWhereClause], lines 393-397: the index is the
    index of the entry in [Object.entries(conditions)]. *)
Definition where_condition (entry : string * jsval) (i : nat) : sql :=
  let '(key, value) := entry in
  if is_null value then [Lit key; Lit " IS NULL"]
  else if is_array value then [Lit key; Lit " = ANY("; Ph (i + 1); Lit ")"]
  else [Lit key; Lit " = "; Ph (i + 1)].

(** [buildWhereClause(conditions)], lines 391-400: [{ clause, values }]. *)
Definition buildWhereClause (conditions : object) : sql * list jsval :=
  let entries_ := entries conditions in
  let clause := join " AND " (mapi where_condition entries_) in
  let values_ := filter (fun v => negb (is_null v)) (map snd entries_) in
  (clause, values_).

End Db.

(** ** The relational store

    The routes hand statement texts and text parameters to PostgreSQL
    through [db.query].  This module models what the store does with
    them: the text input of the column types, and the errors it raises,
    each with its SQLSTATE code (the [error.code] the routes test). *)

Module Pg.

Inductive sqlstate :=
| undefined_column
| invalid_text_representation
| numeric_value_out_of_range
| invalid_datetime_format
| datetime_field_overflow
| string_data_right_truncation
| not_null_violation
| unique_violation
| check_violation.

(** [error.code]. *)
Definition code (e : sqlstate) : string :=
  match e with
  | undefined_column => "42703"
  | invalid_text_representation => "22P02"
  | numeric_value_out_of_range => "22003"
  | invalid_datetime_format => "22007"
  | datetime_field_overflow => "22008"
  | string_data_right_truncation => "22001"
  | not_null_violation => "23502"
  | unique_violation => "23505"
  | check_violation => "23514"
  end.

Inductive result (A : Type) :=
| Ok (a : A)
| Err (e : sqlstate).
Arguments Ok {A} a.
Arguments Err {A} e.

Definition rbind {A B : Type} (r : result A) (k : A -> result B) : result B :=
  match r with
  | Ok a => k a
  | Err e => Err e
  end.

(** A parameter is text or NULL; NULL converts to NULL of any type. *)
Definition nullable {A : Type} (conv : string -> result A) (p : option string)
  : result (option A) :=
  match p with
  | None => Ok None
  | Some s => rbind (conv s) (fun a => Ok (Some a))
  end.

(** *** Text input of integers *)

Definition digit_of (c : ascii) : option Z :=
  let n := Z.of_N (N_of_ascii c) in
  if (48 <=? n) && (n <=? 57) then Some (n - 48) else None.

(** Value of a string of decimal digits, read after the accumulator
    [acc]; [None] when a character is not a digit. *)
Fixpoint digits_from (acc : Z) (s : string) : option Z :=
  match s with
  | EmptyString => Some acc
  | String c s' =>
      match digit_of c with
      | Some d => digits_from (10 * acc + d) s'
      | None => None
      end
  end.

Definition digits (s : string) : option Z :=
  match s with
  | EmptyString => None
  | _ => digits_from 0 s
  end.

(** An optional sign and the rest of the text. *)
Definition split_sign (s : string) : bool * string :=
  match s with
  | String "-" s' => (true, s')
  | String "+" s' => (false, s')
  | _ => (false, s)
  end.

(** Input of an INTEGER column ([id SERIAL]): a signed decimal number
    of 32 bits, 22P02 on another syntax and 22003 out of range.  Only the
    plain decimal spelling is modelled: the store reads an integer
    between blanks as well, so 22P02 of this function is the store's
    answer only for the texts of [Refusal.not_an_integer]. *)
Definition int4_in (s : string) : result Z :=
  let '(neg, body) := split_sign s in
  match digits body with
  | None => Err invalid_text_representation
  | Some n =>
      let v := if neg then - n else n in
      if (- 2147483648 <=? v) && (v <=? 2147483647) then Ok v
      else Err numeric_value_out_of_range
  end.

(** *** DATE *)

Record Date := mkDate { year : Z; month : Z; day : Z }.

Definition is_leap (y : Z) : bool :=
  (y mod 4 =? 0) && (negb (y mod 100 =? 0) || (y mod 400 =? 0)).

Definition days_in_month (y m : Z) : Z :=
  if (m =? 1) || (m =? 3) || (m =? 5) || (m =? 7) || (m =? 8) || (m =? 10) || (m =? 12)
  then 31
  else if (m =? 4) || (m =? 6) || (m =? 9) || (m =? 11) then 30
  else if m =? 2 then (if is_leap y then 29 else 28)
  else 0.

Definition date_eqb (a b : Date) : bool :=
  (year a =? year b) && (month a =? month b) && (day a =? day b).

Definition date_ltb (a b : Date) : bool :=
  (year a <? year b)
  || ((year a =? year b)
      && ((month a <? month b) || ((month a =? month b) && (day a <? day b)))).

Definition date_leb (a b : Date) : bool := date_ltb a b || date_eqb a b.

(** Input of a DATE from ISO text [YYYY-MM-DD] (the API's date format).
    A text of another shape is answered with 22007; a month or a day that
    does not exist in the calendar, or year 0, with 22008.  The store
    reads further spellings of a date (20240310, 2024-3-10, 10.03.2024),
    which are outside this model: 22007 of this function need not be the
    store's answer, and nothing below is concluded from it; 22008 is the
    store's answer. *)
Definition date_in (s : string) : result Date :=
  match digits (substring 0 4 s), get 4 s, digits (substring 5 2 s), get 7 s,
        digits (substring 8 2 s) with
  | Some y, Some "-"%char, Some m, Some "-"%char, Some d =>
      if negb (String.length s =? 10)%nat then Err invalid_datetime_format
      else if (1 <=? y) && (1 <=? m) && (m <=? 12) && (1 <=? d) && (d <=? days_in_month y m)
      then Ok (mkDate y m d)
      else Err datetime_field_overflow
  | _, _, _, _, _ => Err invalid_datetime_format
  end.

(** *** NUMERIC(10, 2)

    Amounts are kept in hundredths: [12345] is 123.45. *)

Definition Decimal := Z.

Definition split_at_dot (s : string) : string * option string :=
  match index 0 "." s with
  | None => (s, None)
  | Some i => (substring 0 i s, Some (substring (S i) (String.length s - S i) s))
  end.

(** The first two fraction digits, and one more unit when the third digit
    is 5 or more (the store rounds half away from zero). *)
Definition hundredths_of_fraction (f : string) : option Z :=
  match digits (f ++ "000") with
  | None => None
  | Some _ =>
      match digits (substring 0 2 (f ++ "000")), digits (substring 2 1 (f ++ "000")) with
      | Some h, Some r => Some (if 5 <=? r then h + 1 else h)
      | _, _ => None
      end
  end.

(** Input of a NUMERIC(10, 2) column from plain decimal text: an optional
    sign, digits, and an optional fraction.  22P02 on another syntax,
    22003 when the rounded value needs more than eight integer digits.
    The store reads further spellings (a fraction without integer
    digits, an exponent, spaces around the number, the special value
    NaN); they are outside this model: 22P02 of this function need not
    be the store's answer, and nothing below is concluded from it. *)
Definition numeric_in (s : string) : result Decimal :=
  let '(neg, body) := split_sign s in
  let '(ip, fp) := split_at_dot body in
  match digits ip, match fp with None => Some 0 | Some f => hundredths_of_fraction f end with
  | Some i, Some h =>
      let v := 100 * i + h in
      if v <? 10000000000 then Ok (if neg then - v else v)
      else Err numeric_value_out_of_range
  | _, _ => Err invalid_text_representation
  end.

(** *** VARCHAR(n) *)

(** Bytes [10xxxxxx] continue a UTF-8 character. *)
Definition is_continuation (c : ascii) : bool :=
  let n := N_of_ascii c in ((128 <=? n) && (n <? 192))%N.

Fixpoint utf8_length (s : string) : nat :=
  match s with
  | EmptyString => O
  | String c s' => if is_continuation c then utf8_length s' else S (utf8_length s')
  end.

(** The first [n] characters, and the rest. *)
Fixpoint utf8_split (n : nat) (s : string) : string * string :=
  match s with
  | EmptyString => (EmptyString, EmptyString)
  | String c s' =>
      if is_continuation c then
        let '(a, b) := utf8_split n s' in (String c a, b)
      else
        match n with
        | O => (EmptyString, s)
        | S n' => let '(a, b) := utf8_split n' s' in (String c a, b)
        end
  end.

Fixpoint all_spaces (s : string) : bool :=
  match s with
  | EmptyString => true
  | String c s' => Ascii.eqb c " " && all_spaces s'
  end.

(** Storing text in a VARCHAR(n) column: longer text is an error (22001)
    unless the excess is spaces only, which is cut off. *)
Definition varchar (n : nat) (s : string) : result string :=
  if (utf8_length s <=? n)%nat then Ok s
  else
    let '(a, b) := utf8_split n s in
    if all_spaces b then Ok a else Err string_data_right_truncation.

End Pg.

(** ** Ordering and grouping, as the statements use them *)

(** [ORDER BY]: a stable insertion sort under a comparison [leb]. *)
Fixpoint insert_sorted {A : Type} (leb : A -> A -> bool) (x : A) (l : list A) : list A :=
  match l with
  | [] => [x]
  | y :: l' => if leb x y then x :: l else y :: insert_sorted leb x l'
  end.

Definition sort_by {A : Type} (leb : A -> A -> bool) (l : list A) : list A :=
  fold_right (insert_sorted leb) [] l.

(** [DISTINCT] and the keys of [GROUP BY]: every value once, at its first
    occurrence. *)
Fixpoint distinct {A : Type} (eqb : A -> A -> bool) (l : list A) : list A :=
  match l with
  | [] => []
  | x :: l' => x :: filter (fun y => negb (eqb x y)) (distinct eqb l')
  end.

Definition sum_Z (l : list Z) : Z := fold_right Z.add 0 l.

Definition count_rows {A : Type} (l : list A) : Z := Z.of_nat (List.length l).

Definition option_eqb {A : Type} (eqb : A -> A -> bool) (a b : option A) : bool :=
  match a, b with
  | Some x, Some y => eqb x y
  | None, None => true
  | _, _ => false
  end.

Definition is_some {A : Type} (a : option A) : bool :=
  match a with Some _ => true | None => false end.

(** ** setupDatabase.js: the schema *)

Module Schema.
Import Pg.

Inductive table := customers | services | staff | expense_types | records | expenses.

(** The columns of the CREATE TABLE statements, lines 20-70. *)
Definition columns (t : table) : list string :=
  match t with
  | customers => ["id"; "name"; "phone"; "email"; "created_at"]
  | services => ["id"; "name"; "active"]
  | staff => ["id"; "name"; "active"]
  | expense_types => ["id"; "name"; "active"]
  | records =>
      ["id"; "date"; "customer_name"; "service"; "staff"; "price"; "payment_type";
       "created_at"]
  | expenses =>
      ["id"; "date"; "type"; "description"; "amount"; "payment_type"; "created_at"]
  end.

(** A statement that names a column the table does not have is refused
    before it runs (42703).  This is the store's answer to a statement
    that it can parse: a text that is no statement at all is refused
    earlier, as a syntax error (42601), and is not modelled; every
    statement of the routes parses. *)
Definition check_columns (t : table) (cols : list string) : result unit :=
  if forallb (fun c => existsb (String.eqb c) (columns t)) cols then Ok tt
  else Err undefined_column.

(** [CHECK (payment_type IN ('Nakit', 'Kart', 'Banka'))], lines 57 and 68:
    the three tokens, which stand for cash, card and bank. *)
Definition Cash : string := "Nakit".
Definition Card : string := "Kart".
Definition Bank : string := "Banka".

Definition payment_types : list string := [Cash; Card; Bank].

Definition payment_type_check (s : string) : bool :=
  existsb (String.eqb s) payment_types.

(** Rows.  [created_at] always takes its default, the time of the insert,
    since no statement of the application names the column. *)
Record CustomerRow := {
  cust_id : Z;
  cust_name : string;
  cust_phone : option string;
  cust_email : option string;
  cust_created_at : Z
}.

(** A row of [services], [staff] or [expense_types]. *)
Record LookupRow := {
  id : Z;
  name : string;
  active : option bool
}.

Record RecordRow := {
  rec_id : Z;
  rec_date : Date;
  rec_customer_name : option string;
  rec_service : option string;
  rec_staff : option string;
  rec_price : Decimal;
  rec_payment_type : string;
  rec_created_at : Z
}.

Record ExpenseRow := {
  exp_id : Z;
  exp_date : Date;
  exp_type : string;
  exp_description : option string;
  exp_amount : Decimal;
  exp_payment_type : string;
  exp_created_at : Z
}.

(** A table: its rows in insertion order, and the next value of the
    sequence behind [id SERIAL]. *)
Record Table (R : Type) := {
  rows : list R;
  next_id : Z
}.
Arguments rows {R} t.
Arguments next_id {R} t.

Definition empty_table (R : Type) : Table R := {| rows := []; next_id := 1 |}.

(** The database: the six tables, and the collation that [ORDER BY name]
    compares text with. *)
Record Database := {
  t_customers : Table CustomerRow;
  t_services : Table LookupRow;
  t_staff : Table LookupRow;
  t_expense_types : Table LookupRow;
  t_records : Table RecordRow;
  t_expenses : Table ExpenseRow;
  collation : string -> string -> bool
}.

(** The database after the CREATE TABLE statements, before any row. *)
Definition empty_db (coll : string -> string -> bool) : Database := {|
  t_customers := empty_table _;
  t_services := empty_table _;
  t_staff := empty_table _;
  t_expense_types := empty_table _;
  t_records := empty_table _;
  t_expenses := empty_table _;
  collation := coll
|}.

Definition set_customers (t : Table CustomerRow) (db : Database) : Database := {|
  t_customers := t; t_services := t_services db; t_staff := t_staff db;
  t_expense_types := t_expense_types db; t_records := t_records db;
  t_expenses := t_expenses db; collation := collation db |}.

Definition set_records (t : Table RecordRow) (db : Database) : Database := {|
  t_customers := t_customers db; t_services := t_services db; t_staff := t_staff db;
  t_expense_types := t_expense_types db; t_records := t;
  t_expenses := t_expenses db; collation := collation db |}.

Definition set_expenses (t : Table ExpenseRow) (db : Database) : Database := {|
  t_customers := t_customers db; t_services := t_services db; t_staff := t_staff db;
  t_expense_types := t_expense_types db; t_records := t_records db;
  t_expenses := t; collation := collation db |}.

(** The three tables of the same shape. *)
Inductive lookup_table := Services | Staff | ExpenseTypes.

Definition table_of (t : lookup_table) : table :=
  match t with
  | Services => services
  | Staff => staff
  | ExpenseTypes => expense_types
  end.

Definition lookup (t : lookup_table) (db : Database) : Table LookupRow :=
  match t with
  | Services => t_services db
  | Staff => t_staff db
  | ExpenseTypes => t_expense_types db
  end.

Definition set_lookup (t : lookup_table) (tb : Table LookupRow) (db : Database)
  : Database :=
  match t with
  | Services => {|
      t_customers := t_customers db; t_services := tb; t_staff := t_staff db;
      t_expense_types := t_expense_types db; t_records := t_records db;
      t_expenses := t_expenses db; collation := collation db |}
  | Staff => {|
      t_customers := t_customers db; t_services := t_services db; t_staff := tb;
      t_expense_types := t_expense_types db; t_records := t_records db;
      t_expenses := t_expenses db; collation := collation db |}
  | ExpenseTypes => {|
      t_customers := t_customers db; t_services := t_services db; t_staff := t_staff db;
      t_expense_types := tb; t_records := t_records db;
      t_expenses := t_expenses db; collation := collation db |}
  end.

End Schema.

(** ** The statements of the application, run against the store *)

Module Store.
Import Pg Schema.

(** A statement reads and changes the database and returns rows or
    raises an error; what it changed before the error stays changed (a
    sequence does not roll back). *)
Definition Store (A : Type) : Type := Database -> result A * Database.

Definition ret {A : Type} (a : A) : Store A := fun db => (Ok a, db).

Definition raise {A : Type} (e : sqlstate) : Store A := fun db => (Err e, db).

Definition lift {A : Type} (r : result A) : Store A := fun db => (r, db).

Definition bind {A B : Type} (m : Store A) (k : A -> Store B) : Store B :=
  fun db =>
    match m db with
    | (Ok a, db') => k a db'
    | (Err e, db') => (Err e, db')
    end.

Definition gets {A : Type} (f : Database -> A) : Store A := fun db => (Ok (f db), db).

Definition modify (f : Database -> Database) : Store unit := fun db => (Ok tt, f db).

Declare Scope store_scope.
Delimit Scope store_scope with store.
Notation "x <- m ;; k" := (bind m (fun x => k))
  (at level 61, m at next level, right associativity) : store_scope.
Notation "m ;;; k" := (bind m (fun _ => k))
  (at level 61, right associativity) : store_scope.
Local Open Scope store_scope.

(** *** Sequences *)

Definition bump {R : Type} (t : Table R) : Table R :=
  {| rows := rows t; next_id := next_id t + 1 |}.

Definition append {R : Type} (r : R) (t : Table R) : Table R :=
  {| rows := rows t ++ [r]; next_id := next_id t |}.

Definition with_rows {R : Type} (l : list R) (t : Table R) : Table R :=
  {| rows := l; next_id := next_id t |}.

(** *** records *)

(** [INSERT INTO records (date, customer_name, service, staff, price,
    payment_type) VALUES ($1, $2, $3, $4, $5, $6) RETURNING *].
    The statement is checked against the schema, the parameters are
    converted to the types of their columns, an id is drawn from the
    sequence, and the row is tested against NOT NULL and then CHECK;
    [created_at] takes its default, the time of the statement. *)
Definition insert_record
    (p_date p_customer_name p_service p_staff p_price p_payment_type : option string)
    (now : Z) : Store RecordRow :=
  lift (check_columns records
          ["date"; "customer_name"; "service"; "staff"; "price"; "payment_type"]) ;;;
  d <- lift (nullable date_in p_date) ;;
  cn <- lift (nullable (varchar 255) p_customer_name) ;;
  sv <- lift (nullable (varchar 255) p_service) ;;
  st <- lift (nullable (varchar 255) p_staff) ;;
  pr <- lift (nullable numeric_in p_price) ;;
  pt <- lift (nullable (varchar 50) p_payment_type) ;;
  new_id <- gets (fun db => next_id (t_records db)) ;;
  modify (fun db => set_records (bump (t_records db)) db) ;;;
  match d, pr, pt with
  | Some d, Some pr, Some pt =>
      if payment_type_check pt then
        let row := {| rec_id := new_id; rec_date := d; rec_customer_name := cn;
                      rec_service := sv; rec_staff := st; rec_price := pr;
                      rec_payment_type := pt; rec_created_at := now |} in
        modify (fun db => set_records (append row (t_records db)) db) ;;;
        ret row
      else raise check_violation
  | _, _, _ => raise not_null_violation
  end.

(** [ORDER BY created_at DESC]. *)
Definition newest_first (a b : RecordRow) : bool :=
  rec_created_at b <=? rec_created_at a.

(** [ORDER BY date DESC, created_at DESC]. *)
Definition latest_date_first (a b : RecordRow) : bool :=
  date_ltb (rec_date b) (rec_date a)
  || (date_eqb (rec_date a) (rec_date b) && (rec_created_at b <=? rec_created_at a)).

(** [SELECT * FROM records WHERE date = $1 ORDER BY created_at DESC]. *)
Definition select_records_daily (p_date : string) : Store (list RecordRow) :=
  d <- lift (date_in p_date) ;;
  all <- gets (fun db => rows (t_records db)) ;;
  ret (sort_by newest_first (filter (fun r => date_eqb (rec_date r) d) all)).

(** [SELECT * FROM records WHERE date >= $1 AND date <= $2
    ORDER BY date DESC, created_at DESC].  Both parameters are compared
    with the DATE column [date], so the store reads each of them as a
    DATE before it looks at any row. *)
Definition select_records_between (p_start p_end : string) : Store (list RecordRow) :=
  d1 <- lift (date_in p_start) ;;
  d2 <- lift (date_in p_end) ;;
  all <- gets (fun db => rows (t_records db)) ;;
  ret (sort_by latest_date_first
         (filter (fun r => date_leb d1 (rec_date r) && date_leb (rec_date r) d2) all)).

(** [DELETE FROM records WHERE id = $1 RETURNING *]. *)
Definition delete_record (p_id : string) : Store (list RecordRow) :=
  n <- lift (int4_in p_id) ;;
  all <- gets (fun db => rows (t_records db)) ;;
  modify (fun db =>
            set_records
              (with_rows (filter (fun r => negb (rec_id r =? n)) all) (t_records db)) db) ;;;
  ret (filter (fun r => rec_id r =? n) all).

(** [SELECT * FROM records WHERE customer_name = $1
    ORDER BY date DESC, created_at DESC LIMIT 50]. *)
Definition select_records_of_customer (p_name : string) : Store (list RecordRow) :=
  all <- gets (fun db => rows (t_records db)) ;;
  ret (firstn 50
         (sort_by latest_date_first
            (filter (fun r => option_eqb String.eqb (rec_customer_name r) (Some p_name))
               all))).

(** *** expenses *)

(** [INSERT INTO expenses (date, type, description, amount, payment_type)
    VALUES ($1, $2, $3, $4, $5) RETURNING *]. *)
Definition insert_expense
    (p_date p_type p_description p_amount p_payment_type : option string)
    (now : Z) : Store ExpenseRow :=
  lift (check_columns expenses
          ["date"; "type"; "description"; "amount"; "payment_type"]) ;;;
  d <- lift (nullable date_in p_date) ;;
  ty <- lift (nullable (varchar 255) p_type) ;;
  am <- lift (nullable numeric_in p_amount) ;;
  pt <- lift (nullable (varchar 50) p_payment_type) ;;
  new_id <- gets (fun db => next_id (t_expenses db)) ;;
  modify (fun db => set_expenses (bump (t_expenses db)) db) ;;;
  match d, ty, am, pt with
  | Some d, Some ty, Some am, Some pt =>
      if payment_type_check pt then
        let row := {| exp_id := new_id; exp_date := d; exp_type := ty;
                      exp_description := p_description; exp_amount := am;
                      exp_payment_type := pt; exp_created_at := now |} in
        modify (fun db => set_expenses (append row (t_expenses db)) db) ;;;
        ret row
      else raise check_violation
  | _, _, _, _ => raise not_null_violation
  end.

Definition newest_expense_first (a b : ExpenseRow) : bool :=
  exp_created_at b <=? exp_created_at a.

Definition latest_expense_date_first (a b : ExpenseRow) : bool :=
  date_ltb (exp_date b) (exp_date a)
  || (date_eqb (exp_date a) (exp_date b) && (exp_created_at b <=? exp_created_at a)).

(** [SELECT * FROM expenses WHERE date = $1 ORDER BY created_at DESC]. *)
Definition select_expenses_daily (p_date : string) : Store (list ExpenseRow) :=
  d <- lift (date_in p_date) ;;
  all <- gets (fun db => rows (t_expenses db)) ;;
  ret (sort_by newest_expense_first (filter (fun r => date_eqb (exp_date r) d) all)).

(** [SELECT * FROM expenses WHERE date >= $1 AND date <= $2
    ORDER BY date DESC, created_at DESC]. *)
Definition select_expenses_between (p_start p_end : string) : Store (list ExpenseRow) :=
  d1 <- lift (date_in p_start) ;;
  d2 <- lift (date_in p_end) ;;
  all <- gets (fun db => rows (t_expenses db)) ;;
  ret (sort_by latest_expense_date_first
         (filter (fun r => date_leb d1 (exp_date r) && date_leb (exp_date r) d2) all)).

(** [DELETE FROM expenses WHERE id = $1 RETURNING *]. *)
Definition delete_expense (p_id : string) : Store (list ExpenseRow) :=
  n <- lift (int4_in p_id) ;;
  all <- gets (fun db => rows (t_expenses db)) ;;
  modify (fun db =>
            set_expenses
              (with_rows (filter (fun r => negb (exp_id r =? n)) all) (t_expenses db)) db) ;;;
  ret (filter (fun r => exp_id r =? n) all).

(** *** customers *)

(** [INSERT INTO customers (name, phone, email) VALUES ($1, $2, $3)
    RETURNING *]; [name] is UNIQUE NOT NULL. *)
Definition insert_customer (p_name p_phone p_email : option string) (now : Z)
  : Store CustomerRow :=
  lift (check_columns customers ["name"; "phone"; "email"]) ;;;
  nm <- lift (nullable (varchar 255) p_name) ;;
  ph <- lift (nullable (varchar 50) p_phone) ;;
  em <- lift (nullable (varchar 255) p_email) ;;
  new_id <- gets (fun db => next_id (t_customers db)) ;;
  modify (fun db => set_customers (bump (t_customers db)) db) ;;;
  match nm with
  | Some nm =>
      all <- gets (fun db => rows (t_customers db)) ;;
      if existsb (fun c => String.eqb (cust_name c) nm) all then raise unique_violation
      else
        let row := {| cust_id := new_id; cust_name := nm; cust_phone := ph;
                      cust_email := em; cust_created_at := now |} in
        modify (fun db => set_customers (append row (t_customers db)) db) ;;;
        ret row
  | None => raise not_null_violation
  end.

(** [SELECT * FROM customers ORDER BY name]. *)
Definition select_customers : Store (list CustomerRow) :=
  coll <- gets collation ;;
  all <- gets (fun db => rows (t_customers db)) ;;
  ret (sort_by (fun a b => coll (cust_name a) (cust_name b)) all).

(** [SELECT * FROM customers WHERE id = $1]. *)
Definition select_customer (p_id : string) : Store (list CustomerRow) :=
  n <- lift (int4_in p_id) ;;
  all <- gets (fun db => rows (t_customers db)) ;;
  ret (filter (fun c => cust_id c =? n) all).

(** *** services, staff, expense_types *)

(** [INSERT INTO <t> (<cols>) VALUES (...) RETURNING *], where [p_name] is
    the parameter bound to [name] and [v_active] the literal given for
    [active] ([DEFAULT true] when the statement does not name the column).
    A parameter bound to a column the table does not have never comes
    into play: the statement is refused first. *)
Definition insert_lookup (t : lookup_table) (cols : list string)
    (p_name : option string) (v_active : option bool) : Store LookupRow :=
  lift (check_columns (table_of t) cols) ;;;
  nm <- lift (nullable (varchar 255)
                (if existsb (String.eqb "name") cols then p_name else None)) ;;
  new_id <- gets (fun db => next_id (lookup t db)) ;;
  modify (fun db => set_lookup t (bump (lookup t db)) db) ;;;
  match nm with
  | Some nm =>
      all <- gets (fun db => rows (lookup t db)) ;;
      if existsb (fun r => String.eqb (name r) nm) all then raise unique_violation
      else
        let row := {| id := new_id; name := nm;
                      active := if existsb (String.eqb "active") cols then v_active
                                else Some true |} in
        modify (fun db => set_lookup t (append row (lookup t db)) db) ;;;
        ret row
  | None => raise not_null_violation
  end.

(** [INSERT INTO <t> (name, active) VALUES ($1, true)
    ON CONFLICT (name) DO NOTHING]: no row and no error when the name is
    taken. *)
Definition insert_lookup_do_nothing (t : lookup_table) (p_name : option string)
  : Store (list LookupRow) :=
  lift (check_columns (table_of t) ["name"; "active"]) ;;;
  nm <- lift (nullable (varchar 255) p_name) ;;
  new_id <- gets (fun db => next_id (lookup t db)) ;;
  modify (fun db => set_lookup t (bump (lookup t db)) db) ;;;
  match nm with
  | Some nm =>
      all <- gets (fun db => rows (lookup t db)) ;;
      if existsb (fun r => String.eqb (name r) nm) all then ret []
      else
        let row := {| id := new_id; name := nm; active := Some true |} in
        modify (fun db => set_lookup t (append row (lookup t db)) db) ;;;
        ret [row]
  | None => raise not_null_violation
  end.

(** [SELECT COUNT( * ) FROM <t>]. *)
Definition count_lookup (t : lookup_table) : Store Z :=
  gets (fun db => count_rows (rows (lookup t db))).

Definition is_active (r : LookupRow) : bool :=
  option_eqb Bool.eqb (active r) (Some true).

(** [SELECT * FROM <t> ORDER BY name] and
    [SELECT * FROM <t> WHERE active = true ORDER BY name]. *)
Definition select_lookup (t : lookup_table) (active_only : bool)
  : Store (list LookupRow) :=
  coll <- gets collation ;;
  all <- gets (fun db => rows (lookup t db)) ;;
  ret (sort_by (fun a b => coll (name a) (name b))
         (if active_only then filter is_active all else all)).

Definition deactivated (r : LookupRow) : LookupRow :=
  {| id := id r; name := name r; active := Some false |}.

(** [UPDATE <t> SET active = false WHERE id = $1 RETURNING *]. *)
Definition deactivate_lookup (t : lookup_table) (p_id : string)
  : Store (list LookupRow) :=
  lift (check_columns (table_of t) ["active"; "id"]) ;;;
  n <- lift (int4_in p_id) ;;
  all <- gets (fun db => rows (lookup t db)) ;;
  modify (fun db =>
            set_lookup t
              (with_rows (map (fun r => if id r =? n then deactivated r else r) all)
                 (lookup t db)) db) ;;;
  ret (map deactivated (filter (fun r => id r =? n) all)).

(** *** Aggregates of the reports *)

(** A row of [SELECT payment_type, COUNT( * ) as count, SUM(...) as total
    ... GROUP BY payment_type]. *)
Record PaymentGroup := {
  grp_payment_type : string;
  grp_count : Z;
  grp_total : Decimal
}.

(** The row of [SELECT COUNT( * ) as count, SUM(...) as total]: SUM over
    no row is NULL. *)
Record Totals := {
  agg_count : Z;
  agg_total : option Decimal
}.

Definition sum_or_null (l : list Decimal) : option Decimal :=
  match l with
  | [] => None
  | _ => Some (sum_Z l)
  end.

Definition records_on (d : Date) (all : list RecordRow) : list RecordRow :=
  filter (fun r => date_eqb (rec_date r) d) all.

Definition expenses_on (d : Date) (all : list ExpenseRow) : list ExpenseRow :=
  filter (fun r => date_eqb (exp_date r) d) all.

(** [GROUP BY payment_type] with [COUNT( * )] and [SUM(price)]: one row
    for each payment type among the selected records. *)
Definition group_records (selected : list RecordRow) : list PaymentGroup :=
  map (fun pt =>
         let g := filter (fun r => String.eqb (rec_payment_type r) pt) selected in
         {| grp_payment_type := pt; grp_count := count_rows g;
            grp_total := sum_Z (map rec_price g) |})
    (distinct String.eqb (map rec_payment_type selected)).

Definition group_expenses (selected : list ExpenseRow) : list PaymentGroup :=
  map (fun pt =>
         let g := filter (fun r => String.eqb (exp_payment_type r) pt) selected in
         {| grp_payment_type := pt; grp_count := count_rows g;
            grp_total := sum_Z (map exp_amount g) |})
    (distinct String.eqb (map exp_payment_type selected)).

Definition record_totals (selected : list RecordRow) : Totals :=
  {| agg_count := count_rows selected;
     agg_total := sum_or_null (map rec_price selected) |}.

Definition expense_totals (selected : list ExpenseRow) : Totals :=
  {| agg_count := count_rows selected;
     agg_total := sum_or_null (map exp_amount selected) |}.

(** [SELECT payment_type, COUNT( * ) as count, SUM(price) as total
    FROM records WHERE date = $1 GROUP BY payment_type]. *)
Definition income_by_payment_type (p_date : string) : Store (list PaymentGroup) :=
  d <- lift (date_in p_date) ;;
  all <- gets (fun db => rows (t_records db)) ;;
  ret (group_records (records_on d all)).

(** [SELECT payment_type, COUNT( * ) as count, SUM(amount) as total
    FROM expenses WHERE date = $1 GROUP BY payment_type]. *)
Definition expenses_by_payment_type (p_date : string) : Store (list PaymentGroup) :=
  d <- lift (date_in p_date) ;;
  all <- gets (fun db => rows (t_expenses db)) ;;
  ret (group_expenses (expenses_on d all)).

(** [SELECT COUNT( * ) as count, SUM(price) as total FROM records
    WHERE date = $1]: one row, whatever the table holds. *)
Definition total_income (p_date : string) : Store (list Totals) :=
  d <- lift (date_in p_date) ;;
  all <- gets (fun db => rows (t_records db)) ;;
  ret [record_totals (records_on d all)].

(** [SELECT COUNT( * ) as count, SUM(amount) as total FROM expenses
    WHERE date = $1]. *)
Definition total_expenses (p_date : string) : Store (list Totals) :=
  d <- lift (date_in p_date) ;;
  all <- gets (fun db => rows (t_expenses db)) ;;
  ret [expense_totals (expenses_on d all)].

(** *** AVG over NUMERIC

    The store divides the sum by the count as NUMERIC values and rounds
    the quotient to a number of decimals that it chooses from the two
    operands, so as to keep at least sixteen significant digits.  It
    keeps a NUMERIC as digits of base 10000, and estimates the size of
    the quotient from the weight (the position of the first digit that
    is not zero, in that base) and the first digit of each operand. *)

(** The weight and the first digit in base 10000 of a positive integer. *)
Fixpoint leading_from (fuel : nat) (n : Z) : Z * Z :=
  match fuel with
  | O => (0, n)
  | S fuel' =>
      if n <? 10000 then (0, n)
      else let '(w, d) := leading_from fuel' (n / 10000) in (w + 1, d)
  end.

Definition leading (n : Z) : Z * Z := leading_from (Z.to_nat (Z.log2 n)) n.

(** The same for an amount of two decimals, given in hundredths; zero has
    weight 0 and first digit 0. *)
Definition numeric_leading (c : Decimal) : Z * Z :=
  let ip := Z.abs c / 100 in
  let fp := Z.abs c mod 100 in
  if 0 <? ip then leading ip
  else if 0 <? fp then (-1, fp * 100)
  else (0, 0).

(** The number of decimals of the quotient of a sum of two decimals by a
    count: 16 less four times the estimated weight of the quotient, not
    below the two decimals of the sum, and at most 1000. *)
Definition div_scale (sum : Decimal) (n : Z) : Z :=
  let '(w1, f1) := numeric_leading sum in
  let '(w2, f2) := leading n in
  let qweight := if f1 <=? f2 then w1 - w2 - 1 else w1 - w2 in
  Z.min 1000 (Z.max (16 - 4 * qweight) 2).

(** The quotient of [sum] hundredths by [n], in units of [10 ^ - scale],
    rounded to the nearest unit, a half away from zero. *)
Definition rounded_quotient (sum : Decimal) (n scale : Z) : Z :=
  Z.sgn sum * ((2 * Z.abs sum * 10 ^ (scale - 2) + n) / (2 * n)).

(** AVG(price) over the rows of a group, in currency units.  (A group
    has at least one row; over no row AVG is NULL, which the model does
    not need.) *)
Definition average (l : list Decimal) : Q :=
  let s := div_scale (sum_Z l) (count_rows l) in
  rounded_quotient (sum_Z l) (count_rows l) s # Z.to_pos (10 ^ s).

Record StaffPerformanceRow := {
  sp_staff : string;
  sp_service_count : Z;
  sp_total_revenue : Decimal;
  sp_average_price : Q;
  sp_services_provided : list (option string)
}.

Definition staff_of (r : RecordRow) : list string :=
  match rec_staff r with
  | Some s => [s]
  | None => []
  end.

Definition in_range (d1 d2 : Date) (r : RecordRow) : bool :=
  date_leb d1 (rec_date r) && date_leb (rec_date r) d2.

(** The rows of [... WHERE date >= $1 AND date <= $2 AND staff IS NOT NULL]. *)
Definition with_staff_in_range (d1 d2 : Date) (all : list RecordRow) : list RecordRow :=
  filter (fun r => in_range d1 d2 r && is_some (rec_staff r)) all.

(** Those of them that belong to the group of [s]. *)
Definition staff_group (d1 d2 : Date) (s : string) (all : list RecordRow)
  : list RecordRow :=
  filter (fun r => option_eqb String.eqb (rec_staff r) (Some s))
    (with_staff_in_range d1 d2 all).

(** The aggregates of one group.  [array_agg(DISTINCT service)] holds
    every service of the group once, NULL included; the store returns
    them sorted, the model at their first occurrence, and nothing below
    depends on their order. *)
Definition staff_row (d1 d2 : Date) (all : list RecordRow) (s : string)
  : StaffPerformanceRow :=
  let g := staff_group d1 d2 s all in
  {| sp_staff := s; sp_service_count := count_rows g;
     sp_total_revenue := sum_Z (map rec_price g);
     sp_average_price := average (map rec_price g);
     sp_services_provided := distinct (option_eqb String.eqb) (map rec_service g) |}.

(** [ORDER BY total_revenue DESC]; rows of equal revenue keep the order
    of the groups. *)
Definition highest_revenue_first (a b : StaffPerformanceRow) : bool :=
  sp_total_revenue b <=? sp_total_revenue a.

Definition staff_report (d1 d2 : Date) (all : list RecordRow)
  : list StaffPerformanceRow :=
  sort_by highest_revenue_first
    (map (staff_row d1 d2 all)
       (distinct String.eqb (flat_map staff_of (with_staff_in_range d1 d2 all)))).

(** [SELECT staff, COUNT( * ) as service_count, SUM(price) as total_revenue,
    AVG(price) as average_price,
    array_agg(DISTINCT service) as services_provided
    FROM records WHERE date >= $1 AND date <= $2 AND staff IS NOT NULL
    GROUP BY staff ORDER BY total_revenue DESC]. *)
Definition staff_performance (p_start p_end : string)
  : Store (list StaffPerformanceRow) :=
  d1 <- lift (date_in p_start) ;;
  d2 <- lift (date_in p_end) ;;
  all <- gets (fun db => rows (t_records db)) ;;
  ret (staff_report d1 d2 all).

Record ServiceAnalysisRow := {
  sa_service : string;
  sa_count : Z;
  sa_total_revenue : Decimal;
  sa_average_price : Q;
  sa_min_price : Decimal;
  sa_max_price : Decimal
}.

Definition service_of (r : RecordRow) : list string :=
  match rec_service r with
  | Some s => [s]
  | None => []
  end.

Definition min_Z (l : list Z) : Z :=
  match l with
  | [] => 0
  | x :: l' => fold_right Z.min x l'
  end.

Definition max_Z (l : list Z) : Z :=
  match l with
  | [] => 0
  | x :: l' => fold_right Z.max x l'
  end.

(** [SELECT service, COUNT( * ) as count, SUM(price) as total_revenue,
    AVG(price) as average_price, MIN(price) as min_price,
    MAX(price) as max_price
    FROM records WHERE date >= $1 AND date <= $2 AND service IS NOT NULL
    GROUP BY service ORDER BY count DESC]. *)
Definition service_analysis (p_start p_end : string)
  : Store (list ServiceAnalysisRow) :=
  d1 <- lift (date_in p_start) ;;
  d2 <- lift (date_in p_end) ;;
  all <- gets (fun db => rows (t_records db)) ;;
  let selected := filter (fun r => in_range d1 d2 r && is_some (rec_service r)) all in
  ret (sort_by (fun a b => sa_count b <=? sa_count a)
         (map (fun s =>
                 let g := filter (fun r => option_eqb String.eqb (rec_service r) (Some s))
                            selected in
                 let prices := map rec_price g in
                 {| sa_service := s; sa_count := count_rows g;
                    sa_total_revenue := sum_Z prices;
                    sa_average_price := average prices;
                    sa_min_price := min_Z prices; sa_max_price := max_Z prices |})
            (distinct String.eqb (flat_map service_of selected)))).

End Store.

(** ** setupDatabase.js: the seed rows *)

Module Setup.
Import Pg Schema Store.
Local Open Scope store_scope.

Definition defaultServices : list string :=
  ["Saç"; "Sakal"; "Saç Sakal"; "Bakım"; "Ürün"; "Boya"; "Manikür"; "Pedikür";
   "Manikür Pedikür"; "Ağda"; "Kaş"].

Definition defaultStaff : list string := ["Ufuk"; "Muhammet"; "Manikürist"; "Kalfa"].

Definition defaultExpenseTypes : list string :=
  ["Kira"; "Elektrik Faturası"; "Su Faturası"; "Doğalgaz Faturası";
   "Sgk Prim Ödemeleri"; "İnternet ve Telefon Faturası"; "Kredi Finansbank Ödemesi";
   "Kurutemizleme Giderleri"; "Muhasebe ve Hukuk Giderleri"; "Genel Giderler";
   "Yiyecek İçecek Giderleri"; "Malzeme Alımları"; "Ufuk Maaş / Avans";
   "Muhammet Maaş / Avans"; "Manikürist Maaş / Avans"; "Eleman Maaş / Avans";
   "Çıraklar Maaş / Avans"].

Fixpoint for_each {A : Type} (f : A -> Store unit) (l : list A) : Store unit :=
  match l with
  | [] => ret tt
  | x :: l' => f x ;;; for_each f l'
  end.

(** Lines 98-159: a table is seeded only when it is empty. *)
Definition seed (t : lookup_table) (names : list string) : Store unit :=
  n <- count_lookup t ;;
  if n =? 0 then
    for_each (fun nm => insert_lookup_do_nothing t (Some nm) ;;; ret tt) names
  else ret tt.

(** [setupDatabase()], on a database whose tables exist. *)
Definition setupDatabase : Store unit :=
  seed Services defaultServices ;;;
  seed Staff defaultStaff ;;;
  seed ExpenseTypes defaultExpenseTypes.

(** The database of a fresh installation. *)
Definition initial_db (coll : string -> string -> bool) : Database :=
  snd (setupDatabase (empty_db coll)).

End Setup.

(** ** JavaScript numbers *)

Module Js.
Import Pg.

(** The double nearest to an integer below 2^63. *)
Definition float_of_Z (z : Z) : float :=
  if z <? 0 then PrimFloat.opp (PrimFloat.of_uint63 (Uint63.of_Z (- z)))
  else PrimFloat.of_uint63 (Uint63.of_Z z).

(** [parseInt(count)], on the text of a BIGINT count. *)
Definition parseInt_count (n : Z) : float := float_of_Z n.

(** [parseFloat(total)], on the text of a NUMERIC sum with two decimals or
    on [null]: [NaN] for [null], otherwise the double nearest to the
    decimal value, here the correctly rounded quotient of the hundredths
    by 100 (exact for sums below 2^53 hundredths). *)
Definition parseFloat_numeric (v : option Decimal) : float :=
  match v with
  | None => PrimFloat.nan
  | Some c => PrimFloat.div (float_of_Z c) (float_of_Z 100)
  end.

(** [x || 0] on a number: 0 when [x] is 0 or [NaN]. *)
Definition or_zero (x : float) : float :=
  if PrimFloat.eqb x PrimFloat.zero || PrimFloat.is_nan x then PrimFloat.zero else x.

(** [s.padStart(targetLength, c)] for a one-character pad. *)
Fixpoint pad (n : nat) (c : ascii) (s : string) : string :=
  match n with
  | O => s
  | S n' => String c (pad n' c s)
  end.

Definition padStart (targetLength : nat) (c : ascii) (s : string) : string :=
  pad (targetLength - String.length s) c s.

End Js.

(** ** routes/api.js *)

Module Api.
Import Pg Schema Store Js.

(** What a route can catch: an error of the store, rethrown by
    [db.query], or a TypeError of the route's own code. *)
Inductive error :=
| StoreError (e : sqlstate)
| TypeError.

(** [error.code]. *)
Definition error_code (e : error) : option string :=
  match e with
  | StoreError s => Some (code s)
  | TypeError => None
  end.

Inductive outcome (A : Type) :=
| Returned (a : A)
| Thrown (e : error).
Arguments Returned {A} a.
Arguments Thrown {A} e.

Definition Handler (A : Type) : Type := Database -> outcome A * Database.

Definition hret {A : Type} (a : A) : Handler A := fun db => (Returned a, db).

Definition throw {A : Type} (e : error) : Handler A := fun db => (Thrown e, db).

Definition hbind {A B : Type} (m : Handler A) (k : A -> Handler B) : Handler B :=
  fun db =>
    match m db with
    | (Returned a, db') => k a db'
    | (Thrown e, db') => (Thrown e, db')
    end.

(** [await db.query(text, params)], db.js lines 83-103: the result of the
    store, or its error thrown again. *)
Definition query {A : Type} (stmt : Store A) : Handler A :=
  fun db =>
    match stmt db with
    | (Ok a, db') => (Returned a, db')
    | (Err e, db') => (Thrown (StoreError e), db')
    end.

Declare Scope handler_scope.
Delimit Scope handler_scope with handler.
Notation "x <- m ;; k" := (hbind m (fun x => k))
  (at level 61, m at next level, right associativity) : handler_scope.
Local Open Scope handler_scope.

(** [rows[0].field]: a TypeError when there is no first row. *)
Definition first_row {A : Type} (l : list A) : Handler A :=
  match l with
  | r :: _ => hret r
  | [] => throw TypeError
  end.

(** The totals of one side of the daily summary. *)
Record Total := {
  count : float;
  amount : float
}.

Record Side := {
  byPaymentType : list PaymentGroup;
  total : Total
}.

Record Summary := {
  sm_date : string;
  sm_income : Side;
  sm_expenses : Side;
  sm_netProfit : float
}.

(** The JSON documents the routes answer with. *)
Inductive json :=
| J_error (error : string)
| J_record (r : RecordRow)
| J_records (l : list RecordRow)
| J_record_deleted (message : string) (record : RecordRow)
| J_expense (r : ExpenseRow)
| J_expenses (l : list ExpenseRow)
| J_expense_deleted (message : string) (expense : ExpenseRow)
| J_customer (c : CustomerRow)
| J_customers (l : list CustomerRow)
| J_customer_details (customer : CustomerRow) (records : list RecordRow)
| J_lookup (r : LookupRow)
| J_lookups (l : list LookupRow)
| J_deactivated (message : string) (key : string) (r : LookupRow)
| J_summary (s : Summary)
| J_staff_performance (l : list StaffPerformanceRow)
| J_service_analysis (l : list ServiceAnalysisRow)
| J_endpoint_not_found (path : list string) (method : string)
| J_health (timestamp : Z) (environment : string)
| J_root
| J_no_content.

Record response := {
  status : nat;
  body : json
}.

(** [res.json(x)] and [res.status(n).json(x)]. *)
Definition res_json (x : json) : response := {| status := 200; body := x |}.
Definition res_status (n : nat) (x : json) : response := {| status := n; body := x |}.

Definition Route : Type := Database -> response * Database.

(** [try { ... } catch (error) { ... }]. *)
Definition try_catch (body_ : Handler response) (catch : error -> response) : Route :=
  fun db =>
    match body_ db with
    | (Returned r, db') => (r, db')
    | (Thrown e, db') => (catch e, db')
    end.

(** A parsed JSON body, as the text of each field that reaches the
    store: [None] for a field that is absent or null. *)
Definition Body : Type := string -> option string.

(** A value of [req.query]. *)
Inductive query_value :=
| Q_absent
| Q_string (s : string)
| Q_other.

(** [v === 'true']. *)
Definition is_true_string (v : query_value) : bool :=
  match v with
  | Q_string s => String.eqb s "true"
  | _ => false
  end.

(** *** Records *)

(** [POST /records], lines 9-25. *)
Definition post_records (now : Z) (b : Body) : Route :=
  try_catch
    (result_ <- query (insert_record (b "date") (b "customer_name") (b "service")
                         (b "staff") (b "price") (b "payment_type") now) ;;
     hret (res_json (J_record result_)))
    (fun _ => res_status 500 (J_error "Failed to add record")).

(** [GET /records/daily/:date], lines 28-44. *)
Definition get_records_daily (date : string) : Route :=
  try_catch
    (result_ <- query (select_records_daily date) ;;
     hret (res_json (J_records result_)))
    (fun _ => res_status 500 (J_error "Failed to fetch daily records")).

(** [GET /records/monthly/:year/:month], lines 47-65: the range ends at
    day 31 in every month. *)
Definition get_records_monthly (year month : string) : Route :=
  try_catch
    (let startDate := (year ++ "-" ++ padStart 2 "0" month ++ "-01")%string in
     let endDate := (year ++ "-" ++ padStart 2 "0" month ++ "-31")%string in
     result_ <- query (select_records_between startDate endDate) ;;
     hret (res_json (J_records result_)))
    (fun _ => res_status 500 (J_error "Failed to fetch monthly records")).

(** [DELETE /records/:id], lines 68-86. *)
Definition delete_records (id_ : string) : Route :=
  try_catch
    (result_ <- query (delete_record id_) ;;
     match result_ with
     | [] => hret (res_status 404 (J_error "Record not found"))
     | r :: _ => hret (res_json (J_record_deleted "Record deleted successfully" r))
     end)
    (fun _ => res_status 500 (J_error "Failed to delete record")).

(** *** Expenses *)

(** [POST /expenses], lines 91-107. *)
Definition post_expenses (now : Z) (b : Body) : Route :=
  try_catch
    (result_ <- query (insert_expense (b "date") (b "type") (b "description")
                         (b "amount") (b "payment_type") now) ;;
     hret (res_json (J_expense result_)))
    (fun _ => res_status 500 (J_error "Failed to add expense")).

(** [GET /expenses/daily/:date], lines 110-126. *)
Definition get_expenses_daily (date : string) : Route :=
  try_catch
    (result_ <- query (select_expenses_daily date) ;;
     hret (res_json (J_expenses result_)))
    (fun _ => res_status 500 (J_error "Failed to fetch daily expenses")).

(** [GET /expenses/monthly/:year/:month], lines 129-147. *)
Definition get_expenses_monthly (year month : string) : Route :=
  try_catch
    (let startDate := (year ++ "-" ++ padStart 2 "0" month ++ "-01")%string in
     let endDate := (year ++ "-" ++ padStart 2 "0" month ++ "-31")%string in
     result_ <- query (select_expenses_between startDate endDate) ;;
     hret (res_json (J_expenses result_)))
    (fun _ => res_status 500 (J_error "Failed to fetch monthly expenses")).

(** [DELETE /expenses/:id], lines 150-168. *)
Definition delete_expenses (id_ : string) : Route :=
  try_catch
    (result_ <- query (delete_expense id_) ;;
     match result_ with
     | [] => hret (res_status 404 (J_error "Expense not found"))
     | r :: _ => hret (res_json (J_expense_deleted "Expense deleted successfully" r))
     end)
    (fun _ => res_status 500 (J_error "Failed to delete expense")).

(** *** Customers *)

(** [GET /customers], lines 173-184. *)
Definition get_customers : Route :=
  try_catch
    (result_ <- query select_customers ;;
     hret (res_json (J_customers result_)))
    (fun _ => res_status 500 (J_error "Failed to fetch customers")).

(** [GET /customers/:id], lines 187-216. *)
Definition get_customer (id_ : string) : Route :=
  try_catch
    (customerResult <- query (select_customer id_) ;;
     match customerResult with
     | [] => hret (res_status 404 (J_error "Customer not found"))
     | c :: _ =>
         recordsResult <- query (select_records_of_customer (cust_name c)) ;;
         hret (res_json (J_customer_details c recordsResult))
     end)
    (fun _ => res_status 500 (J_error "Failed to fetch customer details")).

(** The catch block of the three POST routes that test for a unique
    violation: [error.code === '23505']. *)
Definition duplicate_or (duplicate generic : string) (e : error) : response :=
  if option_eqb String.eqb (error_code e) (Some "23505")
  then res_status 400 (J_error duplicate)
  else res_status 500 (J_error generic).

(** [POST /customers], lines 219-239. *)
Definition post_customers (now : Z) (b : Body) : Route :=
  try_catch
    (result_ <- query (insert_customer (b "name") (b "phone") (b "email") now) ;;
     hret (res_json (J_customer result_)))
    (duplicate_or "Customer with this name already exists" "Failed to add customer").

(** *** Services *)

(** The three list routes, lines 244-258, 310-324 and 376-390, differ in
    the table and the message only. *)
Definition get_lookups (t : lookup_table) (failure : string) (includeInactive_ : query_value)
  : Route :=
  try_catch
    (let includeInactive := is_true_string includeInactive_ in
     result_ <- query (if includeInactive then select_lookup t false
                       else select_lookup t true) ;;
     hret (res_json (J_lookups result_)))
    (fun _ => res_status 500 (J_error failure)).

(** [GET /services], lines 244-258. *)
Definition get_services : query_value -> Route :=
  get_lookups Services "Failed to fetch services".

(** [POST /services], lines 261-281: the statement names the columns
    [name], [default_price] and [active], with [$1] for the name, [$2] for
    the default price and the literal [true]. *)
Definition post_services (b : Body) : Route :=
  try_catch
    (result_ <- query (insert_lookup Services ["name"; "default_price"; "active"]
                         (b "name") (Some true)) ;;
     hret (res_json (J_lookup result_)))
    (duplicate_or "Service with this name already exists" "Failed to add service").

(** The two soft-delete routes, lines 284-305 and 350-371. *)
Definition delete_lookup (t : lookup_table) (missing message key failure : string)
    (id_ : string) : Route :=
  try_catch
    (result_ <- query (deactivate_lookup t id_) ;;
     match result_ with
     | [] => hret (res_status 404 (J_error missing))
     | r :: _ => hret (res_json (J_deactivated message key r))
     end)
    (fun _ => res_status 500 (J_error failure)).

(** [DELETE /services/:id], lines 284-305. *)
Definition delete_services : string -> Route :=
  delete_lookup Services "Service not found" "Service deactivated successfully"
    "service" "Failed to deactivate service".

(** *** Staff *)

(** [GET /staff], lines 310-324. *)
Definition get_staff : query_value -> Route :=
  get_lookups Staff "Failed to fetch staff".

(** [POST /staff], lines 327-347. *)
Definition post_staff (b : Body) : Route :=
  try_catch
    (result_ <- query (insert_lookup Staff ["name"; "active"] (b "name") (Some true)) ;;
     hret (res_json (J_lookup result_)))
    (duplicate_or "Staff member with this name already exists"
       "Failed to add staff member").

(** [DELETE /staff/:id], lines 350-371. *)
Definition delete_staff : string -> Route :=
  delete_lookup Staff "Staff member not found" "Staff member deactivated successfully"
    "staff" "Failed to deactivate staff member".

(** *** Expense types *)

(** [GET /expense-types], lines 376-390. *)
Definition get_expense_types : query_value -> Route :=
  get_lookups ExpenseTypes "Failed to fetch expense types".

(** *** Reports *)

(** [{ count: parseInt(row.count) || 0, amount: parseFloat(row.total) || 0 }]. *)
Definition total_of (row : Totals) : Total :=
  {| count := or_zero (parseInt_count (agg_count row));
     amount := or_zero (parseFloat_numeric (agg_total row)) |}.

(** The [summary] object of lines 443-461. *)
Definition summary_object (date : string) (incomeResult expenseResult : list PaymentGroup)
    (totalIncome totalExpense : Totals) : Summary :=
  {| sm_date := date;
     sm_income := {| byPaymentType := incomeResult; total := total_of totalIncome |};
     sm_expenses := {| byPaymentType := expenseResult; total := total_of totalExpense |};
     sm_netProfit :=
       PrimFloat.sub (or_zero (parseFloat_numeric (agg_total totalIncome)))
         (or_zero (parseFloat_numeric (agg_total totalExpense))) |}.

(** [GET /reports/daily-summary/:date], lines 395-468.  The route awaits
    four statements one after the other, each on a connection of the
    pool and outside a transaction.  The model serves one request at a
    time: no statement of another request runs between the four, and all
    four read the same rows.  What is stated of a summary holds of a
    request that is served in this way. *)
Definition get_daily_summary (date : string) : Route :=
  try_catch
    (incomeResult <- query (income_by_payment_type date) ;;
     expenseResult <- query (expenses_by_payment_type date) ;;
     totalIncomeResult <- query (total_income date) ;;
     totalExpenseResult <- query (total_expenses date) ;;
     totalIncome <- first_row totalIncomeResult ;;
     totalExpense <- first_row totalExpenseResult ;;
     hret (res_json
             (J_summary (summary_object date incomeResult expenseResult
                           totalIncome totalExpense))))
    (fun _ => res_status 500 (J_error "Failed to generate daily summary")).

(** [GET /reports/staff-performance/:startDate/:endDate], lines 471-494. *)
Definition get_staff_performance (startDate endDate : string) : Route :=
  try_catch
    (result_ <- query (staff_performance startDate endDate) ;;
     hret (res_json (J_staff_performance result_)))
    (fun _ => res_status 500 (J_error "Failed to generate staff performance report")).

(** [GET /reports/service-analysis/:startDate/:endDate], lines 497-521. *)
Definition get_service_analysis (startDate endDate : string) : Route :=
  try_catch
    (result_ <- query (service_analysis startDate endDate) ;;
     hret (res_json (J_service_analysis result_)))
    (fun _ => res_status 500 (J_error "Failed to generate service analysis")).

(** *** The router *)

Inductive method := GET | HEAD | POST | PUT | PATCH | DELETE | OPTIONS.

(** A request below the mount point: the method, the path segments, the
    query string and the body, as Express hands them to the routes; the
    clock gives [CURRENT_TIMESTAMP]. *)
Record request := {
  req_method : method;
  req_path : list string;
  req_query : string -> query_value;
  req_body : Body;
  req_now : Z
}.

(** Express compares the fixed segments of a route path without regard
    to the case of the letters A to Z ([case sensitive routing] is off
    unless the application turns it on): GET /api/STAFF is GET
    /api/staff. *)
Definition lower (c : ascii) : ascii :=
  let n := N_of_ascii c in
  if ((65 <=? n) && (n <=? 90))%N then ascii_of_N (n + 32) else c.

Fixpoint lowercase (s : string) : string :=
  match s with
  | EmptyString => EmptyString
  | String c s' => String (lower c) (lowercase s')
  end.

Definition segment (a name : string) : bool := String.eqb (lowercase a) name.

(** The route a request matches, if any.  A HEAD request runs the GET
    route. *)
Definition match_route (req : request) : option Route :=
  let q := req_query req in
  let b := req_body req in
  let now := req_now req in
  match req_method req, req_path req with
  | POST, [a] =>
      if segment a "records" then Some (post_records now b)
      else if segment a "expenses" then Some (post_expenses now b)
      else if segment a "customers" then Some (post_customers now b)
      else if segment a "services" then Some (post_services b)
      else if segment a "staff" then Some (post_staff b)
      else None
  | (GET | HEAD), [a] =>
      if segment a "customers" then Some get_customers
      else if segment a "services" then Some (get_services (q "includeInactive"))
      else if segment a "staff" then Some (get_staff (q "includeInactive"))
      else if segment a "expense-types"
      then Some (get_expense_types (q "includeInactive"))
      else None
  | (GET | HEAD), [a; x] =>
      if segment a "customers" then Some (get_customer x) else None
  | (GET | HEAD), [a; k; x] =>
      if segment a "records" && segment k "daily" then Some (get_records_daily x)
      else if segment a "expenses" && segment k "daily"
      then Some (get_expenses_daily x)
      else if segment a "reports" && segment k "daily-summary"
      then Some (get_daily_summary x)
      else None
  | (GET | HEAD), [a; k; x; y] =>
      if segment a "records" && segment k "monthly"
      then Some (get_records_monthly x y)
      else if segment a "expenses" && segment k "monthly"
      then Some (get_expenses_monthly x y)
      else if segment a "reports" && segment k "staff-performance"
      then Some (get_staff_performance x y)
      else if segment a "reports" && segment k "service-analysis"
      then Some (get_service_analysis x y)
      else None
  | DELETE, [a; x] =>
      if segment a "records" then Some (delete_records x)
      else if segment a "expenses" then Some (delete_expenses x)
      else if segment a "services" then Some (delete_services x)
      else if segment a "staff" then Some (delete_staff x)
      else None
  | _, _ => None
  end.

(** The list route and the soft-delete route of each lookup table:
    the router has no DELETE route for expense types. *)
Definition list_route (t : lookup_table) : query_value -> Route :=
  match t with
  | Services => get_services
  | Staff => get_staff
  | ExpenseTypes => get_expense_types
  end.

Definition soft_delete_route (t : lookup_table) : option (string -> Route) :=
  match t with
  | Services => Some delete_services
  | Staff => Some delete_staff
  | ExpenseTypes => None
  end.

End Api.

(** ** app.js *)

Module App.
Import Pg Schema Store Api.

Definition method_name (m : method) : string :=
  match m with
  | GET => "GET" | HEAD => "HEAD" | POST => "POST" | PUT => "PUT"
  | PATCH => "PATCH" | DELETE => "DELETE" | OPTIONS => "OPTIONS"
  end.

(** Lines 17 and 37-78: [cors()], which answers every OPTIONS request
    itself with status 204 and no body, before any route; then the
    health probe, the root document, the routes mounted under [/api],
    and the 404 handler after them.  [NODE_ENV] is the environment
    variable. *)
Definition handle (NODE_ENV : option string) (req : request) : Route :=
  fun db =>
    let not_found :=
      (res_status 404 (J_endpoint_not_found (req_path req) (method_name (req_method req))),
       db) in
    match req_method req, req_path req with
    | OPTIONS, _ => (res_status 204 J_no_content, db)
    | (GET | HEAD), [] => (res_json J_root, db)
    | m, a :: rest =>
        if segment a "api" then
          match match_route {| req_method := m; req_path := rest;
                               req_query := req_query req; req_body := req_body req;
                               req_now := req_now req |} with
          | Some route => route db
          | None => not_found
          end
        else
          match m, rest with
          | (GET | HEAD), [] =>
              if segment a "health" then
                (res_json (J_health (req_now req)
                             (match NODE_ENV with
                              | Some e => if String.eqb e "" then "development" else e
                              | None => "development"
                              end)), db)
              else not_found
          | _, _ => not_found
          end
    | _, _ => not_found
    end.

(** The databases the application can be in: the fresh installation, and
    what any request makes of one of them. *)
Inductive reachable (coll : string -> string -> bool) : Database -> Prop :=
| reachable_initial : reachable coll (Setup.initial_db coll)
| reachable_step (db : Database) (env : option string) (req : request) :
    reachable coll db -> reachable coll (snd (handle env req db)).

End App.

(** ** What the schema keeps true, and what a request can change *)

Module Invariant.
Import Pg Schema Store.

(** [id SERIAL PRIMARY KEY]: no two rows share an id, and every id was
    drawn from the sequence. *)
Definition keyed {R : Type} (key : R -> Z) (t : Table R) : Prop :=
  NoDup (map key (rows t)) /\ Forall (fun r => key r < next_id t) (rows t).

(** [name ... UNIQUE]. *)
Definition unique_names {R : Type} (nm : R -> string) (t : Table R) : Prop :=
  NoDup (map nm (rows t)).

(** The CHECK constraint of [payment_type]. *)
Definition record_payment_ok (r : RecordRow) : Prop :=
  In (rec_payment_type r) payment_types.

Definition expense_payment_ok (r : ExpenseRow) : Prop :=
  In (exp_payment_type r) payment_types.

Record db_ok (db : Database) : Prop := {
  ok_customers : keyed cust_id (t_customers db);
  ok_customer_names : unique_names cust_name (t_customers db);
  ok_lookup : forall t, keyed id (lookup t db);
  ok_lookup_names : forall t, unique_names name (lookup t db);
  ok_records : keyed rec_id (t_records db);
  ok_expenses : keyed exp_id (t_expenses db);
  ok_record_payment : Forall record_payment_ok (rows (t_records db));
  ok_expense_payment : Forall expense_payment_ok (rows (t_expenses db))
}.

(** The changes a statement of the application makes to the database;
    [allowed] tells which of the three lookup tables may change. *)
Inductive change (allowed : lookup_table -> Prop) (db : Database) : Database -> Prop :=
| bump_records : change allowed db (set_records (bump (t_records db)) db)
| add_record (row : RecordRow) :
    rec_id row = next_id (t_records db) ->
    record_payment_ok row ->
    change allowed db (set_records (append row (bump (t_records db))) db)
| remove_records (f : RecordRow -> bool) :
    change allowed db
      (set_records (with_rows (filter f (rows (t_records db))) (t_records db)) db)
| bump_expenses : change allowed db (set_expenses (bump (t_expenses db)) db)
| add_expense (row : ExpenseRow) :
    exp_id row = next_id (t_expenses db) ->
    expense_payment_ok row ->
    change allowed db (set_expenses (append row (bump (t_expenses db))) db)
| remove_expenses (f : ExpenseRow -> bool) :
    change allowed db
      (set_expenses (with_rows (filter f (rows (t_expenses db))) (t_expenses db)) db)
| bump_customers : change allowed db (set_customers (bump (t_customers db)) db)
| add_customer (row : CustomerRow) :
    cust_id row = next_id (t_customers db) ->
    ~ In (cust_name row) (map cust_name (rows (t_customers db))) ->
    change allowed db (set_customers (append row (bump (t_customers db))) db)
| bump_lookup (t : lookup_table) :
    allowed t -> change allowed db (set_lookup t (bump (lookup t db)) db)
| add_lookup (t : lookup_table) (row : LookupRow) :
    allowed t ->
    id row = next_id (lookup t db) ->
    ~ In (name row) (map name (rows (lookup t db))) ->
    change allowed db (set_lookup t (append row (bump (lookup t db))) db)
| deactivate (t : lookup_table) (n : Z) :
    allowed t ->
    change allowed db
      (set_lookup t
         (with_rows (map (fun r => if id r =? n then deactivated r else r)
                       (rows (lookup t db)))
            (lookup t db)) db).

(** Zero or more changes. *)
Inductive changes (allowed : lookup_table -> Prop) (db : Database) : Database -> Prop :=
| changes_none : changes allowed db db
| changes_more (db1 db2 : Database) :
    changes allowed db db1 -> change allowed db1 db2 -> changes allowed db db2.

(** The lookup tables a route writes to: there is a POST and a DELETE
    route for services and for staff, none for expense types. *)
Definition routed (t : lookup_table) : Prop := t <> ExpenseTypes.

Definition any_table (t : lookup_table) : Prop := True.

End Invariant.

(** ** Sample requests and databases for the examples *)

Module Sample.
Import Pg Schema Store Api App.

(** A JSON body given by its fields. *)
Definition fields (l : list (string * string)) : Body :=
  fun k =>
    match find (fun kv => String.eqb (fst kv) k) l with
    | Some kv => Some (snd kv)
    | None => None
    end.

Definition no_query : string -> query_value := fun _ => Q_absent.

(** A fresh installation whose collation compares bytes. *)
Definition db0 : Database := Setup.initial_db String.leb.

Definition cash_100 : Body :=
  fields [("date", "2024-03-10"); ("customer_name", "Ali"); ("service", "Sakal");
          ("staff", "Ufuk"); ("price", "100"); ("payment_type", "Nakit")].

Definition card_50 : Body :=
  fields [("date", "2024-03-10"); ("customer_name", "Veli"); ("service", "Boya");
          ("staff", "Kalfa"); ("price", "50.00"); ("payment_type", "Kart")].

(** Two records on 2024-03-10: 100 in cash, 50 by card. *)
Definition db_day : Database :=
  snd (post_records 2 card_50 (snd (post_records 1 cash_100 db0))).

(** The first of them, as stored. *)
Definition cash_row : RecordRow :=
  {| rec_id := 1; rec_date := mkDate 2024 3 10; rec_customer_name := Some "Ali";
     rec_service := Some "Sakal"; rec_staff := Some "Ufuk"; rec_price := 10000;
     rec_payment_type := "Nakit"; rec_created_at := 1 |}.

Definition card_row : RecordRow :=
  {| rec_id := 2; rec_date := mkDate 2024 3 10; rec_customer_name := Some "Veli";
     rec_service := Some "Boya"; rec_staff := Some "Kalfa"; rec_price := 5000;
     rec_payment_type := "Kart"; rec_created_at := 2 |}.

Definition shave_100 : Body :=
  fields [("date", "2024-03-04"); ("service", "Sakal"); ("staff", "Muhammet");
          ("price", "100"); ("payment_type", "Nakit")].

Definition dye_200 : Body :=
  fields [("date", "2024-03-18"); ("service", "Boya"); ("staff", "Muhammet");
          ("price", "200"); ("payment_type", "Banka")].

(** Two records of one staff member in March 2024, 100 and 200, on two
    services. *)
Definition db_staff : Database :=
  snd (post_records 2 dye_200 (snd (post_records 1 shave_100 db0))).

Definition shave_row : RecordRow :=
  {| rec_id := 1; rec_date := mkDate 2024 3 4; rec_customer_name := None;
     rec_service := Some "Sakal"; rec_staff := Some "Muhammet"; rec_price := 10000;
     rec_payment_type := "Nakit"; rec_created_at := 1 |}.

Definition dye_row : RecordRow :=
  {| rec_id := 2; rec_date := mkDate 2024 3 18; rec_customer_name := None;
     rec_service := Some "Boya"; rec_staff := Some "Muhammet"; rec_price := 20000;
     rec_payment_type := "Banka"; rec_created_at := 2 |}.

(** A record with a valid payment type and no price. *)
Definition no_price : Body :=
  fields [("date", "2024-03-10"); ("service", "Sakal"); ("payment_type", "Nakit")].

(** A record whose payment type is the English word, not a token. *)
Definition english_cash : Body :=
  fields [("date", "2024-03-10"); ("service", "Sakal"); ("price", "100");
          ("payment_type", "Cash")].

Definition rent : Body :=
  fields [("date", "2024-03-01"); ("type", "Kira"); ("amount", "1500");
          ("payment_type", "Banka")].

Definition delete_expense_type_1 : request :=
  {| req_method := DELETE; req_path := ["api"; "expense-types"; "1"];
     req_query := no_query; req_body := fields []; req_now := 0 |}.

End Sample.

(** ** Further sample data *)

Module Scenario.
Import Pg Schema Store Api App.

Definition ali_body : Body := Sample.fields [("name", "Ali"); ("phone", "555 01 02")].

(** The sample day, with the customer of its first record registered. *)
Definition db_customer : Database := snd (post_customers 3 ali_body Sample.db_day).

Definition ali : CustomerRow :=
  {| cust_id := 1; cust_name := "Ali"; cust_phone := Some "555 01 02";
     cust_email := None; cust_created_at := 3 |}.

(** Two more customers, registered after Ali: Veli, then Cem. *)
Definition veli_body : Body := Sample.fields [("name", "Veli")].

Definition cem_body : Body :=
  Sample.fields [("name", "Cem"); ("email", "cem@example.com")].

Definition db_customers : Database :=
  snd (post_customers 5 cem_body (snd (post_customers 4 veli_body db_customer))).

Definition new_barber : Body := Sample.fields [("name", "Cemal")].

Definition ufuk_again : Body := Sample.fields [("name", "Ufuk")].

(** POST /api/records with the cash record of the sample day. *)
Definition post_cash : request :=
  {| req_method := POST; req_path := ["api"; "records"]; req_query := Sample.no_query;
     req_body := Sample.cash_100; req_now := 1 |}.

(** DELETE /api/records/1. *)
Definition delete_first : request :=
  {| req_method := DELETE; req_path := ["api"; "records"; "1"];
     req_query := Sample.no_query; req_body := Sample.fields []; req_now := 5 |}.

(** GET /api/staff?includeInactive=true. *)
Definition list_all_staff : request :=
  {| req_method := GET; req_path := ["api"; "staff"];
     req_query := fun k => if String.eqb k "includeInactive" then Q_string "true"
                           else Q_absent;
     req_body := Sample.fields []; req_now := 9 |}.

End Scenario.

(** ** db.js: the other helpers *)

Module DbUtil.
Import Db.

(** The double quote character. *)
Definition dquote : ascii := "034"%char.

(** [str.replace] of line 388, with the global pattern of one double
    quote and the replacement of two: every double quote of the text is
    doubled, every other character is kept. *)
Fixpoint double_quotes (str : string) : string :=
  match str with
  | EmptyString => EmptyString
  | String c str' =>
      if Ascii.eqb c dquote then String dquote (String dquote (double_quotes str'))
      else String c (double_quotes str')
  end.

(** [escapeIdentifier(str)], line 388: the text with its double quotes
    doubled, between two double quotes. *)
Definition escapeIdentifier (str : string) : string :=
  String dquote (double_quotes str ++ String dquote EmptyString).

(** [softDelete(table, where)], lines 181-183: the [update] that sets
    [deleted_at]; [now] is the value of [new Date()]. *)
Definition softDelete (table : string) (where_ : object) (now : jsval)
  : sql * list jsval :=
  update table [("deleted_at", now)] where_.

(** The columns the statement of [update] names, lines 164-168: those of
    the SET clause, [updated_at], which the template adds to every SET
    clause, and those of the WHERE clause. *)
Definition update_columns (data where_ : object) : list string :=
  keys data ++ ["updated_at"] ++ keys where_.

(** Whether every null of [conditions] comes after every value that is
    not null. *)
Fixpoint nulls_last (conditions : object) : bool :=
  match conditions with
  | [] => true
  | (_, v) :: rest =>
      if is_null v then forallb (fun kv => is_null (snd kv)) rest else nulls_last rest
  end.

(** The placeholders of the conditions that [buildWhereClause] builds
    for the entries [i], [i + 1], ... of an object, and the values it
    keeps, lines 392-399. *)
Definition condition_numbers (i : nat) (conditions : object) : list nat :=
  List.concat (map placeholders (mapi_from i where_condition conditions)).

Definition not_null_values (conditions : object) : list jsval :=
  filter (fun v => negb (is_null v)) (map snd conditions).

(** [tableExists(tableName)], lines 306-315: whether the catalog of the
    [public] schema lists the table. *)
Definition tableExists (catalog : list string) (tableName : string) : bool :=
  existsb (String.eqb tableName) catalog.

(** [initializeDatabase()], lines 321-340: the lines it logs. *)
Definition initializeDatabase (catalog : list string) : list string :=
  let customersExist := tableExists catalog "customers" in
  let appointmentsExist := tableExists catalog "appointments" in
  "🔄 Checking database schema..."
  :: (if negb customersExist || negb appointmentsExist
      then ["📦 Database tables not found. Please run schema setup."]
      else ["✅ Database schema is ready"]).

End DbUtil.

(** ** The store: quoted identifiers, and the catalog of the schema *)

Module Catalog.
Import Schema.

(** How the store reads a quoted identifier, after its opening double
    quote: up to the next double quote that is not doubled; a doubled one
    stands for one double quote of the name.  The result is the name and
    the text after the closing quote; [None] when the quote is never
    closed. *)
Fixpoint read_quoted_body (s : string) : option (string * string) :=
  match s with
  | EmptyString => None
  | String c s' =>
      if Ascii.eqb c DbUtil.dquote then
        match s' with
        | String c2 s'' =>
            if Ascii.eqb c2 DbUtil.dquote then
              match read_quoted_body s'' with
              | Some (name_, rest) => Some (String DbUtil.dquote name_, rest)
              | None => None
              end
            else Some (EmptyString, s')
        | EmptyString => Some (EmptyString, EmptyString)
        end
      else
        match read_quoted_body s' with
        | Some (name_, rest) => Some (String c name_, rest)
        | None => None
        end
  end.

(** An identifier holds at most 63 bytes: the store cuts a longer one.
    (It cuts at a character boundary, the model after byte 63; nothing
    below is stated about names that are cut.) *)
Definition truncate_identifier (name_ : string) : string :=
  if (String.length name_ <? 64)%nat then name_ else substring 0 63 name_.

(** A quoted identifier at the start of a text.  The store refuses an
    identifier of length zero. *)
Definition read_quoted_identifier (s : string) : option (string * string) :=
  match s with
  | String c s' =>
      if Ascii.eqb c DbUtil.dquote then
        match read_quoted_body s' with
        | Some (EmptyString, _) => None
        | Some (name_, rest) => Some (truncate_identifier name_, rest)
        | None => None
        end
      else None
  | EmptyString => None
  end.

Definition starts_with_quote (s : string) : bool :=
  match s with
  | String c _ => Ascii.eqb c DbUtil.dquote
  | EmptyString => false
  end.

(** The name of each table in the CREATE TABLE statements of
    setupDatabase.js, lines 20-70. *)
Definition table_name (t : table) : string :=
  match t with
  | customers => "customers"
  | services => "services"
  | staff => "staff"
  | expense_types => "expense_types"
  | records => "records"
  | expenses => "expenses"
  end.

Definition all_tables : list table :=
  [customers; services; staff; expense_types; records; expenses].

(** The tables of the [public] schema once setupDatabase.js has run on
    an empty database. *)
Definition created_tables : list string := map table_name all_tables.

End Catalog.

(** ** The order of the lists by date *)

Module Order.
Import Pg.

(** The order of [ORDER BY date DESC, created_at DESC], on the date and
    the time of creation of two rows: the first row is of a later date,
    or of the same date and not older. *)
Definition later_first (da : Date) (ca : Z) (db_ : Date) (cb : Z) : Prop :=
  date_ltb db_ da = true \/ (da = db_ /\ cb <= ca).

End Order.

(** ** The groups of the service analysis *)

Module Analysis.
Import Pg Schema Store.

(** The rows of [... WHERE date >= $1 AND date <= $2 AND service IS NOT
    NULL], and those of them in the group of the service [s], as
    [Store.service_analysis] selects them. *)
Definition with_service_in_range (d1 d2 : Date) (all : list RecordRow) : list RecordRow :=
  filter (fun r => in_range d1 d2 r && is_some (rec_service r)) all.

Definition service_group (d1 d2 : Date) (s : string) (all : list RecordRow)
  : list RecordRow :=
  filter (fun r => option_eqb String.eqb (rec_service r) (Some s))
    (with_service_in_range d1 d2 all).

End Analysis.

(** ** Sequences of requests *)

Module History.
Import Schema Api App.

(** [steps db db']: the application, started in [db], can be in [db']
    after some requests. *)
Inductive steps (db : Database) : Database -> Prop :=
| steps_none : steps db db
| steps_more (db1 : Database) (env : option string) (req : request) :
    steps db db1 -> steps db (snd (handle env req db1)).

(** The ids of [t'] are ids of [t] or were drawn from the sequence after
    [t]; the sequence did not go back. *)
Definition ids_fresh {R : Type} (key : R -> Z) (t t' : Table R) : Prop :=
  next_id t <= next_id t'
  /\ forall r, In r (rows t') -> In (key r) (map key (rows t)) \/ next_id t <= key r.

(** The same for the six tables at once. *)
Definition all_ids_fresh (db db' : Database) : Prop :=
  ids_fresh rec_id (t_records db) (t_records db')
  /\ ids_fresh exp_id (t_expenses db) (t_expenses db')
  /\ ids_fresh cust_id (t_customers db) (t_customers db')
  /\ forall t, ids_fresh id (lookup t db) (lookup t db').

(** The seed list of each lookup table, setupDatabase.js lines 98-159. *)
Definition default_names (t : lookup_table) : list string :=
  match t with
  | Services => Setup.defaultServices
  | Staff => Setup.defaultStaff
  | ExpenseTypes => Setup.defaultExpenseTypes
  end.

(** The rows the seed statements make of a list of names, when no name
    is in the table yet: one active row per name, in the order of the
    list, with ids [k], [k + 1], ... *)
Fixpoint seed_rows (k : Z) (names : list string) : list LookupRow :=
  match names with
  | [] => []
  | nm :: names' => {| id := k; name := nm; active := Some true |} :: seed_rows (k + 1) names'
  end.

(** What the seeding of one table does, lines 98-159: nothing to a
    table that has a row, and the whole seed list to an empty one. *)
Definition seed_result (t : lookup_table) (db : Database) : Database :=
  match rows (lookup t db) with
  | [] =>
      set_lookup t
        {| rows := seed_rows (next_id (lookup t db)) (default_names t);
           next_id := next_id (lookup t db) + Z.of_nat (List.length (default_names t)) |}
        db
  | _ :: _ => db
  end.

End History.

(** ** Texts that the store refuses for certain

    [Pg.int4_in] and [Pg.date_in] read the spellings that the
    application sends.  The store reads others as well: an integer
    between blanks, a date written 20240310, 2024-3-10 or 10.03.2024.
    A refusal by these functions is therefore the store's refusal only
    where the store has no other reading of the text; these are the
    texts below, and nothing is concluded from another refusal of the
    model. *)

Module Refusal.
Import Pg.

(** The blanks that the store skips around a number. *)
Definition is_space (c : ascii) : bool :=
  let n := N_of_ascii c in ((n =? 32) || ((9 <=? n) && (n <=? 13)))%N.

Definition is_sign (c : ascii) : bool := Ascii.eqb c "+" || Ascii.eqb c "-".

Definition is_digit (c : ascii) : bool :=
  match digit_of c with Some _ => true | None => false end.

(** No spelling of an integer is empty, or begins with an ASCII
    character that is neither a blank, a sign nor a digit. *)
Definition not_an_integer (s : string) : bool :=
  match s with
  | EmptyString => true
  | String c _ =>
      (N_of_ascii c <? 128)%N && negb (is_space c || is_sign c || is_digit c)
  end.

(** An id text that the store refuses: it is no integer (22P02), or it
    is a decimal integer outside 32 bits (22003). *)
Definition refused_id (p : string) : Prop :=
  not_an_integer p = true \/ int4_in p = Err numeric_value_out_of_range.

(** A date text that the store refuses: year, month and day are given as
    YYYY-MM-DD, and the year is 0 or the month or the day is not in the
    calendar (22008). *)
Definition refused_date (p : string) : Prop :=
  date_in p = Err datetime_field_overflow.

End Refusal.

(** * Properties *)

(** ** Lists *)

Lemma mapi_from_numbers {A : Type} (g : nat -> nat) (l : list A) (i : nat) :
  map snd (mapi_from i (fun (x : A) j => (x, g j)) l) = map g (seq i (List.length l)).
Proof.
  revert i. induction l as [| x l IH]; intros i; simpl; [reflexivity |].
  now rewrite IH.
Qed.

Lemma map_seq_offset (c i n : nat) :
  map (fun j => (c + j + 1)%nat) (seq i n) = seq (c + i + 1) n.
Proof.
  revert i. induction n as [| n IH]; intros i; simpl; [reflexivity |].
  rewrite IH. f_equal. f_equal. lia.
Qed.

Lemma mapi_from_names {A : Type} (g : nat -> nat) (l : list A) (i : nat) :
  map fst (mapi_from i (fun (x : A) j => (x, g j)) l) = l.
Proof.
  revert i. induction l as [| x l IH]; intros i; simpl; [reflexivity |].
  now rewrite IH.
Qed.

(** ** db.js *)

Lemma placeholders_app (a b : Db.sql) :
  Db.placeholders (a ++ b) = Db.placeholders a ++ Db.placeholders b.
Proof.
  induction a as [| f a IH]; simpl; [reflexivity |].
  destruct f; simpl; now rewrite IH.
Qed.

Lemma placeholders_join_assign (sep : string) (items : list (string * nat)) :
  Db.placeholders (Db.join sep (map (fun '(col, n) => Db.assign col n) items))
  = map snd items.
Proof.
  induction items as [| [col n] items IH]; simpl; [reflexivity |].
  destruct items as [| it items']; [reflexivity |].
  change (map (fun '(col0, n0) => Db.assign col0 n0) (it :: items'))
    with ((let '(col0, n0) := it in Db.assign col0 n0)
          :: map (fun '(col0, n0) => Db.assign col0 n0) items') in *.
  cbn [Db.join Db.assign app Db.placeholders] in *.
  now rewrite IH.
Qed.

Lemma set_items_numbers (data : Db.object) :
  map snd (Db.set_items data) = seq 1 (List.length data).
Proof.
  unfold Db.set_items, mapi, Db.keys.
  rewrite mapi_from_numbers, length_map.
  exact (map_seq_offset 0 0 (List.length data)).
Qed.

Lemma where_items_numbers (data where_ : Db.object) :
  map snd (Db.where_items data where_)
  = seq (List.length data + 1) (List.length where_).
Proof.
  unfold Db.where_items, mapi, Db.keys, Db.values.
  rewrite mapi_from_numbers, !length_map.
  rewrite (map_seq_offset (List.length data) 0 (List.length where_)).
  f_equal. lia.
Qed.

Lemma update_placeholders (table : string) (data where_ : Db.object) :
  Db.placeholders (fst (Db.update table data where_))
  = seq 1 (List.length data) ++ seq (List.length data + 1) (List.length where_).
Proof.
  unfold Db.update. cbn [fst].
  rewrite !placeholders_app. cbn [Db.placeholders app].
  rewrite !placeholders_join_assign, app_nil_r.
  now rewrite set_items_numbers, where_items_numbers.
Qed.


(** *** The placeholders of the text *)

Lemma scan_number (u : Decimal.uint) (acc : nat) (t : string) :
  Db.scan_from (Some acc) (NilEmpty.string_of_uint u ++ t)
  = Db.scan_from (Some (Nat.of_uint_acc u acc)) t.
Proof.
  revert acc. induction u as [| u IH | u IH | u IH | u IH | u IH | u IH | u IH
                              | u IH | u IH | u IH]; intros acc;
    cbn [NilEmpty.string_of_uint String.append Db.scan_from Nat.of_uint_acc];
    [reflexivity | ..];
    match goal with
    | |- context [Db.digit_of ?c] =>
        let v := eval vm_compute in (Db.digit_of c) in
        change (Db.digit_of c) with v
    end;
    cbn iota; rewrite IH, Nat.tail_mul_spec;
    match goal with
    | |- Db.scan_from (Some (Nat.of_uint_acc u ?x)) t
         = Db.scan_from (Some (Nat.of_uint_acc u ?y)) t =>
        replace x with y by lia
    end;
    reflexivity.
Qed.

Lemma scan_after_number (n : nat) (t : string) :
  Db.starts_with_digit t = false ->
  Db.scan_from (Some n) t = n :: Db.scan_from None t.
Proof.
  destruct t as [| c t]; intros H; [reflexivity |].
  cbn [Db.starts_with_digit] in H. cbn [Db.scan_from].
  destruct (Db.digit_of c); [discriminate | reflexivity].
Qed.

Lemma scan_literal (s t : string) :
  Db.no_dollar s = true -> Db.scan_from None (s ++ t) = Db.scan_from None t.
Proof.
  induction s as [| c s IH]; intros H; [reflexivity |].
  cbn [Db.no_dollar] in H. apply andb_true_iff in H. destruct H as [Hc Hs].
  cbn [String.append Db.scan_from Db.flush app].
  apply negb_true_iff in Hc. rewrite Hc. now apply IH.
Qed.

Lemma render_no_leading_digit (q : Db.sql) :
  Db.plain_sql q = true -> Db.starts_with_digit (Db.render q) = false.
Proof.
  induction q as [| f q IH]; intros H; [reflexivity |].
  cbn [Db.plain_sql forallb] in H. apply andb_true_iff in H. destruct H as [Hf Hq].
  cbn [Db.render fold_right]. destruct f as [s | n].
  - cbn [Db.render_frag]. unfold Db.plain in Hf.
    apply andb_true_iff in Hf. destruct Hf as [_ Hs].
    destruct s as [| c s]; [exact (IH Hq) |].
    cbn [String.append Db.starts_with_digit] in *. now apply negb_true_iff in Hs.
  - reflexivity.
Qed.

(** In a statement built from plain pieces, the placeholders the store
    finds in the text are those of the template, in the same order. *)
Lemma scan_render (q : Db.sql) :
  Db.plain_sql q = true -> Db.scan (Db.render q) = Db.placeholders q.
Proof.
  unfold Db.scan. induction q as [| f q IH]; intros H; [reflexivity |].
  pose proof H as H'.
  cbn [Db.plain_sql forallb] in H. apply andb_true_iff in H. destruct H as [Hf Hq].
  change (Db.render (f :: q)) with (Db.render_frag f ++ Db.render q)%string.
  destruct f as [s | n]; cbn [Db.render_frag Db.placeholders].
  - unfold Db.plain in Hf. apply andb_true_iff in Hf. destruct Hf as [Hs _].
    rewrite scan_literal by exact Hs. now apply IH.
  - cbn [String.append Db.scan_from Db.flush app].
    change (Db.digit_of "$") with (@None nat). cbn iota.
    change (Ascii.eqb "$" "$") with true. cbn iota.
    unfold string_of_nat. rewrite scan_number.
    change (Nat.of_uint_acc (Nat.to_uint n) 0) with (Nat.of_uint (Nat.to_uint n)).
    rewrite DecimalNat.Unsigned.of_to.
    rewrite scan_after_number by (apply render_no_leading_digit; exact Hq).
    f_equal. now apply IH.
Qed.

Lemma plain_sql_app (a b : Db.sql) :
  Db.plain_sql (a ++ b) = Db.plain_sql a && Db.plain_sql b.
Proof. unfold Db.plain_sql. apply forallb_app. Qed.

Lemma plain_sql_join_assign (sep : string) (items : list (string * nat)) :
  Db.plain sep = true ->
  forallb Db.plain (map fst items) = true ->
  Db.plain_sql (Db.join sep (map (fun '(col, n) => Db.assign col n) items)) = true.
Proof.
  intros Hsep. induction items as [| [col n] items IH]; intros H; [reflexivity |].
  cbn [map fst forallb] in H. apply andb_true_iff in H. destruct H as [Hc Hl].
  specialize (IH Hl).
  destruct items as [| it items'].
  - cbn. now rewrite Hc.
  - change (map (fun '(col0, n0) => Db.assign col0 n0) ((col, n) :: it :: items'))
      with (Db.assign col n
            :: map (fun '(col0, n0) => Db.assign col0 n0) (it :: items')).
    change (Db.join sep (Db.assign col n
                         :: map (fun '(col0, n0) => Db.assign col0 n0) (it :: items')))
      with (Db.assign col n
            ++ Db.Lit sep
               :: Db.join sep (map (fun '(col0, n0) => Db.assign col0 n0) (it :: items'))).
    rewrite plain_sql_app. cbn [Db.assign Db.plain_sql forallb].
    change (Db.plain " = ") with true.
    rewrite Hc, Hsep. cbn [andb]. exact IH.
Qed.

(** For a plain table name and plain column names, the placeholders the
    store finds in the text of [update] are $1..$n, $n+1..$n+m, in this
    order. *)
Lemma update_text_placeholders (table : string) (data where_ : Db.object) :
  Db.plain table = true ->
  forallb Db.plain (Db.keys data) = true ->
  forallb Db.plain (Db.keys where_) = true ->
  Db.scan (Db.render (fst (Db.update table data where_)))
  = seq 1 (List.length data) ++ seq (List.length data + 1) (List.length where_).
Proof.
  intros Ht Hd Hw. rewrite scan_render; [apply update_placeholders |].
  unfold Db.update. cbn [fst].
  rewrite !plain_sql_app.
  rewrite (plain_sql_join_assign ", " (Db.set_items data)); [| reflexivity |].
  rewrite (plain_sql_join_assign " AND " (Db.where_items data where_)); [| reflexivity |].
  - cbn [Db.plain_sql forallb]. rewrite Ht. reflexivity.
  - unfold Db.where_items, mapi. rewrite mapi_from_names. exact Hw.
  - unfold Db.set_items, mapi. rewrite mapi_from_names. exact Hd.
Qed.

(** The text [update] builds for the soft delete of a service. *)
Example update_text_example :
  Db.render (fst (Db.update "services" [("active", Db.JBool false)] [("id", Db.JNum 3)]))
  = "
    UPDATE services
    SET active = $1, updated_at = CURRENT_TIMESTAMP
    WHERE id = $2
    RETURNING *
  ".
Proof. reflexivity. Qed.



(** Without a null condition, [buildWhereClause] numbers its
    placeholders from 1 and keeps every value. *)
Lemma where_condition_placeholder (key : string) (value : Db.jsval) (i : nat) :
  Db.is_null value = false ->
  Db.placeholders (Db.where_condition (key, value) i) = [(i + 1)%nat].
Proof.
  intros H. unfold Db.where_condition. rewrite H.
  destruct (Db.is_array value); reflexivity.
Qed.

(** C10: at the condition map [{ a: null, b: 5 }] the clause of
    [buildWhereClause] is [a IS NULL AND b = $2] while its value array
    holds the single value 5, so the only placeholder is $2 and it is
    bound to nothing. *)
Theorem buildWhereClause_null_shifts_placeholder :
  let conditions := [("a", Db.JNull); ("b", Db.JNum 5)] in
  let clause := fst (Db.buildWhereClause conditions) in
  let values_ := snd (Db.buildWhereClause conditions) in
  Db.render clause = "a IS NULL AND b = $2"
  /\ Db.scan (Db.render clause) = [2%nat]
  /\ values_ = [Db.JNum 5]
  /\ Db.placeholders clause = [2%nat]
  /\ Db.placeholders clause <> seq 1 (List.length values_)
  /\ Db.bound_value values_ 2 = None.
Proof.
  cbv zeta. repeat split; try reflexivity.
  cbn. discriminate.
Qed.

(** ** Ordering and grouping *)

Section Sorting.
Context {A : Type} (leb : A -> A -> bool).

Lemma insert_sorted_perm (x : A) (l : list A) :
  Permutation (insert_sorted leb x l) (x :: l).
Proof.
  induction l as [| y l IH]; simpl; [apply Permutation_refl |].
  destruct (leb x y); [apply Permutation_refl |].
  eapply perm_trans; [apply perm_skip, IH | apply perm_swap].
Qed.

Lemma sort_by_perm (l : list A) : Permutation (sort_by leb l) l.
Proof.
  induction l as [| x l IH]; simpl; [apply perm_nil |].
  eapply perm_trans; [apply insert_sorted_perm | apply perm_skip, IH].
Qed.

Lemma sort_by_In (l : list A) (x : A) : In x (sort_by leb l) <-> In x l.
Proof.
  split; apply Permutation_in; [| apply Permutation_sym]; apply sort_by_perm.
Qed.

Hypothesis leb_total : forall a b : A, leb a b = true \/ leb b a = true.

Lemma insert_sorted_sorted (x : A) (l : list A) :
  Sorted (fun a b => leb a b = true) l ->
  Sorted (fun a b => leb a b = true) (insert_sorted leb x l).
Proof.
  induction l as [| y l IH]; intros Hs; simpl.
  - repeat constructor.
  - destruct (leb x y) eqn:Hxy.
    + constructor; [exact Hs | constructor; exact Hxy].
    + inversion Hs as [| ? ? Hs' Hhd]; subst.
      constructor; [apply IH, Hs' |].
      destruct l as [| z l]; simpl.
      * constructor. destruct (leb_total x y) as [H | H]; congruence.
      * destruct (leb x z); constructor.
        -- destruct (leb_total x y) as [H | H]; congruence.
        -- inversion Hhd; assumption.
Qed.

Lemma sort_by_sorted (l : list A) :
  Sorted (fun a b => leb a b = true) (sort_by leb l).
Proof.
  induction l as [| x l IH]; simpl; [constructor |].
  apply insert_sorted_sorted, IH.
Qed.
End Sorting.

Section Distinct.
Context {A : Type} (eqb : A -> A -> bool).
Hypothesis eqb_spec : forall a b : A, eqb a b = true <-> a = b.

Lemma distinct_In (l : list A) (x : A) : In x (distinct eqb l) <-> In x l.
Proof.
  induction l as [| y l IH]; simpl; [tauto |].
  rewrite filter_In, IH. split.
  - intros [H | [H _]]; auto.
  - intros [H | H]; [now left |].
    destruct (eqb y x) eqn:E.
    + left. now apply eqb_spec.
    + right. split; [exact H | reflexivity].
Qed.

Lemma distinct_NoDup (l : list A) : NoDup (distinct eqb l).
Proof.
  induction l as [| y l IH]; simpl; constructor.
  - rewrite filter_In. intros [_ H].
    assert (E : eqb y y = true) by now apply eqb_spec.
    rewrite E in H. discriminate.
  - now apply NoDup_filter.
Qed.
End Distinct.

Lemma option_string_eqb_spec (a b : option string) :
  option_eqb String.eqb a b = true <-> a = b.
Proof.
  destruct a as [x |], b as [y |]; simpl; try (split; congruence).
  rewrite String.eqb_eq. split; congruence.
Qed.

(** A key without duplicates selects at most one row. *)
Lemma filter_key_unique {R : Type} (key : R -> Z) (l : list R) (r : R) :
  NoDup (map key l) -> In r l ->
  filter (fun x => key x =? key r) l = [r]
  /\ Permutation l (r :: filter (fun x => negb (key x =? key r)) l).
Proof.
  induction l as [| y l IH]; intros Hnd Hin; [destruct Hin |].
  simpl in Hnd. inversion Hnd as [| ? ? Hnotin Hnd']; subst.
  destruct Hin as [-> | Hin].
  - cbn [filter]. rewrite Z.eqb_refl. cbn [negb].
    assert (Hnone : forall x, In x l -> (key x =? key r) = false).
    { intros x Hx. apply Z.eqb_neq. intros E. apply Hnotin. rewrite <- E.
      now apply in_map. }
    assert (E1 : filter (fun x => key x =? key r) l = []).
    { clear -Hnone. induction l as [| z l IH]; [reflexivity |]. simpl.
      rewrite (Hnone z (or_introl eq_refl)). apply IH.
      intros x Hx. apply Hnone. now right. }
    assert (E2 : filter (fun x => negb (key x =? key r)) l = l).
    { clear -Hnone. induction l as [| z l IH]; [reflexivity |]. simpl.
      rewrite (Hnone z (or_introl eq_refl)). cbn [negb]. f_equal. apply IH.
      intros x Hx. apply Hnone. now right. }
    rewrite E1, E2. split; [reflexivity | apply Permutation_refl].
  - destruct (IH Hnd' Hin) as [E P].
    assert (Hy : (key y =? key r) = false).
    { apply Z.eqb_neq. intros Ey. apply Hnotin. rewrite Ey. now apply in_map. }
    cbn [filter]. rewrite Hy. cbn [negb]. split; [exact E |].
    eapply perm_trans; [apply perm_skip, P | apply perm_swap].
Qed.

Lemma filter_none {R : Type} (f : R -> bool) (l : list R) :
  (forall x, In x l -> f x = false) ->
  filter f l = [] /\ filter (fun x => negb (f x)) l = l.
Proof.
  induction l as [| y l IH]; intros H; [split; reflexivity |].
  simpl. rewrite (H y (or_introl eq_refl)). cbn [negb].
  destruct IH as [E1 E2]; [intros x Hx; apply H; now right |].
  split; [exact E1 | now rewrite E2].
Qed.

(** ** The schema invariant *)

Section Keyed.
Import Schema Store Invariant.
Context {R : Type} (key : R -> Z).

Lemma keyed_empty : keyed key (empty_table R).
Proof. split; constructor. Qed.

Lemma keyed_bump (t : Table R) : keyed key t -> keyed key (bump t).
Proof.
  intros [Hnd Hlt]. split; [exact Hnd |]. cbn.
  eapply Forall_impl; [| exact Hlt]. cbn. intros; lia.
Qed.

Lemma keyed_append (t : Table R) (r : R) :
  keyed key t -> key r = next_id t -> keyed key (append r (bump t)).
Proof.
  intros [Hnd Hlt] Hr. split; cbn.
  - rewrite map_app. cbn. apply NoDup_app; [exact Hnd | repeat constructor; auto |].
    intros x Hx [<- | []].
    apply in_map_iff in Hx. destruct Hx as [y [Hy Hin]].
    rewrite Forall_forall in Hlt. specialize (Hlt y Hin). lia.
  - apply Forall_app. split.
    + eapply Forall_impl; [| exact Hlt]. cbn. intros; lia.
    + repeat constructor. lia.
Qed.

Lemma NoDup_map_filter {B : Type} (g : R -> B) (f : R -> bool) (l : list R) :
  NoDup (map g l) -> NoDup (map g (filter f l)).
Proof.
  induction l as [| x l IH]; intros H; [constructor |].
  cbn in H. inversion H as [| ? ? Hnotin Hnd]; subst. cbn.
  destruct (f x); [| now apply IH]. cbn. constructor; [| now apply IH].
  intros Hin. apply Hnotin.
  apply in_map_iff in Hin. destruct Hin as [y [Hy Hin]].
  apply filter_In in Hin. rewrite <- Hy. apply in_map. tauto.
Qed.

Lemma keyed_filter (t : Table R) (f : R -> bool) :
  keyed key t -> keyed key (with_rows (filter f (rows t)) t).
Proof.
  intros [Hnd Hlt]. split; cbn.
  - now apply NoDup_map_filter.
  - rewrite Forall_forall in *. intros x Hx. apply Hlt.
    apply filter_In in Hx. tauto.
Qed.
End Keyed.

Section DatabaseFacts.
Import Pg Schema Store Invariant.
Context (allowed : lookup_table -> Prop).

Lemma lookup_set_same (t : lookup_table) (tb : Table LookupRow) (db : Database) :
  lookup t (set_lookup t tb db) = tb.
Proof. destruct t; reflexivity. Qed.

Lemma lookup_set_other (t t0 : lookup_table) (tb : Table LookupRow) (db : Database) :
  t <> t0 -> lookup t (set_lookup t0 tb db) = lookup t db.
Proof. destruct t, t0; intros H; try reflexivity; now destruct H. Qed.

Lemma set_lookup_twice (t : lookup_table) (a b : Table LookupRow) (db : Database) :
  set_lookup t a (set_lookup t b db) = set_lookup t a db.
Proof. destruct t; reflexivity. Qed.

Lemma lookup_table_eq_dec (t t0 : lookup_table) : {t = t0} + {t <> t0}.
Proof. decide equality. Qed.

Lemma set_lookup_frame (t : lookup_table) (tb : Table LookupRow) (db : Database) :
  t_customers (set_lookup t tb db) = t_customers db
  /\ t_records (set_lookup t tb db) = t_records db
  /\ t_expenses (set_lookup t tb db) = t_expenses db
  /\ collation (set_lookup t tb db) = collation db.
Proof. destruct t; repeat split. Qed.

Lemma deactivated_ids (n : Z) (l : list LookupRow) :
  map id (map (fun r => if id r =? n then deactivated r else r) l) = map id l.
Proof.
  rewrite map_map. apply map_ext. intros r. now destruct (id r =? n).
Qed.

Lemma deactivated_names (n : Z) (l : list LookupRow) :
  map name (map (fun r => if id r =? n then deactivated r else r) l) = map name l.
Proof.
  rewrite map_map. apply map_ext. intros r. now destruct (id r =? n).
Qed.

Lemma empty_db_ok (coll : string -> string -> bool) : db_ok (empty_db coll).
Proof.
  constructor; try (intros []); cbn; try apply keyed_empty; constructor.
Qed.

Lemma unique_names_append {R : Type} (nm : R -> string) (t : Table R) (r : R) :
  unique_names nm t -> ~ In (nm r) (map nm (rows t)) ->
  unique_names nm (append r (bump t)).
Proof.
  unfold unique_names. intros Hnd Hfresh. cbn. rewrite map_app. cbn.
  apply NoDup_app; [exact Hnd | repeat constructor; auto |].
  intros x Hx [<- | []]. contradiction.
Qed.

(** Every change keeps the primary keys, the unique names and the
    CHECK constraints. *)
Lemma change_ok (db db' : Database) :
  change allowed db db' -> db_ok db -> db_ok db'.
Proof.
  intros Hc [Hcu Hcn Hl Hln Hr He Hrp Hep].
  destruct Hc as [| row Hid Hpay | f | | row Hid Hpay | f | | row Hid Hfresh
                  | t Hal | t row Hal Hid Hfresh | t n Hal].
  - constructor; cbn; auto using keyed_bump. all: try (intros []; auto; fail).
  - constructor; cbn; auto using keyed_append. all: try (intros []; auto; fail).
    apply Forall_app; split; [exact Hrp | constructor; [exact Hpay | constructor]].
  - constructor; cbn; auto. all: try (intros []; auto; fail).
    + now apply (keyed_filter rec_id).
    + rewrite Forall_forall in *. intros x Hx. apply Hrp.
      apply filter_In in Hx. tauto.
  - constructor; cbn; auto using keyed_bump. all: try (intros []; auto; fail).
  - constructor; cbn; auto using keyed_append. all: try (intros []; auto; fail).
    apply Forall_app; split; [exact Hep | constructor; [exact Hpay | constructor]].
  - constructor; cbn; auto. all: try (intros []; auto; fail).
    + now apply (keyed_filter exp_id).
    + rewrite Forall_forall in *. intros x Hx. apply Hep.
      apply filter_In in Hx. tauto.
  - constructor; cbn; auto using keyed_bump. all: try (intros []; auto; fail).
  - constructor; cbn; auto using keyed_append.
    all: try (intros []; auto; fail).
    now apply unique_names_append.
  - destruct (set_lookup_frame t (bump (lookup t db)) db) as [E1 [E2 [E3 _]]].
    constructor; rewrite ?E1, ?E2, ?E3; auto.
    + intros t'. destruct (lookup_table_eq_dec t' t) as [-> | Hne].
      * rewrite lookup_set_same. apply keyed_bump, Hl.
      * rewrite lookup_set_other by exact Hne. apply Hl.
    + intros t'. destruct (lookup_table_eq_dec t' t) as [-> | Hne].
      * rewrite lookup_set_same. apply Hln.
      * rewrite lookup_set_other by exact Hne. apply Hln.
  - destruct (set_lookup_frame t (append row (bump (lookup t db))) db)
      as [E1 [E2 [E3 _]]].
    constructor; rewrite ?E1, ?E2, ?E3; auto.
    + intros t'. destruct (lookup_table_eq_dec t' t) as [-> | Hne].
      * rewrite lookup_set_same. now apply keyed_append.
      * rewrite lookup_set_other by exact Hne. apply Hl.
    + intros t'. destruct (lookup_table_eq_dec t' t) as [-> | Hne].
      * rewrite lookup_set_same. apply unique_names_append; [apply Hln | exact Hfresh].
      * rewrite lookup_set_other by exact Hne. apply Hln.
  - match goal with |- db_ok (set_lookup t ?tb db) =>
      destruct (set_lookup_frame t tb db) as [E1 [E2 [E3 _]]] end.
    constructor; rewrite ?E1, ?E2, ?E3; auto.
    + intros t'. destruct (lookup_table_eq_dec t' t) as [-> | Hne].
      * rewrite lookup_set_same. destruct (Hl t) as [Hnd Hlt]. split; cbn.
        -- now rewrite deactivated_ids.
        -- rewrite Forall_forall in *. intros x Hx.
           apply in_map_iff in Hx. destruct Hx as [y [<- Hy]].
           specialize (Hlt y Hy). now destruct (id y =? n).
      * rewrite lookup_set_other by exact Hne. apply Hl.
    + intros t'. destruct (lookup_table_eq_dec t' t) as [-> | Hne].
      * rewrite lookup_set_same. unfold unique_names. cbn.
        rewrite deactivated_names. apply Hln.
      * rewrite lookup_set_other by exact Hne. apply Hln.
Qed.

Lemma changes_ok (db db' : Database) :
  changes allowed db db' -> db_ok db -> db_ok db'.
Proof.
  induction 1 as [| db1 db2 _ IH Hc]; intros Hok; [exact Hok |].
  eapply change_ok; [exact Hc | now apply IH].
Qed.

Lemma changes_trans (a b c : Database) :
  changes allowed a b -> changes allowed b c -> changes allowed a c.
Proof.
  intros Hab Hbc. induction Hbc as [| c1 c2 _ IH Hc]; [exact Hab |].
  eapply changes_more; [exact IH | exact Hc].
Qed.

Lemma changes_one (a b : Database) : change allowed a b -> changes allowed a b.
Proof. intros H. eapply changes_more; [apply changes_none | exact H]. Qed.
End DatabaseFacts.

(** ** What each statement does to the database *)

Ltac store_unfold :=
  unfold Store.bind, Store.lift, Store.gets, Store.modify, Store.ret, Store.raise.

Ltac case_step :=
  match goal with
  | |- context [match ?x with Pg.Ok _ => _ | Pg.Err _ => _ end] => destruct x eqn:?
  | |- context [match ?x with Some _ => _ | None => _ end] => destruct x eqn:?
  | |- context [if ?b then _ else _] => destruct b eqn:?
  end.

Section Statements.
Import Pg Schema Store Invariant.
Context (allowed : lookup_table -> Prop).

Lemma payment_type_check_In (s : string) :
  payment_type_check s = true <-> In s payment_types.
Proof.
  unfold payment_type_check. rewrite existsb_exists. split.
  - intros [x [Hx E]]. apply String.eqb_eq in E. now subst.
  - intros H. exists s. split; [exact H | apply String.eqb_refl].
Qed.

Lemma existsb_name_false {R : Type} (nm : R -> string) (l : list R) (s : string) :
  existsb (fun r => String.eqb (nm r) s) l = false -> ~ In s (map nm l).
Proof.
  intros H Hin. apply in_map_iff in Hin. destruct Hin as [r [E Hr]].
  assert (existsb (fun r => String.eqb (nm r) s) l = true); [| congruence].
  apply existsb_exists. exists r. split; [exact Hr |]. subst. apply String.eqb_refl.
Qed.

(** The three outcomes of an insert into [records]: refused before it
    runs, refused by a constraint after an id was drawn, or done. *)
Lemma insert_record_shape (a b c d e f : option string) (now : Z)
    (db db' : Database) (r : result RecordRow) :
  insert_record a b c d e f now db = (r, db') ->
  (db' = db /\ exists err, r = Err err)
  \/ (db' = set_records (bump (t_records db)) db /\ exists err, r = Err err)
  \/ (exists row, r = Ok row /\ rec_id row = next_id (t_records db)
        /\ record_payment_ok row
        /\ db' = set_records (append row (bump (t_records db))) db).
Proof.
  unfold insert_record. store_unfold.
  change (check_columns records
            ["date"; "customer_name"; "service"; "staff"; "price"; "payment_type"])
    with (@Ok unit tt).
  cbn beta iota.
  repeat case_step; intros H; injection H as <- <-; eauto 8.
  right. right. eexists. repeat split.
  now apply payment_type_check_In.
Qed.

Lemma insert_expense_shape (a b c d e : option string) (now : Z)
    (db db' : Database) (r : result ExpenseRow) :
  insert_expense a b c d e now db = (r, db') ->
  (db' = db /\ exists err, r = Err err)
  \/ (db' = set_expenses (bump (t_expenses db)) db /\ exists err, r = Err err)
  \/ (exists row, r = Ok row /\ exp_id row = next_id (t_expenses db)
        /\ expense_payment_ok row
        /\ db' = set_expenses (append row (bump (t_expenses db))) db).
Proof.
  unfold insert_expense. store_unfold.
  change (check_columns expenses
            ["date"; "type"; "description"; "amount"; "payment_type"])
    with (@Ok unit tt).
  cbn beta iota.
  repeat case_step; intros H; injection H as <- <-; eauto 8.
  right. right. eexists. repeat split.
  now apply payment_type_check_In.
Qed.

Lemma insert_record_changes (a b c d e f : option string) (now : Z) (db : Database) :
  changes allowed db (snd (insert_record a b c d e f now db)).
Proof.
  destruct (insert_record a b c d e f now db) as [r db'] eqn:E. cbn.
  apply insert_record_shape in E.
  destruct E as [[-> _] | [[-> _] | [row [_ [Hid [Hpay ->]]]]]].
  - apply changes_none.
  - apply changes_one, bump_records.
  - now apply changes_one, add_record.
Qed.

Lemma insert_expense_changes (a b c d e : option string) (now : Z) (db : Database) :
  changes allowed db (snd (insert_expense a b c d e now db)).
Proof.
  destruct (insert_expense a b c d e now db) as [r db'] eqn:E. cbn.
  apply insert_expense_shape in E.
  destruct E as [[-> _] | [[-> _] | [row [_ [Hid [Hpay ->]]]]]].
  - apply changes_none.
  - apply changes_one, bump_expenses.
  - now apply changes_one, add_expense.
Qed.

Lemma insert_customer_changes (a b c : option string) (now : Z) (db : Database) :
  changes allowed db (snd (insert_customer a b c now db)).
Proof.
  unfold insert_customer. store_unfold.
  change (check_columns customers ["name"; "phone"; "email"]) with (@Ok unit tt).
  cbn beta iota.
  repeat case_step; cbn [snd]; try apply changes_none;
    try (apply changes_one, bump_customers).
  match goal with
  | |- changes allowed db (set_customers (append ?row _) _) =>
      refine (changes_one allowed db _ (add_customer allowed db row eq_refl _))
  end.
  cbn. eapply existsb_name_false. eassumption.
Qed.

Lemma insert_lookup_changes (t : lookup_table) (cols : list string)
    (p : option string) (v : option bool) (db : Database) :
  allowed t -> changes allowed db (snd (insert_lookup t cols p v db)).
Proof.
  intros Hal.
  unfold insert_lookup. store_unfold.
  destruct (check_columns (table_of t) cols); [| apply changes_none].
  cbn beta iota.
  destruct (nullable (varchar 255) _) as [[nm |] |]; cbn beta iota;
    try apply changes_none; rewrite ?lookup_set_same.
  - destruct (existsb _ _) eqn:Hex; cbn [snd].
    + apply changes_one, bump_lookup, Hal.
    + rewrite ?lookup_set_same, set_lookup_twice.
      apply changes_one, add_lookup; [exact Hal | reflexivity |].
      cbn. eapply existsb_name_false. exact Hex.
  - apply changes_one, bump_lookup, Hal.
Qed.

Lemma insert_lookup_do_nothing_changes (t : lookup_table) (p : option string)
    (db : Database) :
  allowed t -> changes allowed db (snd (insert_lookup_do_nothing t p db)).
Proof.
  intros Hal.
  unfold insert_lookup_do_nothing. store_unfold.
  replace (check_columns (table_of t) ["name"; "active"]) with (@Ok unit tt)
    by (destruct t; reflexivity).
  cbn beta iota.
  destruct (nullable (varchar 255) p) as [[nm |] |]; cbn beta iota;
    try apply changes_none; rewrite ?lookup_set_same.
  - destruct (existsb _ _) eqn:Hex; cbn [snd].
    + apply changes_one, bump_lookup, Hal.
    + rewrite ?lookup_set_same, set_lookup_twice.
      apply changes_one, add_lookup; [exact Hal | reflexivity |].
      cbn. eapply existsb_name_false. exact Hex.
  - apply changes_one, bump_lookup, Hal.
Qed.

(** [DELETE ... WHERE id = $1 RETURNING *] on an id the store reads as
    [n]: the rows with that id leave the table and are returned. *)
Lemma delete_record_run (p : string) (n : Z) (db : Database) :
  int4_in p = Ok n ->
  delete_record p db
  = (Ok (filter (fun r => rec_id r =? n) (rows (t_records db))),
     set_records
       (with_rows (filter (fun r => negb (rec_id r =? n)) (rows (t_records db)))
          (t_records db)) db).
Proof. intros H. unfold delete_record. store_unfold. now rewrite H. Qed.

Lemma delete_expense_run (p : string) (n : Z) (db : Database) :
  int4_in p = Ok n ->
  delete_expense p db
  = (Ok (filter (fun r => exp_id r =? n) (rows (t_expenses db))),
     set_expenses
       (with_rows (filter (fun r => negb (exp_id r =? n)) (rows (t_expenses db)))
          (t_expenses db)) db).
Proof. intros H. unfold delete_expense. store_unfold. now rewrite H. Qed.

Lemma delete_record_changes (p : string) (db : Database) :
  changes allowed db (snd (delete_record p db)).
Proof.
  destruct (int4_in p) as [n | e] eqn:E.
  - rewrite (delete_record_run p n db E). apply changes_one, remove_records.
  - unfold delete_record. store_unfold. rewrite E. apply changes_none.
Qed.

Lemma delete_expense_changes (p : string) (db : Database) :
  changes allowed db (snd (delete_expense p db)).
Proof.
  destruct (int4_in p) as [n | e] eqn:E.
  - rewrite (delete_expense_run p n db E). apply changes_one, remove_expenses.
  - unfold delete_expense. store_unfold. rewrite E. apply changes_none.
Qed.

(** [UPDATE ... SET active = false WHERE id = $1 RETURNING *]. *)
Lemma deactivate_lookup_run (t : lookup_table) (p : string) (n : Z) (db : Database) :
  int4_in p = Ok n ->
  deactivate_lookup t p db
  = (Ok (map deactivated (filter (fun r => id r =? n) (rows (lookup t db)))),
     set_lookup t
       (with_rows (map (fun r => if id r =? n then deactivated r else r)
                     (rows (lookup t db)))
          (lookup t db)) db).
Proof.
  intros H. unfold deactivate_lookup. store_unfold.
  replace (check_columns (table_of t) ["active"; "id"]) with (@Ok unit tt)
    by (destruct t; reflexivity).
  now rewrite H.
Qed.

Lemma deactivate_lookup_changes (t : lookup_table) (p : string) (db : Database) :
  allowed t -> changes allowed db (snd (deactivate_lookup t p db)).
Proof.
  intros Hal.
  destruct (int4_in p) as [n | e] eqn:E.
  - rewrite (deactivate_lookup_run t p n db E). apply changes_one, deactivate, Hal.
  - unfold deactivate_lookup. store_unfold.
    replace (check_columns (table_of t) ["active"; "id"]) with (@Ok unit tt)
      by (destruct t; reflexivity).
    rewrite E. apply changes_none.
Qed.
End Statements.

(** ** What each route does to the database *)

Section Routes.
Import Pg Schema Store Invariant Api App.

Lemma try_catch_snd {A : Type} (stmt : Store A) (k : A -> Handler response)
    (catch : error -> response) (db : Database) :
  (forall a db1, snd (k a db1) = db1) ->
  snd (try_catch (hbind (query stmt) k) catch db) = snd (stmt db).
Proof.
  intros Hk. unfold try_catch, hbind, query.
  destruct (stmt db) as [[a | e] db1]; cbn; [| reflexivity].
  specialize (Hk a db1). destruct (k a db1) as [[r | e] db2]; cbn in *; exact Hk.
Qed.

Ltac read_only :=
  unfold try_catch, hbind, query, hret, throw, first_row;
  unfold select_records_daily, select_records_between, select_expenses_daily,
    select_expenses_between, select_customers, select_customer,
    select_records_of_customer, select_lookup, income_by_payment_type,
    expenses_by_payment_type, total_income, total_expenses, staff_performance,
    service_analysis;
  store_unfold;
  repeat (cbn beta iota; case_step);
  reflexivity.

Lemma get_records_daily_frame (d : string) (db : Database) :
  snd (get_records_daily d db) = db.
Proof. unfold get_records_daily. read_only. Qed.

Lemma get_records_monthly_frame (y m : string) (db : Database) :
  snd (get_records_monthly y m db) = db.
Proof. unfold get_records_monthly. cbv zeta. read_only. Qed.

Lemma get_expenses_daily_frame (d : string) (db : Database) :
  snd (get_expenses_daily d db) = db.
Proof. unfold get_expenses_daily. read_only. Qed.

Lemma get_expenses_monthly_frame (y m : string) (db : Database) :
  snd (get_expenses_monthly y m db) = db.
Proof. unfold get_expenses_monthly. cbv zeta. read_only. Qed.

Lemma get_customers_frame (db : Database) : snd (get_customers db) = db.
Proof. unfold get_customers. read_only. Qed.

Lemma get_customer_frame (x : string) (db : Database) :
  snd (get_customer x db) = db.
Proof.
  unfold get_customer, try_catch, hbind, query, hret, select_customer,
    select_records_of_customer.
  store_unfold.
  destruct (int4_in x) as [n | e]; cbn beta iota; [| reflexivity].
  destruct (filter _ _); reflexivity.
Qed.

Lemma get_lookups_frame (t : lookup_table) (msg : string) (q : query_value)
    (db : Database) :
  snd (get_lookups t msg q db) = db.
Proof. unfold get_lookups. cbv zeta. read_only. Qed.

Lemma get_daily_summary_frame (d : string) (db : Database) :
  snd (get_daily_summary d db) = db.
Proof. unfold get_daily_summary. read_only. Qed.

Lemma get_staff_performance_frame (a b : string) (db : Database) :
  snd (get_staff_performance a b db) = db.
Proof. unfold get_staff_performance. read_only. Qed.

Lemma get_service_analysis_frame (a b : string) (db : Database) :
  snd (get_service_analysis a b db) = db.
Proof. unfold get_service_analysis. read_only. Qed.

Lemma post_records_changes (now : Z) (b : Body) (db : Database) :
  changes routed db (snd (post_records now b db)).
Proof.
  unfold post_records. rewrite try_catch_snd by reflexivity.
  apply insert_record_changes.
Qed.

Lemma post_expenses_changes (now : Z) (b : Body) (db : Database) :
  changes routed db (snd (post_expenses now b db)).
Proof.
  unfold post_expenses. rewrite try_catch_snd by reflexivity.
  apply insert_expense_changes.
Qed.

Lemma post_customers_changes (now : Z) (b : Body) (db : Database) :
  changes routed db (snd (post_customers now b db)).
Proof.
  unfold post_customers. rewrite try_catch_snd by reflexivity.
  apply insert_customer_changes.
Qed.

Lemma post_services_changes (b : Body) (db : Database) :
  changes routed db (snd (post_services b db)).
Proof.
  unfold post_services. rewrite try_catch_snd by reflexivity.
  apply insert_lookup_changes. discriminate.
Qed.

Lemma post_staff_changes (b : Body) (db : Database) :
  changes routed db (snd (post_staff b db)).
Proof.
  unfold post_staff. rewrite try_catch_snd by reflexivity.
  apply insert_lookup_changes. discriminate.
Qed.

Lemma delete_records_changes (x : string) (db : Database) :
  changes routed db (snd (delete_records x db)).
Proof.
  unfold delete_records. rewrite try_catch_snd by (intros [| r l] db1; reflexivity).
  apply delete_record_changes.
Qed.

Lemma delete_expenses_changes (x : string) (db : Database) :
  changes routed db (snd (delete_expenses x db)).
Proof.
  unfold delete_expenses. rewrite try_catch_snd by (intros [| r l] db1; reflexivity).
  apply delete_expense_changes.
Qed.

Lemma delete_lookup_changes (t : lookup_table) (m1 m2 m3 m4 x : string)
    (db : Database) :
  routed t -> changes routed db (snd (delete_lookup t m1 m2 m3 m4 x db)).
Proof.
  intros Hal.
  unfold delete_lookup. rewrite try_catch_snd by (intros [| r l] db1; reflexivity).
  apply deactivate_lookup_changes, Hal.
Qed.

(** Whatever route a request matches changes the database by the
    changes of [change] only. *)
Lemma match_route_changes (req : request) (route : Route) (db : Database) :
  match_route req = Some route -> changes routed db (snd (route db)).
Proof.
  unfold match_route.
  destruct (req_method req); destruct (req_path req) as [| a [| x [| y [| z [| w l]]]]];
    try discriminate;
    repeat match goal with
      | |- context [if ?b then _ else _] => destruct b
      end;
    intros H; try discriminate; injection H as <-;
    try (rewrite ?get_records_daily_frame, ?get_records_monthly_frame,
           ?get_expenses_daily_frame, ?get_expenses_monthly_frame,
           ?get_customers_frame, ?get_customer_frame, ?get_daily_summary_frame,
           ?get_staff_performance_frame, ?get_service_analysis_frame;
         apply changes_none);
    try (unfold get_services, get_staff, get_expense_types;
         rewrite get_lookups_frame; apply changes_none);
    auto using post_records_changes, post_expenses_changes, post_customers_changes,
      post_services_changes, post_staff_changes, delete_records_changes,
      delete_expenses_changes;
    apply delete_lookup_changes; discriminate.
Qed.

Lemma handle_changes (env : option string) (req : request) (db : Database) :
  changes routed db (snd (handle env req db)).
Proof.
  unfold handle.
  destruct (req_method req); destruct (req_path req) as [| a rest];
    try apply changes_none;
    (destruct (segment a "api");
     [ match goal with
       | |- context [match_route ?r] =>
           destruct (match_route r) as [route |] eqn:E;
           [ exact (match_route_changes r route db E) | apply changes_none ]
       end
     | destruct rest; try destruct (segment a "health"); apply changes_none ]).
Qed.

Lemma seed_changes (t : lookup_table) (names : list string) (db : Database) :
  changes any_table db (snd (Setup.seed t names db)).
Proof.
  unfold Setup.seed, count_lookup. store_unfold.
  destruct (count_rows (rows (lookup t db)) =? 0); [| apply changes_none].
  generalize db. clear db.
  induction names as [| nm names IH]; intros db; [apply changes_none |].
  cbn [Setup.for_each]. store_unfold.
  pose proof (insert_lookup_do_nothing_changes any_table t (Some nm) db I) as H1.
  destruct (insert_lookup_do_nothing t (Some nm) db) as [[l | e] db1]; cbn in *;
    [| exact H1].
  eapply changes_trans; [exact H1 | apply IH].
Qed.

Lemma initial_db_ok (coll : string -> string -> bool) : db_ok (Setup.initial_db coll).
Proof.
  unfold Setup.initial_db, Setup.setupDatabase. store_unfold.
  set (db0 := empty_db coll).
  assert (H0 : db_ok db0) by apply empty_db_ok.
  pose proof (seed_changes Services Setup.defaultServices db0) as C1.
  destruct (Setup.seed Services Setup.defaultServices db0) as [[u1 | e1] db1];
    cbn [snd] in *; [| eapply changes_ok; eauto].
  pose proof (seed_changes Staff Setup.defaultStaff db1) as C2.
  destruct (Setup.seed Staff Setup.defaultStaff db1) as [[u2 | e2] db2];
    cbn [snd] in *; [| eapply changes_ok; [exact C2 | eapply changes_ok; eauto]].
  pose proof (seed_changes ExpenseTypes Setup.defaultExpenseTypes db2) as C3.
  eapply changes_ok; [exact C3 |].
  eapply changes_ok; [exact C2 | eapply changes_ok; eauto].
Qed.

(** Every database the application can be in satisfies the schema. *)
Lemma reachable_ok (coll : string -> string -> bool) (db : Database) :
  reachable coll db -> db_ok db.
Proof.
  induction 1 as [| db env req _ IH]; [apply initial_db_ok |].
  eapply changes_ok; [apply handle_changes | exact IH].
Qed.
End Routes.

(** ** Hard delete of records and expenses *)

Section HardDelete.
Import Pg Schema Store Api.

Lemma set_records_same (db : Database) :
  set_records (with_rows (rows (t_records db)) (t_records db)) db = db.
Proof. destruct db as [c s st et [r n] e coll]. reflexivity. Qed.

Lemma set_expenses_same (db : Database) :
  set_expenses (with_rows (rows (t_expenses db)) (t_expenses db)) db = db.
Proof. destruct db as [c s st et r [e n] coll]. reflexivity. Qed.

Lemma delete_records_run (p : string) (n : Z) (db : Database) :
  int4_in p = Ok n ->
  delete_records p db
  = (match filter (fun r => rec_id r =? n) (rows (t_records db)) with
     | [] => res_status 404 (J_error "Record not found")
     | r :: _ => res_json (J_record_deleted "Record deleted successfully" r)
     end,
     set_records
       (with_rows (filter (fun r => negb (rec_id r =? n)) (rows (t_records db)))
          (t_records db)) db).
Proof.
  intros H. unfold delete_records, try_catch, hbind, query.
  rewrite (delete_record_run p n db H).
  destruct (filter _ _); reflexivity.
Qed.

Lemma delete_expenses_run (p : string) (n : Z) (db : Database) :
  int4_in p = Ok n ->
  delete_expenses p db
  = (match filter (fun r => exp_id r =? n) (rows (t_expenses db)) with
     | [] => res_status 404 (J_error "Expense not found")
     | r :: _ => res_json (J_expense_deleted "Expense deleted successfully" r)
     end,
     set_expenses
       (with_rows (filter (fun r => negb (exp_id r =? n)) (rows (t_expenses db)))
          (t_expenses db)) db).
Proof.
  intros H. unfold delete_expenses, try_catch, hbind, query.
  rewrite (delete_expense_run p n db H).
  destruct (filter _ _); reflexivity.
Qed.
End HardDelete.

(** C6: for an id the store reads as the integer [n], and tables whose
    ids are distinct (the primary key): when no record has id [n],
    DELETE /records/:id answers 404 "Record not found" and the database is
    unchanged; when the record [r] has id [n], it answers with [r], [r] is
    no longer in the table, the table is the old one without [r], one row
    shorter, and the other tables are unchanged.  The same holds for
    DELETE /expenses/:id. *)
Theorem delete_by_id (db : Schema.Database) (p_id : string) (n : Z) :
  Pg.int4_in p_id = Pg.Ok n ->
  NoDup (map Schema.rec_id (Schema.rows (Schema.t_records db))) ->
  NoDup (map Schema.exp_id (Schema.rows (Schema.t_expenses db))) ->
  ((forall r, In r (Schema.rows (Schema.t_records db)) -> Schema.rec_id r <> n) ->
   Api.delete_records p_id db
   = (Api.res_status 404 (Api.J_error "Record not found"), db))
  /\ (forall r, In r (Schema.rows (Schema.t_records db)) -> Schema.rec_id r = n ->
      let db' := snd (Api.delete_records p_id db) in
      fst (Api.delete_records p_id db)
      = Api.res_json (Api.J_record_deleted "Record deleted successfully" r)
      /\ ~ In r (Schema.rows (Schema.t_records db'))
      /\ Permutation (Schema.rows (Schema.t_records db))
           (r :: Schema.rows (Schema.t_records db'))
      /\ List.length (Schema.rows (Schema.t_records db))
         = S (List.length (Schema.rows (Schema.t_records db')))
      /\ Schema.t_expenses db' = Schema.t_expenses db
      /\ Schema.t_customers db' = Schema.t_customers db
      /\ (forall t, Schema.lookup t db' = Schema.lookup t db))
  /\ ((forall r, In r (Schema.rows (Schema.t_expenses db)) -> Schema.exp_id r <> n) ->
      Api.delete_expenses p_id db
      = (Api.res_status 404 (Api.J_error "Expense not found"), db))
  /\ (forall r, In r (Schema.rows (Schema.t_expenses db)) -> Schema.exp_id r = n ->
      let db' := snd (Api.delete_expenses p_id db) in
      fst (Api.delete_expenses p_id db)
      = Api.res_json (Api.J_expense_deleted "Expense deleted successfully" r)
      /\ ~ In r (Schema.rows (Schema.t_expenses db'))
      /\ Permutation (Schema.rows (Schema.t_expenses db))
           (r :: Schema.rows (Schema.t_expenses db'))
      /\ List.length (Schema.rows (Schema.t_expenses db))
         = S (List.length (Schema.rows (Schema.t_expenses db')))
      /\ Schema.t_records db' = Schema.t_records db
      /\ Schema.t_customers db' = Schema.t_customers db
      /\ (forall t, Schema.lookup t db' = Schema.lookup t db)).
Proof.
  intros Hid Hrec Hexp. repeat apply conj.
  - intros Hnone. rewrite (delete_records_run p_id n db Hid).
    destruct (filter_none (fun r => Schema.rec_id r =? n)
                (Schema.rows (Schema.t_records db))) as [E1 E2].
    { intros x Hx. apply Z.eqb_neq. now apply Hnone. }
    rewrite E1, E2, set_records_same. reflexivity.
  - intros r Hin Hr. cbv zeta. rewrite (delete_records_run p_id n db Hid).
    cbn [fst snd Schema.t_records Schema.set_records Schema.rows Store.with_rows
           Schema.t_expenses Schema.t_customers].
    subst n.
    destruct (filter_key_unique Schema.rec_id _ r Hrec Hin) as [E P].
    rewrite E. repeat split.
    + intros Hin'. apply filter_In in Hin'. rewrite Z.eqb_refl in Hin'.
      destruct Hin' as [_ Hf]. discriminate.
    + exact P.
    + apply Permutation_length in P. exact P.
  - intros Hnone. rewrite (delete_expenses_run p_id n db Hid).
    destruct (filter_none (fun r => Schema.exp_id r =? n)
                (Schema.rows (Schema.t_expenses db))) as [E1 E2].
    { intros x Hx. apply Z.eqb_neq. now apply Hnone. }
    rewrite E1, E2, set_expenses_same. reflexivity.
  - intros r Hin Hr. cbv zeta. rewrite (delete_expenses_run p_id n db Hid).
    cbn [fst snd Schema.t_records Schema.set_expenses Schema.rows Store.with_rows
           Schema.t_expenses Schema.t_customers].
    subst n.
    destruct (filter_key_unique Schema.exp_id _ r Hexp Hin) as [E P].
    rewrite E. repeat split.
    + intros Hin'. apply filter_In in Hin'. rewrite Z.eqb_refl in Hin'.
      destruct Hin' as [_ Hf]. discriminate.
    + exact P.
    + apply Permutation_length in P. exact P.
Qed.

Ltac nodup_concrete :=
  vm_compute;
  repeat (constructor; [cbn; intuition discriminate |]);
  constructor.

(** The theorem at the sample database with two records, ids 1 and 2:
    deleting id 1 returns the cash record, deleting id 7 finds nothing. *)
Lemma delete_by_id_witness :
  Pg.int4_in "1" = Pg.Ok 1
  /\ NoDup (map Schema.rec_id (Schema.rows (Schema.t_records Sample.db_day)))
  /\ NoDup (map Schema.exp_id (Schema.rows (Schema.t_expenses Sample.db_day)))
  /\ (exists r,
        Schema.rec_id r = 1
        /\ fst (Api.delete_records "1" Sample.db_day)
           = Api.res_json (Api.J_record_deleted "Record deleted successfully" r)
        /\ List.length (Schema.rows (Schema.t_records Sample.db_day))
           = S (List.length
                  (Schema.rows
                     (Schema.t_records (snd (Api.delete_records "1" Sample.db_day)))))).
Proof.
  assert (H1 : Pg.int4_in "1" = Pg.Ok 1) by reflexivity.
  assert (H2 : NoDup (map Schema.rec_id (Schema.rows (Schema.t_records Sample.db_day))))
    by nodup_concrete.
  assert (H3 : NoDup (map Schema.exp_id (Schema.rows (Schema.t_expenses Sample.db_day))))
    by nodup_concrete.
  repeat split; try assumption.
  destruct (delete_by_id Sample.db_day "1" 1 H1 H2 H3) as [_ [Hfound _]].
  assert (Hin : In Sample.cash_row (Schema.rows (Schema.t_records Sample.db_day)))
    by (vm_compute; left; reflexivity).
  destruct (Hfound Sample.cash_row Hin eq_refl) as [Hresp [_ [_ [Hlen _]]]].
  exists Sample.cash_row. split; [reflexivity | split; [exact Hresp | exact Hlen]].
Defined.

(** ** Listing and soft delete of services, staff and expense types *)

Section Lookups.
Import Pg Schema Store Invariant Api App.

Lemma is_true_string_spec (q : query_value) :
  is_true_string q = true <-> q = Q_string "true".
Proof.
  destruct q as [| s |]; cbn; try (split; [discriminate | discriminate]).
  rewrite String.eqb_eq. split; [intros -> | intros [= ->]]; reflexivity.
Qed.

Lemma is_active_spec (r : LookupRow) : is_active r = true <-> active r = Some true.
Proof.
  unfold is_active. destruct (active r) as [[|] |]; cbn; split; congruence.
Qed.

Lemma get_lookups_run (t : lookup_table) (msg : string) (q : query_value)
    (db : Database) :
  get_lookups t msg q db
  = (res_json
       (J_lookups
          (sort_by (fun a b => collation db (name a) (name b))
             (if is_true_string q then rows (lookup t db)
              else filter is_active (rows (lookup t db))))),
     db).
Proof.
  unfold get_lookups, try_catch, hbind, query, hret, select_lookup. store_unfold.
  cbv zeta. destruct (is_true_string q); reflexivity.
Qed.

Lemma list_route_run (t : lookup_table) (q : query_value) (db : Database) :
  list_route t q db
  = (res_json
       (J_lookups
          (sort_by (fun a b => collation db (name a) (name b))
             (if is_true_string q then rows (lookup t db)
              else filter is_active (rows (lookup t db))))),
     db).
Proof. destruct t; apply get_lookups_run. Qed.

Lemma delete_lookup_run (t : lookup_table) (m1 m2 m3 m4 p : string) (n : Z)
    (db : Database) :
  int4_in p = Ok n ->
  delete_lookup t m1 m2 m3 m4 p db
  = (match map deactivated (filter (fun r => id r =? n) (rows (lookup t db))) with
     | [] => res_status 404 (J_error m1)
     | r :: _ => res_json (J_deactivated m2 m3 r)
     end,
     set_lookup t
       (with_rows (map (fun r => if id r =? n then deactivated r else r)
                     (rows (lookup t db)))
          (lookup t db)) db).
Proof.
  intros H. unfold delete_lookup, try_catch, hbind, query.
  rewrite (deactivate_lookup_run t p n db H).
  destruct (map deactivated _); reflexivity.
Qed.

(** No route writes to [expense_types]. *)
Lemma routed_changes_frame (db db' : Database) :
  changes routed db db' -> t_expense_types db' = t_expense_types db.
Proof.
  induction 1 as [| db1 db2 _ IH Hc]; [reflexivity |].
  rewrite <- IH.
  destruct Hc as [| | | | | | | | t Hal | t row Hal | t n Hal]; try reflexivity;
    destruct t; try reflexivity; now destruct Hal.
Qed.

Lemma handle_keeps_expense_types (env : option string) (req : request)
    (db : Database) :
  t_expense_types (snd (handle env req db)) = t_expense_types db.
Proof. apply routed_changes_frame, handle_changes. Qed.
End Lookups.

(** C9: for each of the three list routes and every value of the
    [includeInactive] query parameter, under a total collation: the route
    answers 200 with rows ordered by name ascending; the rows are all
    rows of the table when the parameter is the string "true", and
    otherwise exactly the rows whose [active] is true. *)
Theorem list_lookups_spec (db : Schema.Database) (t : Schema.lookup_table)
    (q : Api.query_value) :
  (forall a b, Schema.collation db a b = true \/ Schema.collation db b a = true) ->
  exists l : list Schema.LookupRow,
    Api.list_route t q db = (Api.res_json (Api.J_lookups l), db)
    /\ Sorted (fun a b => Schema.collation db (Schema.name a) (Schema.name b) = true) l
    /\ (q = Api.Q_string "true" ->
        Permutation l (Schema.rows (Schema.lookup t db)))
    /\ (q <> Api.Q_string "true" ->
        Permutation l (filter Store.is_active (Schema.rows (Schema.lookup t db)))
        /\ forall r, In r l <->
                     In r (Schema.rows (Schema.lookup t db))
                     /\ Schema.active r = Some true).
Proof.
  intros Htotal. eexists. split; [apply list_route_run |]. split; [| split].
  - apply (sort_by_sorted (fun a b => Schema.collation db (Schema.name a) (Schema.name b))).
    intros a b. apply Htotal.
  - intros Hq. apply is_true_string_spec in Hq. rewrite Hq. apply sort_by_perm.
  - intros Hq. destruct (Api.is_true_string q) eqn:E.
    + apply is_true_string_spec in E. contradiction.
    + split; [apply sort_by_perm |]. intros r.
      rewrite sort_by_In, filter_In, is_active_spec. reflexivity.
Qed.

(** The theorem on a fresh installation, for the staff list without the
    parameter. *)
Lemma list_lookups_spec_witness :
  (forall a b, Schema.collation Sample.db0 a b = true
               \/ Schema.collation Sample.db0 b a = true)
  /\ exists l : list Schema.LookupRow,
       Api.list_route Schema.Staff Api.Q_absent Sample.db0
       = (Api.res_json (Api.J_lookups l), Sample.db0)
       /\ Sorted (fun a b => Schema.collation Sample.db0 (Schema.name a) (Schema.name b)
                             = true) l.
Proof.
  assert (H : forall a b, Schema.collation Sample.db0 a b = true
                          \/ Schema.collation Sample.db0 b a = true).
  { intros a b. apply String.leb_total. }
  split; [exact H |].
  destruct (list_lookups_spec Sample.db0 Schema.Staff Api.Q_absent H)
    as [l [Hrun [Hsorted _]]].
  exists l. split; assumption.
Defined.

(** The soft-delete routes, DELETE /services/:id and DELETE /staff/:id:
    what they answer and what they change. *)
Lemma soft_delete_route_spec (db : Schema.Database) (t : Schema.lookup_table)
    (route : string -> Api.Route) (p_id : string) (n : Z) (r : Schema.LookupRow) :
  Api.soft_delete_route t = Some route ->
  Pg.int4_in p_id = Pg.Ok n ->
  NoDup (map Schema.id (Schema.rows (Schema.lookup t db))) ->
  In r (Schema.rows (Schema.lookup t db)) ->
  Schema.id r = n ->
  let db' := snd (route p_id db) in
  let r' := Store.deactivated r in
  (exists message key, fst (route p_id db) = Api.res_json (Api.J_deactivated message key r'))
  /\ Schema.id r' = Schema.id r
  /\ Schema.name r' = Schema.name r
  /\ Schema.active r' = Some false
  /\ Schema.rows (Schema.lookup t db')
     = map (fun x => if Schema.id x =? n then r' else x) (Schema.rows (Schema.lookup t db))
  /\ In r' (Schema.rows (Schema.lookup t db'))
  /\ (forall x, In x (Schema.rows (Schema.lookup t db)) -> x <> r ->
                In x (Schema.rows (Schema.lookup t db')))
  /\ (forall q, q <> Api.Q_string "true" ->
        exists l, Api.list_route t q db' = (Api.res_json (Api.J_lookups l), db')
                  /\ forall x, In x l -> Schema.id x <> n)
  /\ (exists l, Api.list_route t (Api.Q_string "true") db'
                = (Api.res_json (Api.J_lookups l), db')
                /\ In r' l)
  /\ Schema.t_records db' = Schema.t_records db
  /\ Schema.t_expenses db' = Schema.t_expenses db
  /\ Schema.t_customers db' = Schema.t_customers db
  /\ (forall t', t' <> t -> Schema.lookup t' db' = Schema.lookup t' db).
Proof.
  intros Hroute Hid Hnd Hin Hn. cbv zeta.
  set (upd := fun x : Schema.LookupRow =>
                if Schema.id x =? n then Store.deactivated x else x).
  set (tb := Store.with_rows (map upd (Schema.rows (Schema.lookup t db)))
               (Schema.lookup t db)).
  assert (Hrun : exists m1 m2 m3,
             route p_id db
             = (match map Store.deactivated
                        (filter (fun x => Schema.id x =? n)
                           (Schema.rows (Schema.lookup t db))) with
                | [] => Api.res_status 404 (Api.J_error m1)
                | x :: _ => Api.res_json (Api.J_deactivated m2 m3 x)
                end, Schema.set_lookup t tb db)).
  { destruct t; cbn in Hroute; try discriminate; injection Hroute as <-;
      do 3 eexists; apply delete_lookup_run; exact Hid. }
  destruct Hrun as [m1 [m2 [m3 Hrun]]]. rewrite Hrun. cbn [fst snd].
  subst n.
  destruct (filter_key_unique Schema.id _ r Hnd Hin) as [E _].
  rewrite E. cbn [map].
  assert (Hrows : Schema.rows (Schema.lookup t (Schema.set_lookup t tb db))
                  = map upd (Schema.rows (Schema.lookup t db)))
    by (rewrite lookup_set_same; reflexivity).
  assert (Hr' : In (Store.deactivated r)
                  (Schema.rows (Schema.lookup t (Schema.set_lookup t tb db)))).
  { rewrite Hrows. apply in_map_iff. exists r. split; [| exact Hin].
    unfold upd. now rewrite Z.eqb_refl. }
  destruct (set_lookup_frame t tb db) as [Fc [Fr [Fe _]]].
  repeat apply conj; try reflexivity; try assumption.
  - now exists m2, m3.
  - rewrite Hrows. apply map_ext_in. intros x Hx. unfold upd.
    destruct (Schema.id x =? Schema.id r) eqn:Ex; [| reflexivity].
    apply Z.eqb_eq in Ex.
    assert (x = r); [| now subst].
    clear -Hnd Hin Hx Ex.
    induction (Schema.rows (Schema.lookup t db)) as [| y l IH]; [destruct Hin |].
    cbn in Hnd. inversion Hnd as [| ? ? Hnotin Hnd']; subst.
    destruct Hin as [-> | Hin], Hx as [-> | Hx]; auto.
    + exfalso. apply Hnotin. rewrite <- Ex. now apply in_map.
    + exfalso. apply Hnotin. rewrite Ex. now apply in_map.
  - intros x Hx Hne. rewrite Hrows. apply in_map_iff. exists x. split; [| exact Hx].
    unfold upd. destruct (Schema.id x =? Schema.id r) eqn:Ex; [| reflexivity].
    exfalso. apply Hne. apply Z.eqb_eq in Ex.
    clear -Hnd Hin Hx Ex.
    induction (Schema.rows (Schema.lookup t db)) as [| y l IH]; [destruct Hin |].
    cbn in Hnd. inversion Hnd as [| ? ? Hnotin Hnd']; subst.
    destruct Hin as [-> | Hin], Hx as [-> | Hx]; auto.
    + exfalso. apply Hnotin. rewrite <- Ex. now apply in_map.
    + exfalso. apply Hnotin. rewrite Ex. now apply in_map.
  - intros q Hq. eexists. split; [apply list_route_run |].
    destruct (Api.is_true_string q) eqn:Eq;
      [apply is_true_string_spec in Eq; contradiction |].
    intros x Hx. rewrite sort_by_In, filter_In, Hrows in Hx.
    destruct Hx as [Hx Hact]. apply in_map_iff in Hx.
    destruct Hx as [y [<- Hy]]. unfold upd in *.
    destruct (Schema.id y =? Schema.id r) eqn:Ey.
    + cbn in Hact. discriminate.
    + now apply Z.eqb_neq.
  - eexists. split; [apply list_route_run |].
    cbn [Api.is_true_string]. rewrite String.eqb_refl.
    apply sort_by_In. exact Hr'.
  - intros t' Hne. now apply lookup_set_other.
Qed.

(** In each of the three tables a row whose [active] is false is left
    out of the default list and is in the list with
    [includeInactive=true]. *)
Lemma inactive_row_listing (db : Schema.Database) (t : Schema.lookup_table)
    (r : Schema.LookupRow) :
  In r (Schema.rows (Schema.lookup t db)) ->
  Schema.active r = Some false ->
  (forall q, q <> Api.Q_string "true" ->
     exists l, Api.list_route t q db = (Api.res_json (Api.J_lookups l), db)
               /\ ~ In r l)
  /\ (exists l, Api.list_route t (Api.Q_string "true") db
                = (Api.res_json (Api.J_lookups l), db)
                /\ In r l).
Proof.
  intros Hin Hact. split.
  - intros q Hq. eexists. split; [apply list_route_run |].
    destruct (Api.is_true_string q) eqn:Eq;
      [apply is_true_string_spec in Eq; contradiction |].
    rewrite sort_by_In, filter_In, is_active_spec. intros [_ H]. congruence.
  - eexists. split; [apply list_route_run |].
    cbn [Api.is_true_string]. rewrite String.eqb_refl. now apply sort_by_In.
Qed.

(** C7, amended: for the tables that have a soft-delete route (services
    and staff), an id the store reads as [n] and the row [r] of that id in
    a table with distinct ids: the route answers 200 with [r] whose
    [active] is now false and whose [id] and [name] are those of [r]; in
    the table [r] is replaced by that row and every other row is as it
    was; no row of id [n] is in the answer of the list route unless
    [includeInactive] is "true", in which case the deactivated row is in
    it; the records, expenses and customers tables and the other lookup
    tables are unchanged.  In all three tables, expense types included, a
    row whose [active] is false is left out of the default list and is in
    the list with [includeInactive=true]; no request changes the
    [expense_types] table. *)
Theorem soft_delete_spec :
  (forall (db : Schema.Database) (t : Schema.lookup_table)
          (route : string -> Api.Route) (p_id : string) (n : Z) (r : Schema.LookupRow),
     Api.soft_delete_route t = Some route ->
     Pg.int4_in p_id = Pg.Ok n ->
     NoDup (map Schema.id (Schema.rows (Schema.lookup t db))) ->
     In r (Schema.rows (Schema.lookup t db)) ->
     Schema.id r = n ->
     let db' := snd (route p_id db) in
     let r' := Store.deactivated r in
     (exists message key,
        fst (route p_id db) = Api.res_json (Api.J_deactivated message key r'))
     /\ Schema.id r' = Schema.id r
     /\ Schema.name r' = Schema.name r
     /\ Schema.active r' = Some false
     /\ Schema.rows (Schema.lookup t db')
        = map (fun x => if Schema.id x =? n then r' else x)
            (Schema.rows (Schema.lookup t db))
     /\ In r' (Schema.rows (Schema.lookup t db'))
     /\ (forall x, In x (Schema.rows (Schema.lookup t db)) -> x <> r ->
                   In x (Schema.rows (Schema.lookup t db')))
     /\ (forall q, q <> Api.Q_string "true" ->
           exists l, Api.list_route t q db' = (Api.res_json (Api.J_lookups l), db')
                     /\ forall x, In x l -> Schema.id x <> n)
     /\ (exists l, Api.list_route t (Api.Q_string "true") db'
                   = (Api.res_json (Api.J_lookups l), db')
                   /\ In r' l)
     /\ Schema.t_records db' = Schema.t_records db
     /\ Schema.t_expenses db' = Schema.t_expenses db
     /\ Schema.t_customers db' = Schema.t_customers db
     /\ (forall t', t' <> t -> Schema.lookup t' db' = Schema.lookup t' db))
  /\ (forall (db : Schema.Database) (t : Schema.lookup_table) (r : Schema.LookupRow),
        In r (Schema.rows (Schema.lookup t db)) ->
        Schema.active r = Some false ->
        (forall q, q <> Api.Q_string "true" ->
           exists l, Api.list_route t q db = (Api.res_json (Api.J_lookups l), db)
                     /\ ~ In r l)
        /\ (exists l, Api.list_route t (Api.Q_string "true") db
                      = (Api.res_json (Api.J_lookups l), db)
                      /\ In r l))
  /\ (forall (env : option string) (req : Api.request) (db : Schema.Database),
        Schema.t_expense_types (snd (App.handle env req db))
        = Schema.t_expense_types db).
Proof.
  split; [exact soft_delete_route_spec |].
  split; [exact inactive_row_listing | exact handle_keeps_expense_types].
Qed.

(** The theorem on a fresh installation: DELETE /staff/2 deactivates
    "Muhammet". *)
Lemma soft_delete_spec_witness :
  let r := {| Schema.id := 2; Schema.name := "Muhammet"; Schema.active := Some true |} in
  Api.soft_delete_route Schema.Staff = Some Api.delete_staff
  /\ Pg.int4_in "2" = Pg.Ok 2
  /\ NoDup (map Schema.id (Schema.rows (Schema.lookup Schema.Staff Sample.db0)))
  /\ In r (Schema.rows (Schema.lookup Schema.Staff Sample.db0))
  /\ Schema.id r = 2
  /\ In (Store.deactivated r)
       (Schema.rows (Schema.lookup Schema.Staff (snd (Api.delete_staff "2" Sample.db0))))
  /\ Schema.t_records (snd (Api.delete_staff "2" Sample.db0))
     = Schema.t_records Sample.db0.
Proof.
  cbv zeta.
  set (r := {| Schema.id := 2; Schema.name := "Muhammet"; Schema.active := Some true |}).
  assert (H1 : Api.soft_delete_route Schema.Staff = Some Api.delete_staff) by reflexivity.
  assert (H2 : Pg.int4_in "2" = Pg.Ok 2) by reflexivity.
  assert (H3 : NoDup (map Schema.id (Schema.rows (Schema.lookup Schema.Staff Sample.db0))))
    by nodup_concrete.
  assert (H4 : In r (Schema.rows (Schema.lookup Schema.Staff Sample.db0)))
    by (vm_compute; right; left; reflexivity).
  assert (H5 : Schema.id r = 2) by reflexivity.
  destruct (proj1 soft_delete_spec Sample.db0 Schema.Staff Api.delete_staff "2" 2 r
              H1 H2 H3 H4 H5)
    as [_ [_ [_ [_ [_ [Hin [_ [_ [_ [Hrec _]]]]]]]]]].
  exact (conj H1 (conj H2 (conj H3 (conj H4 (conj H5 (conj Hin Hrec)))))).
Defined.

(** C7 as stated fails for expense types: no route soft-deletes one.  On
    a fresh installation DELETE /api/expense-types/1 is answered by the
    404 handler, the database is unchanged, and the expense type of id 1
    is still active and still listed by default. *)
Lemma expense_types_have_no_soft_delete :
  let r := {| Schema.id := 1; Schema.name := "Kira"; Schema.active := Some true |} in
  Api.soft_delete_route Schema.ExpenseTypes = None
  /\ In r (Schema.rows (Schema.t_expense_types Sample.db0))
  /\ App.handle None Sample.delete_expense_type_1 Sample.db0
     = (Api.res_status 404
          (Api.J_endpoint_not_found ["api"; "expense-types"; "1"] "DELETE"),
        Sample.db0)
  /\ exists l,
       Api.get_expense_types Api.Q_absent
         (snd (App.handle None Sample.delete_expense_type_1 Sample.db0))
       = (Api.res_json (Api.J_lookups l), Sample.db0)
       /\ In r l.
Proof.
  cbv zeta. split; [reflexivity |]. split; [vm_compute; left; reflexivity |].
  split; [reflexivity |].
  eexists. split; [vm_compute; reflexivity |].
  vm_compute. tauto.
Qed.

(** ** Creating services and staff *)

(** C2: on every database and for every body, the statement of POST
    /services is refused by the store with 42703, since the [services]
    table has no [default_price] column; the route answers 500 "Failed to
    add service", for a new name and for a name already present alike,
    and the database is unchanged. *)
Theorem post_services_always_fails (b : Api.Body) (db : Schema.Database) :
  existsb (String.eqb "default_price") (Schema.columns Schema.services) = false
  /\ Store.insert_lookup Schema.Services ["name"; "default_price"; "active"]
       (b "name") (Some true) db
     = (Pg.Err Pg.undefined_column, db)
  /\ Api.post_services b db
     = (Api.res_status 500 (Api.J_error "Failed to add service"), db).
Proof. repeat split. Qed.

Section Staff.
Import Pg Schema Store Api.

(** The sibling route POST /staff names existing columns only: a new
    name is stored, active, under the next id, and a name already present
    is answered 400 without a new row. *)
Lemma post_staff_spec (b : Body) (db : Database) (nm s : string) :
  b "name" = Some nm ->
  varchar 255 nm = Ok s ->
  let row := {| id := next_id (t_staff db); name := s; active := Some true |} in
  (existsb (fun r => String.eqb (name r) s) (rows (t_staff db)) = false ->
   post_staff b db
   = (res_json (J_lookup row), set_lookup Staff (append row (bump (t_staff db))) db))
  /\ (existsb (fun r => String.eqb (name r) s) (rows (t_staff db)) = true ->
      fst (post_staff b db)
      = res_status 400 (J_error "Staff member with this name already exists")
      /\ rows (t_staff (snd (post_staff b db))) = rows (t_staff db)).
Proof.
  intros Hb Hv. cbv zeta.
  unfold post_staff, try_catch, hbind, query, hret, insert_lookup. store_unfold.
  cbn [check_columns table_of columns forallb existsb String.eqb Ascii.eqb Bool.eqb
         andb orb].
  rewrite Hb. cbn [nullable rbind]. rewrite Hv. cbn beta iota.
  cbn [lookup set_lookup t_staff rows bump].
  split; intros Hex; cbn; rewrite Hex; cbn; [reflexivity | split; reflexivity].
Qed.
End Staff.

(** ** Monthly queries *)

(** C5: for year 2024 and month 02 (or 2), the end of the range is the
    text 2024-02-31, which the store refuses as a DATE (22008); both
    monthly routes answer 500 on every database, whatever rows February
    holds. *)
Theorem monthly_query_fails_for_february (db : Schema.Database) :
  Pg.date_in "2024-02-31" = Pg.Err Pg.datetime_field_overflow
  /\ Api.get_records_monthly "2024" "02" db
     = (Api.res_status 500 (Api.J_error "Failed to fetch monthly records"), db)
  /\ Api.get_records_monthly "2024" "2" db
     = (Api.res_status 500 (Api.J_error "Failed to fetch monthly records"), db)
  /\ Api.get_expenses_monthly "2024" "02" db
     = (Api.res_status 500 (Api.J_error "Failed to fetch monthly expenses"), db)
  /\ Api.get_expenses_monthly "2024" "2" db
     = (Api.res_status 500 (Api.J_error "Failed to fetch monthly expenses"), db).
Proof. repeat split. Qed.

(** ** Daily summary *)

Section DailySummary.
Import Pg Schema Store Js Api.

Lemma date_eqb_spec (a b : Date) : date_eqb a b = true <-> a = b.
Proof.
  destruct a as [y m d], b as [y' m' d']. unfold date_eqb. cbn [year month day].
  rewrite !andb_true_iff, !Z.eqb_eq. split.
  - intros [[-> ->] ->]. reflexivity.
  - intros H. injection H as -> -> ->. auto.
Qed.

(** No row of a day: the selection of the day is empty. *)
Lemma records_on_none (d : Date) (all : list RecordRow) :
  (forall r, In r all -> rec_date r <> d) -> records_on d all = [].
Proof.
  intros H. apply filter_none. intros r Hr.
  destruct (date_eqb (rec_date r) d) eqn:E; [| reflexivity].
  apply date_eqb_spec in E. now destruct (H r Hr).
Qed.

Lemma expenses_on_none (d : Date) (all : list ExpenseRow) :
  (forall e, In e all -> exp_date e <> d) -> expenses_on d all = [].
Proof.
  intros H. apply filter_none. intros r Hr.
  destruct (date_eqb (exp_date r) d) eqn:E; [| reflexivity].
  apply date_eqb_spec in E. now destruct (H r Hr).
Qed.

Lemma or_zero_not_nan (x : float) : PrimFloat.is_nan (or_zero x) = false.
Proof.
  unfold or_zero.
  destruct (PrimFloat.eqb x PrimFloat.zero); cbn [orb]; [reflexivity |].
  destruct (PrimFloat.is_nan x) eqn:E; [reflexivity | exact E].
Qed.

Lemma get_daily_summary_run (date : string) (d : Date) (db : Database) :
  date_in date = Ok d ->
  get_daily_summary date db
  = (res_json
       (J_summary
          (summary_object date
             (group_records (records_on d (rows (t_records db))))
             (group_expenses (expenses_on d (rows (t_expenses db))))
             (record_totals (records_on d (rows (t_records db))))
             (expense_totals (expenses_on d (rows (t_expenses db)))))),
     db).
Proof.
  intros H.
  unfold get_daily_summary, try_catch, hbind, query, hret, first_row,
    income_by_payment_type, expenses_by_payment_type, total_income, total_expenses.
  store_unfold. rewrite H. reflexivity.
Qed.

(** The two groups of a selection of one cash record of 100 and one card
    record of 50. *)
Lemma group_records_cash_card (r1 r2 : RecordRow) :
  rec_price r1 = 10000 -> rec_payment_type r1 = Cash ->
  rec_price r2 = 5000 -> rec_payment_type r2 = Card ->
  group_records [r1; r2]
  = [{| grp_payment_type := Cash; grp_count := 1; grp_total := 10000 |};
     {| grp_payment_type := Card; grp_count := 1; grp_total := 5000 |}]
  /\ group_records [r2; r1]
     = [{| grp_payment_type := Card; grp_count := 1; grp_total := 5000 |};
        {| grp_payment_type := Cash; grp_count := 1; grp_total := 10000 |}]
  /\ record_totals [r1; r2] = {| agg_count := 2; agg_total := Some 15000 |}
  /\ record_totals [r2; r1] = {| agg_count := 2; agg_total := Some 15000 |}.
Proof.
  intros P1 T1 P2 T2.
  destruct r1 as [i1 d1 c1 s1 st1 p1 t1 ca1], r2 as [i2 d2 c2 s2 st2 p2 t2 ca2].
  cbn in P1, T1, P2, T2. subst. repeat split.
Qed.
End DailySummary.

(** C3: for every date the store reads, GET /reports/daily-summary/:date
    answers 200 with a summary whose [netProfit] is the difference, in
    JavaScript numbers, of [income.total.amount] and
    [expenses.total.amount]; each amount is the sum of the day read by
    [parseFloat], or 0 when the sum is NULL, and is never NaN.  The
    records and the expenses of the day are the rows of the two tables
    whose date is the date asked for.  On a day without records and
    expenses the counts, the amounts and [netProfit] are 0; and when the
    records of the day are one of 100 in cash and one of 50 by card,
    [income.total] is [{count: 2, amount: 150}] and
    [income.byPaymentType] consists of the two groups, with sums 100 and
    50. *)
Theorem daily_summary_spec (db : Schema.Database) (date : string) (d : Pg.Date) :
  Pg.date_in date = Pg.Ok d ->
  let records := Schema.rows (Schema.t_records db) in
  let expenses := Schema.rows (Schema.t_expenses db) in
  let recs := filter (fun r => Pg.date_eqb (Schema.rec_date r) d) records in
  let exps := filter (fun e => Pg.date_eqb (Schema.exp_date e) d) expenses in
  exists s : Api.Summary,
    Api.get_daily_summary date db = (Api.res_json (Api.J_summary s), db)
    /\ (forall r, In r recs <-> In r records /\ Schema.rec_date r = d)
    /\ (forall e, In e exps <-> In e expenses /\ Schema.exp_date e = d)
    /\ Api.sm_date s = date
    /\ Api.sm_netProfit s
       = PrimFloat.sub (Api.amount (Api.total (Api.sm_income s)))
           (Api.amount (Api.total (Api.sm_expenses s)))
    /\ Api.amount (Api.total (Api.sm_income s))
       = Js.or_zero (Js.parseFloat_numeric
                       (Store.sum_or_null (map Schema.rec_price recs)))
    /\ Api.amount (Api.total (Api.sm_expenses s))
       = Js.or_zero (Js.parseFloat_numeric
                       (Store.sum_or_null (map Schema.exp_amount exps)))
    /\ Api.count (Api.total (Api.sm_income s))
       = Js.or_zero (Js.parseInt_count (count_rows recs))
    /\ Api.count (Api.total (Api.sm_expenses s))
       = Js.or_zero (Js.parseInt_count (count_rows exps))
    /\ PrimFloat.is_nan (Api.amount (Api.total (Api.sm_income s))) = false
    /\ PrimFloat.is_nan (Api.amount (Api.total (Api.sm_expenses s))) = false
    /\ PrimFloat.is_nan (Api.count (Api.total (Api.sm_income s))) = false
    /\ PrimFloat.is_nan (Api.count (Api.total (Api.sm_expenses s))) = false
    /\ ((forall r, In r records -> Schema.rec_date r <> d) ->
        Api.sm_income s
        = {| Api.byPaymentType := [];
             Api.total := {| Api.count := 0%float; Api.amount := 0%float |} |})
    /\ ((forall e, In e expenses -> Schema.exp_date e <> d) ->
        Api.sm_expenses s
        = {| Api.byPaymentType := [];
             Api.total := {| Api.count := 0%float; Api.amount := 0%float |} |})
    /\ ((forall r, In r records -> Schema.rec_date r <> d) ->
        (forall e, In e expenses -> Schema.exp_date e <> d) ->
        Api.sm_netProfit s = 0%float)
    /\ (forall r1 r2,
          Permutation recs [r1; r2] ->
          Schema.rec_price r1 = 10000 -> Schema.rec_payment_type r1 = Schema.Cash ->
          Schema.rec_price r2 = 5000 -> Schema.rec_payment_type r2 = Schema.Card ->
          Api.total (Api.sm_income s)
          = {| Api.count := 2%float; Api.amount := 150%float |}
          /\ Permutation (Api.byPaymentType (Api.sm_income s))
               [{| Store.grp_payment_type := Schema.Cash; Store.grp_count := 1;
                   Store.grp_total := 10000 |};
                {| Store.grp_payment_type := Schema.Card; Store.grp_count := 1;
                   Store.grp_total := 5000 |}]).
Proof.
  intros Hd. cbv zeta.
  eexists. split; [apply (get_daily_summary_run date d db Hd) |].
  split; [intros r; rewrite filter_In, date_eqb_spec; reflexivity |].
  split; [intros e; rewrite filter_In, date_eqb_spec; reflexivity |].
  change (filter (fun r => Pg.date_eqb (Schema.rec_date r) d)
            (Schema.rows (Schema.t_records db)))
    with (Store.records_on d (Schema.rows (Schema.t_records db))).
  change (filter (fun e => Pg.date_eqb (Schema.exp_date e) d)
            (Schema.rows (Schema.t_expenses db)))
    with (Store.expenses_on d (Schema.rows (Schema.t_expenses db))).
  unfold Api.summary_object, Api.total_of, Store.record_totals, Store.expense_totals.
  cbn [Api.sm_date Api.sm_netProfit Api.sm_income Api.sm_expenses Api.total Api.amount
         Api.count Api.byPaymentType Store.agg_total Store.agg_count].
  repeat apply conj; try reflexivity; try apply or_zero_not_nan.
  - intros Hr. rewrite (records_on_none _ _ Hr). reflexivity.
  - intros He. rewrite (expenses_on_none _ _ He). reflexivity.
  - intros Hr He. rewrite (records_on_none _ _ Hr), (expenses_on_none _ _ He).
    reflexivity.
  - intros r1 r2 Hperm P1 T1 P2 T2.
    destruct (group_records_cash_card r1 r2 P1 T1 P2 T2) as [G12 [G21 _]].
    apply Permutation_sym, Permutation_length_2_inv in Hperm.
    destruct Hperm as [-> | ->].
    + rewrite G12. cbn [map Store.sum_or_null sum_Z fold_right count_rows List.length].
      rewrite P1, P2. split; [reflexivity | apply Permutation_refl].
    + rewrite G21. cbn [map Store.sum_or_null sum_Z fold_right count_rows List.length].
      rewrite P1, P2. split; [reflexivity | apply perm_swap].
Qed.

(** The theorem on the sample day of two records, 100 in cash and 50 by
    card. *)
Lemma daily_summary_spec_witness :
  Pg.date_in "2024-03-10" = Pg.Ok (Pg.mkDate 2024 3 10)
  /\ exists s : Api.Summary,
       Api.get_daily_summary "2024-03-10" Sample.db_day
       = (Api.res_json (Api.J_summary s), Sample.db_day)
       /\ Api.total (Api.sm_income s)
          = {| Api.count := 2%float; Api.amount := 150%float |}.
Proof.
  assert (H : Pg.date_in "2024-03-10" = Pg.Ok (Pg.mkDate 2024 3 10)) by reflexivity.
  split; [exact H |].
  destruct (daily_summary_spec Sample.db_day "2024-03-10" (Pg.mkDate 2024 3 10) H)
    as (s & Hrun & _ & _ & _ & _ & _ & _ & _ & _ & _ & _ & _ & _ & _ & _ & _ & Hex).
  exists s. split; [exact Hrun |].
  apply (Hex Sample.cash_row Sample.card_row); reflexivity.
Defined.

(** ** AVG: the rounding of the store *)

Section Average.
Import Pg Schema Store.

(** The fuel of [leading] is enough: it finds the first digit and the
    weight of every positive integer. *)
Lemma leading_from_spec (fuel : nat) (n : Z) :
  0 < n < 2 ^ (Z.of_nat fuel + 1) ->
  let '(w, d) := leading_from fuel n in
  0 <= w /\ 1 <= d < 10000 /\ d * 10000 ^ w <= n < (d + 1) * 10000 ^ w.
Proof.
  revert n. induction fuel as [| fuel IH]; intros n Hn.
  - cbn in *. lia.
  - cbn [leading_from]. destruct (Z.ltb_spec n 10000) as [Hlt | Hge].
    + cbn. lia.
    + assert (Hn' : 0 < n / 10000 < 2 ^ (Z.of_nat fuel + 1)).
      { split.
        - apply Z.div_str_pos. lia.
        - apply Z.div_lt_upper_bound; [lia |].
          rewrite Nat2Z.inj_succ in Hn.
          replace (Z.succ (Z.of_nat fuel) + 1) with (Z.succ (Z.of_nat fuel + 1))
            in Hn by lia.
          rewrite Z.pow_succ_r in Hn by lia. lia. }
      specialize (IH _ Hn'). destruct (leading_from fuel (n / 10000)) as [w d].
      destruct IH as [Hw [Hd [Hlo Hhi]]].
      split; [lia |]. split; [exact Hd |].
      rewrite Z.pow_add_r, Z.pow_1_r by lia.
      pose proof (Z.div_mod n 10000 ltac:(lia)) as Hdm.
      pose proof (Z.mod_pos_bound n 10000 ltac:(lia)) as Hm.
      split; nia.
Qed.

Lemma leading_spec (n : Z) :
  0 < n ->
  let '(w, d) := leading n in
  0 <= w /\ 1 <= d < 10000 /\ d * 10000 ^ w <= n < (d + 1) * 10000 ^ w.
Proof.
  intros Hn. unfold leading. apply leading_from_spec.
  split; [exact Hn |]. rewrite Z2Nat.id by apply Z.log2_nonneg.
  apply Z.log2_spec in Hn.
  replace (Z.log2 n + 1) with (Z.succ (Z.log2 n)) by lia. lia.
Qed.

Lemma div_scale_range (sum : Decimal) (n : Z) : 2 <= div_scale sum n <= 1000.
Proof.
  unfold div_scale. destruct (numeric_leading sum) as [w1 f1].
  destruct (leading n) as [w2 f2]. lia.
Qed.

(** The rounded quotient is a nearest multiple of [10 ^ - scale]. *)
Lemma rounded_quotient_nearest (sum : Decimal) (n scale : Z) :
  0 < n -> 2 <= scale ->
  Z.abs (2 * n * rounded_quotient sum n scale - 2 * sum * 10 ^ (scale - 2)) <= n.
Proof.
  intros Hn Hs. unfold rounded_quotient.
  set (E := 10 ^ (scale - 2)).
  assert (HE : 0 < E) by (apply Z.pow_pos_nonneg; lia).
  pose proof (Z.div_mod (2 * Z.abs sum * E + n) (2 * n) ltac:(lia)) as Hdm.
  pose proof (Z.mod_pos_bound (2 * Z.abs sum * E + n) (2 * n) ltac:(lia)) as Hm.
  set (k := (2 * Z.abs sum * E + n) / (2 * n)) in *.
  set (r := (2 * Z.abs sum * E + n) mod (2 * n)) in *.
  destruct (Z.sgn_spec sum) as [[Hs1 ->] | [[Hs1 ->] | [Hs1 ->]]].
  - rewrite Z.abs_eq in * by lia. nia.
  - subst sum. cbn. lia.
  - rewrite Z.abs_neq in * by lia. nia.
Qed.

Lemma rounded_quotient_exact (k n scale : Z) :
  0 < n -> 2 <= scale ->
  rounded_quotient (n * k) n scale = k * 10 ^ (scale - 2).
Proof.
  intros Hn Hs. unfold rounded_quotient.
  set (E := 10 ^ (scale - 2)).
  assert (HE : 0 < E) by (apply Z.pow_pos_nonneg; lia).
  assert (Hq : (2 * Z.abs (n * k) * E + n) / (2 * n) = Z.abs k * E).
  { rewrite Z.abs_mul, (Z.abs_eq n) by lia.
    replace (2 * (n * Z.abs k) * E + n) with (Z.abs k * E * (2 * n) + n) by ring.
    rewrite Z.div_add_l by lia. rewrite Z.div_small by lia. lia. }
  rewrite Hq, Z.sgn_mul, (Z.sgn_pos n), Z.mul_1_l by lia.
  destruct (Z.sgn_spec k) as [[Hk ->] | [[Hk ->] | [Hk ->]]].
  - rewrite Z.abs_eq by lia. ring.
  - subst k. reflexivity.
  - rewrite Z.abs_neq by lia. ring.
Qed.

Lemma count_rows_map {A B : Type} (f : A -> B) (l : list A) :
  count_rows (map f l) = count_rows l.
Proof. unfold count_rows. now rewrite length_map. Qed.

Lemma count_rows_pos {A : Type} (l : list A) : l <> [] -> 0 < count_rows l.
Proof.
  unfold count_rows. destruct l; [intros H; now destruct H | cbn [List.length]; lia].
Qed.

(** What AVG returns for a group of prices: the quotient rounded to [s]
    decimals, where [s] is the scale the store chooses, between 2 and
    1000; it is within half a unit of the last decimal of the exact
    quotient, so within half a hundredth, and it is the exact quotient
    when that has no more than two decimals. *)
Lemma average_spec (l : list Decimal) :
  l <> [] ->
  let sum := sum_Z l in
  let n := count_rows l in
  let s := div_scale sum n in
  2 <= s <= 1000
  /\ average l == rounded_quotient sum n s # Z.to_pos (10 ^ s)
  /\ (Qabs (average l - (sum # 100) / inject_Z n) <= 1 # (2 * Z.to_pos (10 ^ s)))%Q
  /\ (Qabs (average l - (sum # 100) / inject_Z n) <= 1 # 200)%Q
  /\ (forall k, sum = n * k -> average l == (sum # 100) / inject_Z n).
Proof.
  intros Hl. pose proof (count_rows_pos l Hl) as Hn.
  unfold average. cbv zeta.
  set (sum := sum_Z l). set (n := count_rows l) in *. set (s := div_scale sum n).
  pose proof (div_scale_range sum n) as Hs. fold s in Hs.
  assert (HE : 0 < 10 ^ (s - 2)) by (apply Z.pow_pos_nonneg; lia).
  assert (HD : 10 ^ s = 100 * 10 ^ (s - 2)).
  { replace s with (2 + (s - 2)) at 1 by lia. rewrite Z.pow_add_r by lia. reflexivity. }
  assert (Hbound : (Qabs ((rounded_quotient sum n s # Z.to_pos (10 ^ s))
                          - (sum # 100) / inject_Z n)
                    <= 1 # (2 * Z.to_pos (10 ^ s)))%Q).
  { pose proof (rounded_quotient_nearest sum n s Hn ltac:(lia)) as Hnear.
    set (m := rounded_quotient sum n s) in *. set (E := 10 ^ (s - 2)) in *.
    destruct n as [| p | p]; try lia.
    apply Qabs_Qle_condition.
    unfold Qle, Qminus, Qplus, Qopp, Qdiv, Qmult, Qinv. cbn [Qnum Qden inject_Z].
    rewrite !Pos2Z.inj_mul, !Z2Pos.id by lia. rewrite HD.
    apply Z.abs_le in Hnear. split; nia. }
  split; [exact Hs |]. split; [apply Qeq_refl |]. split; [exact Hbound |]. split.
  - eapply Qle_trans; [exact Hbound |].
    unfold Qle. cbn [Qnum Qden]. rewrite Pos2Z.inj_mul, Z2Pos.id by lia. lia.
  - intros k Hk. rewrite Hk, rounded_quotient_exact by lia.
    destruct n as [| p | p]; try lia.
    unfold Qeq, Qdiv, Qmult, Qinv. cbn [Qnum Qden inject_Z].
    rewrite Z2Pos.id by lia. rewrite HD. rewrite Pos2Z.inj_mul. ring.
Qed.

(** Three averages as the store returns them: of 100.00, 200.00 and 0.02;
    of 1.00 and 1.00 and 0.00; and of 100 and 200. *)
Example average_samples :
  average [10000; 20000; 2] = 1000066666666666667 # 10000000000000000
  /\ average [100; 100; 0] = 66666666666666666667 # 100000000000000000000
  /\ average [10000; 20000] == 150.
Proof. split; [| split]; vm_compute; reflexivity. Qed.

End Average.

(** ** Staff performance *)

Section StaffPerformance.
Import Pg Schema Store Api.

Lemma Sorted_weaken {A : Type} (R R' : A -> A -> Prop) (l : list A) :
  (forall a b, R a b -> R' a b) -> Sorted R l -> Sorted R' l.
Proof.
  intros HR. induction 1 as [| x l Hs IH Hhd]; constructor; [exact IH |].
  destruct Hhd; constructor. now apply HR.
Qed.

Lemma get_staff_performance_run (p_start p_end : string) (d1 d2 : Date)
    (db : Database) :
  date_in p_start = Ok d1 -> date_in p_end = Ok d2 ->
  get_staff_performance p_start p_end db
  = (res_json (J_staff_performance (staff_report d1 d2 (rows (t_records db)))), db).
Proof.
  intros H1 H2.
  unfold get_staff_performance, try_catch, hbind, query, hret, staff_performance.
  store_unfold. rewrite H1, H2. reflexivity.
Qed.

Lemma staff_names_spec (d1 d2 : Date) (all : list RecordRow) (s : string) :
  In s (distinct String.eqb (flat_map staff_of (with_staff_in_range d1 d2 all)))
  <-> exists r, In r all /\ in_range d1 d2 r = true /\ rec_staff r = Some s.
Proof.
  rewrite (distinct_In String.eqb String.eqb_eq), in_flat_map. split.
  - intros [r [Hr Hs]]. unfold with_staff_in_range in Hr.
    apply filter_In in Hr. destruct Hr as [Hr Hf].
    apply andb_true_iff in Hf. destruct Hf as [Hrange _].
    unfold staff_of in Hs. destruct (rec_staff r) as [s' |] eqn:E; [| destruct Hs].
    destruct Hs as [-> | []]. now exists r.
  - intros [r [Hr [Hrange Hs]]]. exists r. split.
    + apply filter_In. split; [exact Hr |]. rewrite Hrange, Hs. reflexivity.
    + unfold staff_of. rewrite Hs. now left.
Qed.

Lemma staff_group_spec (d1 d2 : Date) (all : list RecordRow) (s : string)
    (r : RecordRow) :
  In r (staff_group d1 d2 s all)
  <-> In r all /\ in_range d1 d2 r = true /\ rec_staff r = Some s.
Proof.
  unfold staff_group, with_staff_in_range.
  rewrite !filter_In, option_string_eqb_spec, andb_true_iff. split.
  - intros [[Hr [Hrange _]] Hs]. auto.
  - intros [Hr [Hrange Hs]]. rewrite Hs. cbn. auto.
Qed.

(** The group of a staff member is selected from the table by the range
    and the name alone. *)
Lemma staff_group_filter (d1 d2 : Date) (s : string) (all : list RecordRow) :
  staff_group d1 d2 s all
  = filter (fun r => date_leb d1 (rec_date r) && date_leb (rec_date r) d2
                     && option_eqb String.eqb (rec_staff r) (Some s)) all.
Proof.
  unfold staff_group, with_staff_in_range, in_range.
  induction all as [| r l IH]; [reflexivity |].
  cbn [filter]. rewrite <- IH.
  destruct (date_leb d1 (rec_date r)), (date_leb (rec_date r) d2);
    destruct (rec_staff r) as [s' |] eqn:E;
    cbn [andb is_some option_eqb filter]; rewrite ?E; reflexivity.
Qed.

(** One staff member, two records of 100 and 200 on two services. *)
Lemma staff_report_two_records (d1 d2 : Date) (all : list RecordRow)
    (s sv1 sv2 : string) (r1 r2 : RecordRow) :
  with_staff_in_range d1 d2 all = [r1; r2] ->
  rec_staff r1 = Some s -> rec_staff r2 = Some s ->
  rec_service r1 = Some sv1 -> rec_service r2 = Some sv2 -> sv1 <> sv2 ->
  staff_report d1 d2 all
  = [{| sp_staff := s; sp_service_count := 2;
        sp_total_revenue := rec_price r1 + (rec_price r2 + 0);
        sp_average_price := average [rec_price r1; rec_price r2];
        sp_services_provided := [Some sv1; Some sv2] |}].
Proof.
  intros Hsel S1 S2 V1 V2 Hne.
  assert (E : String.eqb sv1 sv2 = false) by now apply String.eqb_neq.
  unfold staff_report, staff_row, staff_group. rewrite Hsel.
  unfold staff_of. cbn [flat_map]. rewrite S1, S2.
  cbn [app distinct filter]. rewrite String.eqb_refl.
  cbn [negb filter map sort_by fold_right insert_sorted].
  rewrite S1, S2. cbn [option_eqb]. rewrite String.eqb_refl.
  cbn [map distinct filter]. rewrite V1, V2. cbn [option_eqb].
  rewrite E. reflexivity.
Qed.
End StaffPerformance.

(** C4: for every date range the store reads, GET
    /reports/staff-performance answers 200 with one row per staff member
    who has a record in the inclusive range; the row carries the number
    of those records, the sum of their prices, their average price, and
    every service among them once; the rows are ordered by revenue
    descending.  The records of a row are those of the table with the
    date in the range and the staff of the row.  The average is the
    quotient of sum by count as the store rounds it: to [s] decimals,
    [s] between 2 and 1000 chosen from sum and count, so that it is
    within half a hundredth of the exact quotient, and equal to it when
    the count divides the sum in hundredths.  When the selected records
    are two records of one staff member, of 100 and 200, on two
    different services, the report is a single row with count 2, revenue
    300, average 150 and both services once each. *)
Theorem staff_performance_spec (db : Schema.Database) (startDate endDate : string)
    (d1 d2 : Pg.Date) :
  Pg.date_in startDate = Pg.Ok d1 ->
  Pg.date_in endDate = Pg.Ok d2 ->
  let all := Schema.rows (Schema.t_records db) in
  let within := fun r => Pg.date_leb d1 (Schema.rec_date r)
                         && Pg.date_leb (Schema.rec_date r) d2 in
  exists report : list Store.StaffPerformanceRow,
    Api.get_staff_performance startDate endDate db
    = (Api.res_json (Api.J_staff_performance report), db)
    /\ StronglySorted
         (fun a b => Store.sp_total_revenue b <= Store.sp_total_revenue a) report
    /\ NoDup (map Store.sp_staff report)
    /\ (forall s, In s (map Store.sp_staff report) <->
                  exists r, In r all
                            /\ Pg.date_leb d1 (Schema.rec_date r) = true
                            /\ Pg.date_leb (Schema.rec_date r) d2 = true
                            /\ Schema.rec_staff r = Some s)
    /\ (forall row, In row report ->
          let g := filter (fun r => within r
                                    && option_eqb String.eqb (Schema.rec_staff r)
                                         (Some (Store.sp_staff row))) all in
          let total := sum_Z (map Schema.rec_price g) in
          let s := Store.div_scale total (count_rows g) in
          (forall r, In r g <->
                     In r all
                     /\ Pg.date_leb d1 (Schema.rec_date r) = true
                     /\ Pg.date_leb (Schema.rec_date r) d2 = true
                     /\ Schema.rec_staff r = Some (Store.sp_staff row))
          /\ 0 < count_rows g
          /\ Store.sp_service_count row = count_rows g
          /\ Store.sp_total_revenue row = total
          /\ 2 <= s <= 1000
          /\ Store.sp_average_price row
             == Store.rounded_quotient total (count_rows g) s # Z.to_pos (10 ^ s)
          /\ (Qabs (Store.sp_average_price row - (total # 100) / inject_Z (count_rows g))
              <= 1 # (2 * Z.to_pos (10 ^ s)))%Q
          /\ (Qabs (Store.sp_average_price row - (total # 100) / inject_Z (count_rows g))
              <= 1 # 200)%Q
          /\ (forall k, total = count_rows g * k ->
                        Store.sp_average_price row
                        == (total # 100) / inject_Z (count_rows g))
          /\ NoDup (Store.sp_services_provided row)
          /\ (forall sv, In sv (Store.sp_services_provided row) <->
                         exists r, In r g /\ Schema.rec_service r = sv))
    /\ (forall s sv1 sv2 r1 r2,
          Permutation
            (filter (fun r => within r && is_some (Schema.rec_staff r)) all) [r1; r2] ->
          Schema.rec_staff r1 = Some s -> Schema.rec_staff r2 = Some s ->
          Schema.rec_price r1 = 10000 -> Schema.rec_price r2 = 20000 ->
          Schema.rec_service r1 = Some sv1 -> Schema.rec_service r2 = Some sv2 ->
          sv1 <> sv2 ->
          exists row,
            report = [row]
            /\ Store.sp_staff row = s
            /\ Store.sp_service_count row = 2
            /\ Store.sp_total_revenue row = 30000
            /\ Store.sp_average_price row == 150
            /\ NoDup (Store.sp_services_provided row)
            /\ (forall x, In x (Store.sp_services_provided row) <->
                          x = Some sv1 \/ x = Some sv2)).
Proof.
  intros H1 H2. cbv zeta.
  set (all := Schema.rows (Schema.t_records db)).
  exists (Store.staff_report d1 d2 all).
  split; [apply get_staff_performance_run; assumption |].
  assert (Hperm : Permutation (Store.staff_report d1 d2 all)
                    (map (Store.staff_row d1 d2 all)
                       (distinct String.eqb
                          (flat_map Store.staff_of
                             (Store.with_staff_in_range d1 d2 all)))))
    by apply sort_by_perm.
  assert (Hnames : forall l, map Store.sp_staff (map (Store.staff_row d1 d2 all) l) = l).
  { intros l. rewrite map_map. cbn. apply map_id. }
  assert (Hrange : forall r, Store.in_range d1 d2 r = true <->
                             Pg.date_leb d1 (Schema.rec_date r) = true
                             /\ Pg.date_leb (Schema.rec_date r) d2 = true).
  { intros r. unfold Store.in_range. apply andb_true_iff. }
  repeat apply conj.
  - apply Sorted_StronglySorted; [intros x y z Hxy Hyz; lia |].
    apply (Sorted_weaken (fun a b => Store.highest_revenue_first a b = true)).
    + intros a b Hab. unfold Store.highest_revenue_first in Hab. lia.
    + apply sort_by_sorted. intros a b. unfold Store.highest_revenue_first. lia.
  - eapply Permutation_NoDup.
    + apply Permutation_sym, Permutation_map, Hperm.
    + rewrite Hnames. apply (distinct_NoDup String.eqb String.eqb_eq).
  - intros s. split.
    + intros Hs.
      apply (Permutation_in _ (Permutation_map Store.sp_staff Hperm)) in Hs.
      rewrite Hnames in Hs. apply staff_names_spec in Hs.
      destruct Hs as [r [Hr [Hrg Hst]]]. apply Hrange in Hrg. exists r. tauto.
    + intros [r [Hr [Ha [Hb Hst]]]].
      apply (Permutation_in _
               (Permutation_sym (Permutation_map Store.sp_staff Hperm))).
      rewrite Hnames. apply staff_names_spec. exists r. rewrite Hrange. tauto.
  - intros row Hrow.
    apply (Permutation_in _ Hperm) in Hrow. apply in_map_iff in Hrow.
    destruct Hrow as [s [<- Hs]]. cbn [Store.staff_row Store.sp_staff
      Store.sp_service_count Store.sp_total_revenue Store.sp_average_price
      Store.sp_services_provided].
    rewrite <- (staff_group_filter d1 d2 s all).
    set (g := Store.staff_group d1 d2 s all).
    assert (Hg : map Schema.rec_price g <> []).
    { apply staff_names_spec in Hs. destruct Hs as [r Hr].
      apply (staff_group_spec d1 d2 all s r) in Hr. fold g in Hr.
      destruct g; [destruct Hr | discriminate]. }
    pose proof (average_spec _ Hg) as Havg. cbv zeta in Havg.
    rewrite count_rows_map in Havg.
    destruct Havg as (A1 & A2 & A3 & A4 & A5).
    split; [| split; [| split; [| split; [| split; [| split; [| split;
      [| split; [| split; [| split]]]]]]]]].
    + intros r. unfold g. rewrite staff_group_spec, Hrange. tauto.
    + rewrite <- (count_rows_map Schema.rec_price). now apply count_rows_pos.
    + reflexivity.
    + reflexivity.
    + exact A1.
    + exact A2.
    + exact A3.
    + exact A4.
    + exact A5.
    + apply (distinct_NoDup _ option_string_eqb_spec).
    + intros sv. rewrite (distinct_In _ option_string_eqb_spec), in_map_iff.
      split; intros [r Hr]; exists r; tauto.
  - intros s sv1 sv2 r1 r2 Hp S1 S2 P1 P2 V1 V2 Hne.
    change (Permutation (Store.with_staff_in_range d1 d2 all) [r1; r2]) in Hp.
    apply Permutation_sym, Permutation_length_2_inv in Hp.
    destruct Hp as [Hsel | Hsel].
    + rewrite (staff_report_two_records d1 d2 all s sv1 sv2 r1 r2 Hsel S1 S2 V1 V2 Hne).
      rewrite P1, P2. eexists. split; [reflexivity |].
      cbn [Store.sp_staff Store.sp_service_count Store.sp_total_revenue
           Store.sp_average_price Store.sp_services_provided].
      split; [reflexivity |]. split; [reflexivity |]. split; [reflexivity |].
      split; [vm_compute; reflexivity |]. split.
      * repeat constructor; cbn; intuition congruence.
      * intros x. cbn [In]. split.
        -- intros [H | [H | []]]; auto.
        -- intros [-> | ->]; auto.
    + assert (Hne' : sv2 <> sv1) by congruence.
      rewrite (staff_report_two_records d1 d2 all s sv2 sv1 r2 r1 Hsel S2 S1 V2 V1 Hne').
      rewrite P1, P2. eexists. split; [reflexivity |].
      cbn [Store.sp_staff Store.sp_service_count Store.sp_total_revenue
           Store.sp_average_price Store.sp_services_provided].
      split; [reflexivity |]. split; [reflexivity |]. split; [reflexivity |].
      split; [vm_compute; reflexivity |]. split.
      * repeat constructor; cbn; intuition congruence.
      * intros x. cbn [In]. split.
        -- intros [H | [H | []]]; auto.
        -- intros [-> | ->]; auto.
Qed.

(** The theorem on the sample month: one staff member, two records of
    100 and 200 on two services. *)
Lemma staff_performance_spec_witness :
  Pg.date_in "2024-03-01" = Pg.Ok (Pg.mkDate 2024 3 1)
  /\ Pg.date_in "2024-03-31" = Pg.Ok (Pg.mkDate 2024 3 31)
  /\ exists report row,
       Api.get_staff_performance "2024-03-01" "2024-03-31" Sample.db_staff
       = (Api.res_json (Api.J_staff_performance report), Sample.db_staff)
       /\ report = [row]
       /\ Store.sp_staff row = "Muhammet"
       /\ Store.sp_service_count row = 2
       /\ Store.sp_total_revenue row = 30000
       /\ Store.sp_average_price row == 150.
Proof.
  assert (H1 : Pg.date_in "2024-03-01" = Pg.Ok (Pg.mkDate 2024 3 1)) by reflexivity.
  assert (H2 : Pg.date_in "2024-03-31" = Pg.Ok (Pg.mkDate 2024 3 31)) by reflexivity.
  split; [exact H1 |]. split; [exact H2 |].
  destruct (staff_performance_spec Sample.db_staff "2024-03-01" "2024-03-31" _ _ H1 H2)
    as (report & Hrun & _ & _ & _ & _ & Hex).
  assert (Hp : Permutation
                 (filter (fun r => Pg.date_leb (Pg.mkDate 2024 3 1) (Schema.rec_date r)
                                   && Pg.date_leb (Schema.rec_date r) (Pg.mkDate 2024 3 31)
                                   && is_some (Schema.rec_staff r))
                    (Schema.rows (Schema.t_records Sample.db_staff)))
                 [Sample.shave_row; Sample.dye_row])
    by (vm_compute; apply Permutation_refl).
  assert (Hne : "Sakal" <> "Boya") by discriminate.
  destruct (Hex "Muhammet" "Sakal" "Boya" Sample.shave_row Sample.dye_row
              Hp eq_refl eq_refl eq_refl eq_refl eq_refl eq_refl Hne)
    as (row & Hrow & Hs & Hc & Hr & Ha & _).
  exists report, row.
  exact (conj Hrun (conj Hrow (conj Hs (conj Hc (conj Hr Ha))))).
Defined.

(** ** The payment type constraint *)

Section PaymentType.
Import Pg Schema Store Invariant Api App.

Lemma utf8_split_length (n : nat) (s : string) :
  utf8_length (fst (utf8_split n s)) = Nat.min n (utf8_length s).
Proof.
  revert n. induction s as [| c s IH]; intros n; cbn [utf8_split utf8_length].
  - now rewrite Nat.min_0_r.
  - destruct (is_continuation c) eqn:Ec.
    + specialize (IH n). destruct (utf8_split n s) as [a b]. cbn [fst] in *.
      cbn [utf8_length]. now rewrite Ec.
    + destruct n as [| n]; [reflexivity |].
      specialize (IH n). destruct (utf8_split n s) as [a b]. cbn [fst] in *.
      cbn [utf8_length]. rewrite Ec, IH. reflexivity.
Qed.

Lemma token_fits (pt : string) : In pt payment_types -> varchar 50 pt = Ok pt.
Proof. intros [<- | [<- | [<- | []]]]; reflexivity. Qed.

Lemma token_length (pt : string) :
  In pt payment_types -> (utf8_length pt <= 5)%nat.
Proof. intros [<- | [<- | [<- | []]]]; cbn; lia. Qed.

(** What VARCHAR(50) stores of a text that is not a token is not a
    token either. *)
Lemma varchar_not_token (s s' : string) :
  varchar 50 s = Ok s' -> ~ In s payment_types -> payment_type_check s' = false.
Proof.
  intros Hv Hs. destruct (payment_type_check s') eqn:E; [| reflexivity].
  exfalso. apply payment_type_check_In in E. unfold varchar in Hv.
  destruct (utf8_length s <=? 50)%nat eqn:Hlen.
  - injection Hv as ->. contradiction.
  - apply Nat.leb_gt in Hlen.
    pose proof (utf8_split_length 50 s) as Hsplit.
    destruct (utf8_split 50 s) as [a b]. cbn [fst] in Hsplit.
    destruct (all_spaces b); [| discriminate]. injection Hv as ->.
    apply token_length in E. lia.
Qed.

(** POST /records with acceptable columns and a token as payment type
    stores the row under the next id and answers with it. *)
Lemma post_records_accepts (now : Z) (b : Body) (db : Database)
    (d : Date) (cn sv st : option string) (pr : Decimal) (pt : string) :
  nullable date_in (b "date") = Ok (Some d) ->
  nullable (varchar 255) (b "customer_name") = Ok cn ->
  nullable (varchar 255) (b "service") = Ok sv ->
  nullable (varchar 255) (b "staff") = Ok st ->
  nullable numeric_in (b "price") = Ok (Some pr) ->
  b "payment_type" = Some pt ->
  In pt payment_types ->
  let row := {| rec_id := next_id (t_records db); rec_date := d;
                rec_customer_name := cn; rec_service := sv; rec_staff := st;
                rec_price := pr; rec_payment_type := pt; rec_created_at := now |} in
  post_records now b db
  = (res_json (J_record row), set_records (append row (bump (t_records db))) db).
Proof.
  intros Hd Hcn Hsv Hst Hpr Hpt Hin. cbv zeta.
  unfold post_records, try_catch, hbind, query, hret, insert_record. store_unfold.
  change (check_columns records
            ["date"; "customer_name"; "service"; "staff"; "price"; "payment_type"])
    with (@Ok unit tt).
  rewrite Hd, Hcn, Hsv, Hst, Hpr, Hpt. cbn [nullable rbind].
  rewrite (token_fits pt Hin). cbn -[payment_type_check].
  apply payment_type_check_In in Hin. rewrite Hin. reflexivity.
Qed.

(** POST /records with a text that is not a token as payment type: the
    store raises an error, the route answers 500, no row is stored. *)
Lemma post_records_rejects (now : Z) (b : Body) (db : Database) (s : string) :
  b "payment_type" = Some s ->
  ~ In s payment_types ->
  (exists e,
     fst (insert_record (b "date") (b "customer_name") (b "service") (b "staff")
            (b "price") (b "payment_type") now db) = Err e)
  /\ fst (post_records now b db) = res_status 500 (J_error "Failed to add record")
  /\ rows (t_records (snd (post_records now b db))) = rows (t_records db).
Proof.
  intros Hpt Hs.
  unfold post_records, try_catch, hbind, query, hret, insert_record. store_unfold.
  change (check_columns records
            ["date"; "customer_name"; "service"; "staff"; "price"; "payment_type"])
    with (@Ok unit tt).
  rewrite Hpt. cbn [nullable rbind]. cbn beta iota.
  destruct (nullable date_in (b "date")) as [d | e]; cbn beta iota;
    [| split; [eexists |]; repeat split].
  destruct (nullable (varchar 255) (b "customer_name")) as [cn | e]; cbn beta iota;
    [| split; [eexists |]; repeat split].
  destruct (nullable (varchar 255) (b "service")) as [sv | e]; cbn beta iota;
    [| split; [eexists |]; repeat split].
  destruct (nullable (varchar 255) (b "staff")) as [st | e]; cbn beta iota;
    [| split; [eexists |]; repeat split].
  destruct (nullable numeric_in (b "price")) as [pr | e]; cbn beta iota;
    [| split; [eexists |]; repeat split].
  destruct (varchar 50 s) as [s' | e] eqn:Hv; cbn beta iota;
    [| split; [eexists |]; repeat split].
  destruct d as [d |], pr as [pr |]; cbn -[payment_type_check];
    rewrite ?(varchar_not_token s s' Hv Hs); (split; [eexists |]; repeat split).
Qed.

(** With the other columns acceptable and a text that fits the column,
    the error is the violation of the CHECK constraint. *)
Lemma insert_record_check_violation (now : Z) (b : Body) (db : Database)
    (d : Date) (cn sv st : option string) (pr : Decimal) (s s' : string) :
  nullable date_in (b "date") = Ok (Some d) ->
  nullable (varchar 255) (b "customer_name") = Ok cn ->
  nullable (varchar 255) (b "service") = Ok sv ->
  nullable (varchar 255) (b "staff") = Ok st ->
  nullable numeric_in (b "price") = Ok (Some pr) ->
  b "payment_type" = Some s ->
  varchar 50 s = Ok s' ->
  ~ In s payment_types ->
  fst (insert_record (b "date") (b "customer_name") (b "service") (b "staff")
         (b "price") (b "payment_type") now db) = Err check_violation.
Proof.
  intros Hd Hcn Hsv Hst Hpr Hpt Hv Hs.
  unfold insert_record. store_unfold.
  change (check_columns records
            ["date"; "customer_name"; "service"; "staff"; "price"; "payment_type"])
    with (@Ok unit tt).
  rewrite Hd, Hcn, Hsv, Hst, Hpr, Hpt. cbn [nullable rbind]. rewrite Hv.
  cbn -[payment_type_check]. rewrite (varchar_not_token s s' Hv Hs). reflexivity.
Qed.
End PaymentType.

Section PaymentTypeOfExpenses.
Import Pg Schema Store Invariant Api App.

Lemma post_expenses_accepts (now : Z) (b : Body) (db : Database)
    (d : Date) (ty : string) (am : Decimal) (pt : string) :
  nullable date_in (b "date") = Ok (Some d) ->
  nullable (varchar 255) (b "type") = Ok (Some ty) ->
  nullable numeric_in (b "amount") = Ok (Some am) ->
  b "payment_type" = Some pt ->
  In pt payment_types ->
  let row := {| exp_id := next_id (t_expenses db); exp_date := d; exp_type := ty;
                exp_description := b "description"; exp_amount := am;
                exp_payment_type := pt; exp_created_at := now |} in
  post_expenses now b db
  = (res_json (J_expense row), set_expenses (append row (bump (t_expenses db))) db).
Proof.
  intros Hd Hty Ham Hpt Hin. cbv zeta.
  unfold post_expenses, try_catch, hbind, query, hret, insert_expense. store_unfold.
  change (check_columns expenses
            ["date"; "type"; "description"; "amount"; "payment_type"])
    with (@Ok unit tt).
  rewrite Hd, Hty, Ham, Hpt. cbn [nullable rbind].
  rewrite (token_fits pt Hin). cbn -[payment_type_check].
  apply payment_type_check_In in Hin. rewrite Hin. reflexivity.
Qed.

Lemma post_expenses_rejects (now : Z) (b : Body) (db : Database) (s : string) :
  b "payment_type" = Some s ->
  ~ In s payment_types ->
  (exists e,
     fst (insert_expense (b "date") (b "type") (b "description") (b "amount")
            (b "payment_type") now db) = Err e)
  /\ fst (post_expenses now b db) = res_status 500 (J_error "Failed to add expense")
  /\ rows (t_expenses (snd (post_expenses now b db))) = rows (t_expenses db).
Proof.
  intros Hpt Hs.
  unfold post_expenses, try_catch, hbind, query, hret, insert_expense. store_unfold.
  change (check_columns expenses
            ["date"; "type"; "description"; "amount"; "payment_type"])
    with (@Ok unit tt).
  rewrite Hpt. cbn [nullable rbind]. cbn beta iota.
  destruct (nullable date_in (b "date")) as [d | e]; cbn beta iota;
    [| split; [eexists |]; repeat split].
  destruct (nullable (varchar 255) (b "type")) as [ty | e]; cbn beta iota;
    [| split; [eexists |]; repeat split].
  destruct (nullable numeric_in (b "amount")) as [am | e]; cbn beta iota;
    [| split; [eexists |]; repeat split].
  destruct (varchar 50 s) as [s' | e] eqn:Hv; cbn beta iota;
    [| split; [eexists |]; repeat split].
  destruct d as [d |], ty as [ty |], am as [am |]; cbn -[payment_type_check];
    rewrite ?(varchar_not_token s s' Hv Hs); (split; [eexists |]; repeat split).
Qed.

Lemma insert_expense_check_violation (now : Z) (b : Body) (db : Database)
    (d : Date) (ty : string) (am : Decimal) (s s' : string) :
  nullable date_in (b "date") = Ok (Some d) ->
  nullable (varchar 255) (b "type") = Ok (Some ty) ->
  nullable numeric_in (b "amount") = Ok (Some am) ->
  b "payment_type" = Some s ->
  varchar 50 s = Ok s' ->
  ~ In s payment_types ->
  fst (insert_expense (b "date") (b "type") (b "description") (b "amount")
         (b "payment_type") now db) = Err check_violation.
Proof.
  intros Hd Hty Ham Hpt Hv Hs.
  unfold insert_expense. store_unfold.
  change (check_columns expenses
            ["date"; "type"; "description"; "amount"; "payment_type"])
    with (@Ok unit tt).
  rewrite Hd, Hty, Ham, Hpt. cbn [nullable rbind]. rewrite Hv.
  cbn -[payment_type_check]. rewrite (varchar_not_token s s' Hv Hs). reflexivity.
Qed.
End PaymentTypeOfExpenses.

(** C1, amended: the tokens are 'Nakit', 'Kart' and 'Banka'.  An insert
    into records or expenses whose payment type is one of them succeeds
    when the other columns are acceptable (the date is present and a
    date, the price or amount is present and a NUMERIC(10, 2), the
    expense type is present, the texts fit their columns).  For any other
    string the insert fails and stores nothing; the failure is the
    violation of the CHECK constraint when the other columns are
    acceptable and the string fits VARCHAR(50).  In every database the
    application can reach, every row of records and expenses carries one
    of the three tokens. *)
Theorem payment_type_constraint :
  (forall now b db d cn sv st pr pt,
     Pg.nullable Pg.date_in (b "date") = Pg.Ok (Some d) ->
     Pg.nullable (Pg.varchar 255) (b "customer_name") = Pg.Ok cn ->
     Pg.nullable (Pg.varchar 255) (b "service") = Pg.Ok sv ->
     Pg.nullable (Pg.varchar 255) (b "staff") = Pg.Ok st ->
     Pg.nullable Pg.numeric_in (b "price") = Pg.Ok (Some pr) ->
     b "payment_type" = Some pt ->
     In pt Schema.payment_types ->
     let row := {| Schema.rec_id := Schema.next_id (Schema.t_records db);
                   Schema.rec_date := d; Schema.rec_customer_name := cn;
                   Schema.rec_service := sv; Schema.rec_staff := st;
                   Schema.rec_price := pr; Schema.rec_payment_type := pt;
                   Schema.rec_created_at := now |} in
     Api.post_records now b db
     = (Api.res_json (Api.J_record row),
        Schema.set_records (Store.append row (Store.bump (Schema.t_records db))) db))
  /\ (forall now b db s,
        b "payment_type" = Some s ->
        ~ In s Schema.payment_types ->
        (exists e,
           fst (Store.insert_record (b "date") (b "customer_name") (b "service")
                  (b "staff") (b "price") (b "payment_type") now db) = Pg.Err e)
        /\ fst (Api.post_records now b db)
           = Api.res_status 500 (Api.J_error "Failed to add record")
        /\ Schema.rows (Schema.t_records (snd (Api.post_records now b db)))
           = Schema.rows (Schema.t_records db))
  /\ (forall now b db d cn sv st pr s s',
        Pg.nullable Pg.date_in (b "date") = Pg.Ok (Some d) ->
        Pg.nullable (Pg.varchar 255) (b "customer_name") = Pg.Ok cn ->
        Pg.nullable (Pg.varchar 255) (b "service") = Pg.Ok sv ->
        Pg.nullable (Pg.varchar 255) (b "staff") = Pg.Ok st ->
        Pg.nullable Pg.numeric_in (b "price") = Pg.Ok (Some pr) ->
        b "payment_type" = Some s ->
        Pg.varchar 50 s = Pg.Ok s' ->
        ~ In s Schema.payment_types ->
        fst (Store.insert_record (b "date") (b "customer_name") (b "service")
               (b "staff") (b "price") (b "payment_type") now db)
        = Pg.Err Pg.check_violation)
  /\ (forall now b db d ty am pt,
        Pg.nullable Pg.date_in (b "date") = Pg.Ok (Some d) ->
        Pg.nullable (Pg.varchar 255) (b "type") = Pg.Ok (Some ty) ->
        Pg.nullable Pg.numeric_in (b "amount") = Pg.Ok (Some am) ->
        b "payment_type" = Some pt ->
        In pt Schema.payment_types ->
        let row := {| Schema.exp_id := Schema.next_id (Schema.t_expenses db);
                      Schema.exp_date := d; Schema.exp_type := ty;
                      Schema.exp_description := b "description";
                      Schema.exp_amount := am; Schema.exp_payment_type := pt;
                      Schema.exp_created_at := now |} in
        Api.post_expenses now b db
        = (Api.res_json (Api.J_expense row),
           Schema.set_expenses (Store.append row (Store.bump (Schema.t_expenses db))) db))
  /\ (forall now b db s,
        b "payment_type" = Some s ->
        ~ In s Schema.payment_types ->
        (exists e,
           fst (Store.insert_expense (b "date") (b "type") (b "description")
                  (b "amount") (b "payment_type") now db) = Pg.Err e)
        /\ fst (Api.post_expenses now b db)
           = Api.res_status 500 (Api.J_error "Failed to add expense")
        /\ Schema.rows (Schema.t_expenses (snd (Api.post_expenses now b db)))
           = Schema.rows (Schema.t_expenses db))
  /\ (forall now b db d ty am s s',
        Pg.nullable Pg.date_in (b "date") = Pg.Ok (Some d) ->
        Pg.nullable (Pg.varchar 255) (b "type") = Pg.Ok (Some ty) ->
        Pg.nullable Pg.numeric_in (b "amount") = Pg.Ok (Some am) ->
        b "payment_type" = Some s ->
        Pg.varchar 50 s = Pg.Ok s' ->
        ~ In s Schema.payment_types ->
        fst (Store.insert_expense (b "date") (b "type") (b "description")
               (b "amount") (b "payment_type") now db)
        = Pg.Err Pg.check_violation)
  /\ (forall coll db,
        App.reachable coll db ->
        Forall (fun r => In (Schema.rec_payment_type r) Schema.payment_types)
          (Schema.rows (Schema.t_records db))
        /\ Forall (fun r => In (Schema.exp_payment_type r) Schema.payment_types)
             (Schema.rows (Schema.t_expenses db))).
Proof.
  split; [exact post_records_accepts |].
  split; [exact post_records_rejects |].
  split; [exact insert_record_check_violation |].
  split; [exact post_expenses_accepts |].
  split; [exact post_expenses_rejects |].
  split; [exact insert_expense_check_violation |].
  intros coll db Hreach. apply reachable_ok in Hreach.
  destruct Hreach as [_ _ _ _ _ _ Hr He]. split; assumption.
Qed.

(** The theorem on a fresh installation: the cash record of 100 is
    stored under id 1, and a record whose payment type is the word
    "Cash" is refused by the CHECK constraint. *)
Lemma payment_type_constraint_witness :
  Sample.cash_100 "payment_type" = Some Schema.Cash
  /\ In Schema.Cash Schema.payment_types
  /\ Api.post_records 1 Sample.cash_100 Sample.db0
     = (Api.res_json (Api.J_record Sample.cash_row),
        Schema.set_records
          (Store.append Sample.cash_row (Store.bump (Schema.t_records Sample.db0)))
          Sample.db0)
  /\ Sample.english_cash "payment_type" = Some "Cash"
  /\ ~ In "Cash" Schema.payment_types
  /\ fst (Store.insert_record (Sample.english_cash "date")
            (Sample.english_cash "customer_name") (Sample.english_cash "service")
            (Sample.english_cash "staff") (Sample.english_cash "price")
            (Sample.english_cash "payment_type") 1 Sample.db0)
     = Pg.Err Pg.check_violation
  /\ fst (Api.post_records 1 Sample.english_cash Sample.db0)
     = Api.res_status 500 (Api.J_error "Failed to add record").
Proof.
  destruct payment_type_constraint as [Haccept [Hreject [Hcheck _]]].
  assert (Hin : In Schema.Cash Schema.payment_types) by (left; reflexivity).
  assert (Hout : ~ In "Cash" Schema.payment_types).
  { intros [H | [H | [H | []]]]; discriminate H. }
  split; [reflexivity |]. split; [exact Hin |].
  split.
  { exact (Haccept 1 Sample.cash_100 Sample.db0 (Pg.mkDate 2024 3 10) (Some "Ali")
             (Some "Sakal") (Some "Ufuk") 10000 Schema.Cash
             eq_refl eq_refl eq_refl eq_refl eq_refl eq_refl Hin). }
  split; [reflexivity |]. split; [exact Hout |].
  split.
  { exact (Hcheck 1 Sample.english_cash Sample.db0 (Pg.mkDate 2024 3 10) None
             (Some "Sakal") None 10000 "Cash" "Cash"
             eq_refl eq_refl eq_refl eq_refl eq_refl eq_refl eq_refl Hout). }
  exact (proj1 (proj2 (Hreject 1 Sample.english_cash Sample.db0 "Cash" eq_refl Hout))).
Defined.

(** C1 as stated fails: with the token 'Nakit' as payment type and no
    price, the insert is refused by the NOT NULL constraint of [price];
    POST /records answers 500 and no row is stored. *)
Lemma valid_payment_type_insert_can_fail :
  Sample.no_price "payment_type" = Some Schema.Cash
  /\ In Schema.Cash Schema.payment_types
  /\ fst (Store.insert_record (Sample.no_price "date") (Sample.no_price "customer_name")
            (Sample.no_price "service") (Sample.no_price "staff")
            (Sample.no_price "price") (Sample.no_price "payment_type") 1 Sample.db0)
     = Pg.Err Pg.not_null_violation
  /\ fst (Api.post_records 1 Sample.no_price Sample.db0)
     = Api.res_status 500 (Api.J_error "Failed to add record")
  /\ Schema.rows (Schema.t_records (snd (Api.post_records 1 Sample.no_price Sample.db0)))
     = [].
Proof.
  split; [reflexivity |]. split; [left; reflexivity |].
  split; [vm_compute; reflexivity |]. split; vm_compute; reflexivity.
Qed.

(** ** Further facts about the routes *)

Section Further.
Import Pg Schema Store Api.

(** When the store reads both ends of the range, which is the case in
    the months of 31 days, the monthly query returns the rows of the
    inclusive range. *)
Lemma monthly_records_when_read (year month : string) (d1 d2 : Date) (db : Database) :
  date_in (year ++ "-" ++ Js.padStart 2 "0" month ++ "-01") = Ok d1 ->
  date_in (year ++ "-" ++ Js.padStart 2 "0" month ++ "-31") = Ok d2 ->
  exists l,
    get_records_monthly year month db = (res_json (J_records l), db)
    /\ Permutation l
         (filter (fun r => date_leb d1 (rec_date r) && date_leb (rec_date r) d2)
            (rows (t_records db))).
Proof.
  intros H1 H2. eexists. split; [| apply sort_by_perm].
  unfold get_records_monthly, try_catch, hbind, query, hret, select_records_between.
  store_unfold. cbv zeta. rewrite H1, H2. reflexivity.
Qed.

(** When day 31 is not in the month, the store refuses the end of the
    range and the route answers 500. *)
Lemma monthly_records_when_refused (year month : string) (db : Database) :
  Refusal.refused_date (year ++ "-" ++ Js.padStart 2 "0" month ++ "-31") ->
  get_records_monthly year month db
  = (res_status 500 (J_error "Failed to fetch monthly records"), db).
Proof.
  unfold Refusal.refused_date. intros H.
  unfold get_records_monthly, try_catch, hbind, query, hret, select_records_between.
  store_unfold. cbv zeta. rewrite H.
  destruct (date_in (year ++ "-" ++ Js.padStart 2 "0" month ++ "-01"));
    reflexivity.
Qed.

(** March 2024 on the sample day: both records. *)
Example monthly_records_march :
  fst (get_records_monthly "2024" "3" Sample.db_day)
  = res_json (J_records [Sample.card_row; Sample.cash_row]).
Proof. vm_compute. reflexivity. Qed.

(** The model refuses what the store refuses for certain. *)
Lemma refused_id_error (p : string) :
  Refusal.refused_id p -> exists e, int4_in p = Err e.
Proof.
  intros [H | H]; [| now exists numeric_value_out_of_range].
  exists invalid_text_representation.
  destruct p as [| c r]; [reflexivity |].
  unfold Refusal.not_an_integer in H.
  apply andb_true_iff in H. destruct H as [_ H]. apply negb_true_iff in H.
  apply orb_false_iff in H. destruct H as [H Hdigit].
  apply orb_false_iff in H. destruct H as [_ Hsign].
  unfold Refusal.is_sign in Hsign. apply orb_false_iff in Hsign.
  destruct Hsign as [Hplus Hminus].
  unfold Refusal.is_digit in Hdigit.
  assert (Hsplit : split_sign (String c r) = (false, String c r)).
  { unfold split_sign.
    destruct c as [[] [] [] [] [] [] [] []]; try reflexivity; discriminate. }
  unfold int4_in. rewrite Hsplit. cbn [digits digits_from].
  destruct (digit_of c); [discriminate | reflexivity].
Qed.

(** A path segment that is not an integer is refused by the store
    before any row is looked at: the delete routes answer 500. *)
Lemma delete_records_malformed_id (p : string) (db : Database) :
  Refusal.refused_id p ->
  delete_records p db = (res_status 500 (J_error "Failed to delete record"), db).
Proof.
  intros H. destruct (refused_id_error p H) as [e He].
  unfold delete_records, try_catch, hbind, query, delete_record.
  store_unfold. rewrite He. reflexivity.
Qed.

(** A date that is not in the calendar makes the daily summary answer
    500. *)
Lemma daily_summary_malformed_date (date : string) (db : Database) :
  Refusal.refused_date date ->
  get_daily_summary date db
  = (res_status 500 (J_error "Failed to generate daily summary"), db).
Proof.
  unfold Refusal.refused_date. intros H.
  unfold get_daily_summary, try_catch, hbind, query, income_by_payment_type.
  store_unfold. rewrite H. reflexivity.
Qed.

(** POST /api/services through the application. *)
Example post_services_through_app :
  fst (App.handle None
         {| req_method := POST; req_path := ["api"; "services"];
            req_query := Sample.no_query;
            req_body := Sample.fields [("name", "Cilt Bakımı")]; req_now := 7 |}
         Sample.db0)
  = res_status 500 (J_error "Failed to add service").
Proof. vm_compute. reflexivity. Qed.

Lemma placeholders_join (sep : string) (parts : list Db.sql) :
  Db.placeholders (Db.join sep parts) = List.concat (map Db.placeholders parts).
Proof.
  induction parts as [| p parts IH]; [reflexivity |].
  destruct parts as [| p' parts'].
  - cbn. now rewrite app_nil_r.
  - change (Db.join sep (p :: p' :: parts'))
      with (p ++ Db.Lit sep :: Db.join sep (p' :: parts')).
    rewrite placeholders_app. cbn [Db.placeholders]. rewrite IH. reflexivity.
Qed.

(** Without a null value, [buildWhereClause] numbers its placeholders
    $1, $2, ... and keeps every value: each placeholder is bound. *)
Lemma buildWhereClause_without_null (conditions : Db.object) :
  forallb (fun kv => negb (Db.is_null (snd kv))) conditions = true ->
  Db.placeholders (fst (Db.buildWhereClause conditions))
  = seq 1 (List.length conditions)
  /\ snd (Db.buildWhereClause conditions) = Db.values conditions.
Proof.
  intros H. unfold Db.buildWhereClause, Db.entries, Db.values, mapi. cbn [fst snd].
  rewrite placeholders_join. split.
  - generalize 0%nat. induction conditions as [| [k v] l IH]; intros i; [reflexivity |].
    cbn in H. apply andb_true_iff in H. destruct H as [Hv Hl].
    cbn [mapi_from map List.concat List.length seq].
    rewrite (where_condition_placeholder k v i) by now apply negb_true_iff.
    cbn [app]. rewrite Nat.add_1_r. f_equal.
    rewrite (IH Hl (S i)). reflexivity.
  - induction conditions as [| [k v] l IH]; [reflexivity |].
    cbn in H. apply andb_true_iff in H. destruct H as [Hv Hl].
    cbn [map filter snd]. rewrite Hv. f_equal. now apply IH.
Qed.
Lemma placeholders_of_conditions (cols : list string) (i : nat) :
  List.concat
    (map Db.placeholders (mapi_from i (fun col j => Db.assign col (j + 1)) cols))
  = seq (i + 1) (List.length cols).
Proof.
  revert i. induction cols as [| c cols IH]; intros i; [reflexivity |].
  cbn [map mapi_from List.concat Db.assign Db.placeholders app List.length seq].
  f_equal. rewrite IH. reflexivity.
Qed.

(** The sibling builder [hardDelete] numbers its conditions $1, $2, ...
    in step with its parameter list. *)
Lemma hardDelete_placeholders (table : string) (where_ : Db.object) :
  Db.placeholders (fst (Db.hardDelete table where_)) = seq 1 (List.length where_)
  /\ snd (Db.hardDelete table where_) = Db.values where_.
Proof.
  unfold Db.hardDelete, Db.keys, mapi. cbn [fst snd]. split; [| reflexivity].
  rewrite !placeholders_app. cbn [Db.placeholders app].
  rewrite placeholders_join, app_nil_r, placeholders_of_conditions, length_map.
  reflexivity.
Qed.
End Further.

(** * Further properties of the code *)

(** ** db.js: the statement builders *)

Section Builders.
Import Db DbUtil.








End Builders.





(** ** db.js: [buildWhereClause] *)

Section WhereClause.
Import Db DbUtil.

Lemma condition_numbers_null (i : nat) (k : string) (v : jsval) (l : object) :
  is_null v = true ->
  condition_numbers i ((k, v) :: l) = condition_numbers (S i) l
  /\ not_null_values ((k, v) :: l) = not_null_values l.
Proof.
  intros H. unfold condition_numbers, not_null_values.
  cbn [mapi_from map List.concat where_condition filter snd]. rewrite H.
  split; reflexivity.
Qed.

Lemma condition_numbers_value (i : nat) (k : string) (v : jsval) (l : object) :
  is_null v = false ->
  condition_numbers i ((k, v) :: l) = S i :: condition_numbers (S i) l
  /\ not_null_values ((k, v) :: l) = v :: not_null_values l.
Proof.
  intros H. unfold condition_numbers, not_null_values.
  cbn [mapi_from map List.concat filter snd].
  rewrite (where_condition_placeholder k v i H), H, Nat.add_1_r.
  split; reflexivity.
Qed.

Lemma condition_numbers_range (l : object) (i p : nat) :
  In p (condition_numbers i l) -> (i < p <= i + List.length l)%nat.
Proof.
  revert i. induction l as [| [k v] l IH]; intros i H; [destruct H |].
  cbn [List.length]. destruct (is_null v) eqn:Hv.
  - rewrite (proj1 (condition_numbers_null i k v l Hv)) in H.
    apply IH in H. lia.
  - rewrite (proj1 (condition_numbers_value i k v l Hv)) in H.
    destruct H as [<- | H]; [lia |]. apply IH in H. lia.
Qed.

Lemma condition_numbers_length (l : object) (i : nat) :
  List.length (condition_numbers i l) = List.length (not_null_values l).
Proof.
  revert i. induction l as [| [k v] l IH]; intros i; [reflexivity |].
  destruct (is_null v) eqn:Hv.
  - destruct (condition_numbers_null i k v l Hv) as [-> ->]. apply IH.
  - destruct (condition_numbers_value i k v l Hv) as [-> ->].
    cbn [List.length]. f_equal. apply IH.
Qed.

Lemma condition_numbers_sorted (l : object) (i : nat) :
  StronglySorted lt (condition_numbers i l).
Proof.
  revert i. induction l as [| [k v] l IH]; intros i; [constructor |].
  destruct (is_null v) eqn:Hv.
  - rewrite (proj1 (condition_numbers_null i k v l Hv)). apply IH.
  - rewrite (proj1 (condition_numbers_value i k v l Hv)).
    constructor; [apply IH |]. apply Forall_forall. intros p Hp.
    apply condition_numbers_range in Hp. lia.
Qed.

Lemma condition_numbers_all_null (l : object) (i : nat) :
  forallb (fun kv => is_null (snd kv)) l = true ->
  condition_numbers i l = [] /\ not_null_values l = [].
Proof.
  revert i. induction l as [| [k v] l IH]; intros i H; [split; reflexivity |].
  cbn [forallb snd] in H. apply andb_true_iff in H. destruct H as [Hv Hl].
  destruct (condition_numbers_null i k v l Hv) as [-> ->]. now apply IH.
Qed.

Lemma not_null_values_none (l : object) :
  not_null_values l = [] -> forallb (fun kv => is_null (snd kv)) l = true.
Proof.
  induction l as [| [k v] l IH]; intros H; [reflexivity |].
  unfold not_null_values in H. cbn [map filter snd] in H. cbn [forallb snd].
  destruct (is_null v); [| discriminate H]. exact (IH H).
Qed.

Lemma condition_numbers_consecutive (l : object) (i : nat) :
  condition_numbers i l = seq (S i) (List.length (not_null_values l))
  <-> nulls_last l = true.
Proof.
  revert i. induction l as [| [k v] l IH]; intros i; [split; reflexivity |].
  cbn [nulls_last]. destruct (is_null v) eqn:Hv.
  - destruct (condition_numbers_null i k v l Hv) as [-> ->]. split.
    + intros H. apply not_null_values_none.
      destruct (not_null_values l) as [| x vals] eqn:Hvals; [reflexivity |].
      exfalso. cbn [List.length seq] in H.
      assert (Hin : In (S i) (condition_numbers (S i) l)) by (rewrite H; now left).
      apply condition_numbers_range in Hin. lia.
    + intros H. destruct (condition_numbers_all_null l (S i) H) as [-> ->].
      reflexivity.
  - destruct (condition_numbers_value i k v l Hv) as [-> ->].
    cbn [List.length seq]. rewrite <- (IH (S i)). split.
    + intros H. now injection H.
    + intros ->. reflexivity.
Qed.

Lemma condition_numbers_entry (l : object) (i k : nat) (key : string) (v : jsval) :
  nth_error l k = Some (key, v) -> is_null v = false ->
  In (S (i + k)) (condition_numbers i l).
Proof.
  revert i k. induction l as [| [k0 v0] l IH]; intros i k H Hv.
  - destruct k; discriminate H.
  - destruct k as [| k].
    + injection H as -> ->.
      rewrite (proj1 (condition_numbers_value i key v l Hv)), Nat.add_0_r. now left.
    + cbn [nth_error] in H.
      assert (Hin : In (S (S i + k)) (condition_numbers (S i) l)) by now apply IH.
      replace (S (i + S k)) with (S (S i + k)) by lia.
      destruct (is_null v0) eqn:Hv0.
      * now rewrite (proj1 (condition_numbers_null i k0 v0 l Hv0)).
      * rewrite (proj1 (condition_numbers_value i k0 v0 l Hv0)). now right.
Qed.

End WhereClause.

(** X3: [buildWhereClause(conditions)]: the clause has as many placeholders
    as there are values, in increasing order; the condition of the
    [k]-th entry (counted from 0), when its value is not null, uses
    [$(k + 1)], so a placeholder counts the null entries before it as
    well.  The placeholders are $1, $2, ... up to the number of values
    exactly when no null entry comes before an entry that is not null. *)
Theorem buildWhereClause_numbering (conditions : Db.object) :
  let clause := fst (Db.buildWhereClause conditions) in
  let values_ := snd (Db.buildWhereClause conditions) in
  List.length (Db.placeholders clause) = List.length values_
  /\ StronglySorted lt (Db.placeholders clause)
  /\ (forall p, In p (Db.placeholders clause) -> (1 <= p <= List.length conditions)%nat)
  /\ (forall k key v,
        nth_error conditions k = Some (key, v) -> Db.is_null v = false ->
        In (S k) (Db.placeholders clause))
  /\ (Db.placeholders clause = seq 1 (List.length values_)
      <-> DbUtil.nulls_last conditions = true).
Proof.
  cbv zeta. unfold Db.buildWhereClause, Db.entries, mapi. cbn [fst snd].
  rewrite placeholders_join.
  change (List.concat (map Db.placeholders (mapi_from 0 Db.where_condition conditions)))
    with (DbUtil.condition_numbers 0 conditions).
  change (filter (fun v => negb (Db.is_null v)) (map snd conditions))
    with (DbUtil.not_null_values conditions).
  split; [apply condition_numbers_length |].
  split; [apply condition_numbers_sorted |].
  split; [intros p Hp; apply condition_numbers_range in Hp; lia |].
  split; [intros k key v H Hv; exact (condition_numbers_entry conditions 0 k key v H Hv) |].
  apply condition_numbers_consecutive.
Qed.

(** The theorem for a clause whose null entry comes last: the
    placeholder is $1 and is bound to the one value. *)
Lemma buildWhereClause_numbering_witness :
  let conditions := [("staff", Db.JStr "Ufuk"); ("service", Db.JNull)] in
  nth_error conditions 0 = Some ("staff", Db.JStr "Ufuk")
  /\ Db.is_null (Db.JStr "Ufuk") = false
  /\ In 1%nat (Db.placeholders (fst (Db.buildWhereClause conditions)))
  /\ DbUtil.nulls_last conditions = true
  /\ Db.placeholders (fst (Db.buildWhereClause conditions))
     = seq 1 (List.length (snd (Db.buildWhereClause conditions))).
Proof.
  cbv zeta.
  pose proof (buildWhereClause_numbering
                [("staff", Db.JStr "Ufuk"); ("service", Db.JNull)]) as H.
  cbv zeta in H. destruct H as [_ [_ [_ [Hentry Hiff]]]].
  split; [reflexivity |]. split; [reflexivity |].
  split; [exact (Hentry 0%nat "staff" (Db.JStr "Ufuk") eq_refl eq_refl) |].
  split; [reflexivity |].
  exact (proj2 Hiff eq_refl).
Defined.

(** ** db.js: [update] and [softDelete] against the schema *)

(** X4: No table of setupDatabase.js has a column [updated_at] or
    [deleted_at].  Every statement of [update] names [updated_at]; when
    the SET and the WHERE object are not empty and their keys are
    columns of the table, so that the text is a statement, the store
    refuses it (42703), for each of the six tables.  [softDelete] is
    such an [update], of the column [deleted_at], with the time as [$1]
    and the conditions from [$2] on.  (With an empty object, or a key
    that is no column name, the text need not be a statement, and the
    store may refuse it as a syntax error instead.) *)
Theorem update_refused_by_schema (t : Schema.table) (data where_ : Db.object) :
  data <> [] ->
  where_ <> [] ->
  (forall k, In k (Db.keys data ++ Db.keys where_) -> In k (Schema.columns t)) ->
  existsb (String.eqb "updated_at") (Schema.columns t) = false
  /\ existsb (String.eqb "deleted_at") (Schema.columns t) = false
  /\ (forall table,
        In (Db.Lit ", updated_at = CURRENT_TIMESTAMP
    WHERE ") (fst (Db.update table data where_)))
  /\ Schema.check_columns t (DbUtil.update_columns data where_)
     = Pg.Err Pg.undefined_column
  /\ (forall now,
        Schema.check_columns t (DbUtil.update_columns [("deleted_at", now)] where_)
        = Pg.Err Pg.undefined_column)
  /\ (forall table now,
        Db.placeholders (fst (DbUtil.softDelete table where_ now))
        = 1%nat :: seq 2 (List.length where_)
        /\ snd (DbUtil.softDelete table where_ now) = now :: Db.values where_).
Proof.
  intros _ _ _.
  assert (Hup : existsb (String.eqb "updated_at") (Schema.columns t) = false)
    by (destruct t; reflexivity).
  assert (Hrefused : forall d w,
             Schema.check_columns t (DbUtil.update_columns d w)
             = Pg.Err Pg.undefined_column).
  { intros d w. unfold Schema.check_columns, DbUtil.update_columns.
    rewrite forallb_app. cbn [app forallb]. rewrite Hup.
    cbn [andb]. now rewrite andb_false_r. }
  split; [exact Hup |].
  split; [destruct t; reflexivity |].
  split.
  { intros table. unfold Db.update. cbn [fst].
    apply in_or_app. right. apply in_or_app. right. now left. }
  split; [apply Hrefused |].
  split; [intros now; apply Hrefused |].
  intros table now. unfold DbUtil.softDelete. split.
  - rewrite update_placeholders. reflexivity.
  - reflexivity.
Qed.

(** The theorem for a change of the name of the staff member 1: the
    store refuses the statement of [update], and that of [softDelete]
    for the same row. *)
Lemma update_refused_by_schema_witness :
  let data := [("name", Db.JStr "Ufuk")] in
  let where_ := [("id", Db.JNum 1)] in
  (forall k, In k (Db.keys data ++ Db.keys where_) -> In k (Schema.columns Schema.staff))
  /\ Schema.check_columns Schema.staff (DbUtil.update_columns data where_)
     = Pg.Err Pg.undefined_column
  /\ (forall now,
        Schema.check_columns Schema.staff
          (DbUtil.update_columns [("deleted_at", now)] where_)
        = Pg.Err Pg.undefined_column).
Proof.
  cbv zeta.
  assert (Hd : [("name", Db.JStr "Ufuk")] <> []) by discriminate.
  assert (Hw : [("id", Db.JNum 1)] <> []) by discriminate.
  assert (Hk : forall k,
             In k (Db.keys [("name", Db.JStr "Ufuk")] ++ Db.keys [("id", Db.JNum 1)]) ->
             In k (Schema.columns Schema.staff)).
  { intros k [<- | [<- | []]]; cbn; tauto. }
  pose proof (update_refused_by_schema Schema.staff _ _ Hd Hw Hk) as H.
  exact (conj Hk (conj (proj1 (proj2 (proj2 (proj2 H))))
                    (proj1 (proj2 (proj2 (proj2 (proj2 H))))))).
Defined.

(** ** db.js: [escapeIdentifier] *)

Section Identifiers.
Import DbUtil Catalog.

Lemma append_after (a : string) (c : ascii) (rest : string) :
  ((a ++ String c EmptyString) ++ rest)%string = (a ++ String c rest)%string.
Proof. induction a as [| x a IH]; [reflexivity |]. cbn. now rewrite IH. Qed.

Lemma read_double_quotes (str rest : string) :
  starts_with_quote rest = false ->
  read_quoted_body (double_quotes str ++ String dquote rest) = Some (str, rest).
Proof.
  intros Hrest. induction str as [| c str IH].
  - cbn [double_quotes append read_quoted_body]. rewrite Ascii.eqb_refl.
    destruct rest as [| c2 rest']; [reflexivity |].
    cbn [starts_with_quote] in Hrest. now rewrite Hrest.
  - cbn [double_quotes]. destruct (Ascii.eqb c dquote) eqn:Hc.
    + apply Ascii.eqb_eq in Hc. subst c.
      cbn [append read_quoted_body]. rewrite !Ascii.eqb_refl.
      fold read_quoted_body. now rewrite IH.
    + cbn [append read_quoted_body]. rewrite Hc.
      fold read_quoted_body. now rewrite IH.
Qed.

End Identifiers.

(** X5: The store reads [escapeIdentifier(str)] back as the one identifier
    [str], whatever characters [str] holds and whatever text follows it
    (as long as that text does not begin with a double quote, and [str]
    is not empty and within the 63 bytes of an identifier): no double
    quote inside [str] closes the identifier early.  Two texts are
    escaped alike only when they are equal.  The empty text is escaped to
    two double quotes, an identifier of length zero, which the store
    refuses. *)
Theorem escapeIdentifier_read_back :
  (forall str rest : string,
     str <> EmptyString ->
     (String.length str < 64)%nat ->
     Catalog.starts_with_quote rest = false ->
     Catalog.read_quoted_identifier (DbUtil.escapeIdentifier str ++ rest)
     = Some (str, rest))
  /\ (forall a b : string,
        DbUtil.escapeIdentifier a = DbUtil.escapeIdentifier b -> a = b)
  /\ (forall rest : string,
        Catalog.starts_with_quote rest = false ->
        Catalog.read_quoted_identifier (DbUtil.escapeIdentifier EmptyString ++ rest)
        = None).
Proof.
  assert (Hread : forall str rest,
             Catalog.starts_with_quote rest = false ->
             Catalog.read_quoted_identifier (DbUtil.escapeIdentifier str ++ rest)
             = match str with
               | EmptyString => None
               | _ => Some (Catalog.truncate_identifier str, rest)
               end).
  { intros str rest Hrest. unfold DbUtil.escapeIdentifier.
    cbn [append Catalog.read_quoted_identifier]. rewrite Ascii.eqb_refl.
    rewrite append_after, (read_double_quotes str rest Hrest).
    destruct str; reflexivity. }
  split; [| split].
  - intros str rest Hstr Hlen Hrest. rewrite (Hread str rest Hrest).
    unfold Catalog.truncate_identifier. apply Nat.ltb_lt in Hlen. rewrite Hlen.
    destruct str; [now destruct Hstr | reflexivity].
  - intros a b H. unfold DbUtil.escapeIdentifier in H. injection H as H.
    apply (f_equal Catalog.read_quoted_body) in H.
    rewrite !read_double_quotes in H by reflexivity. now injection H.
  - intros rest Hrest. exact (Hread EmptyString rest Hrest).
Qed.

(** The theorem for a name that holds a double quote, followed by the
    rest of a statement. *)
Lemma escapeIdentifier_read_back_witness :
  let str := String "a" (String DbUtil.dquote "b") in
  str <> EmptyString
  /\ (String.length str < 64)%nat
  /\ Catalog.starts_with_quote " = $1" = false
  /\ Catalog.read_quoted_identifier (DbUtil.escapeIdentifier str ++ " = $1")
     = Some (str, " = $1")
  /\ DbUtil.escapeIdentifier str
     = String DbUtil.dquote
         (String "a" (String DbUtil.dquote (String DbUtil.dquote
            (String "b" (String DbUtil.dquote EmptyString))))).
Proof.
  cbv zeta.
  assert (Hne : String "a" (String DbUtil.dquote "b") <> EmptyString) by discriminate.
  assert (Hlen : (String.length (String "a" (String DbUtil.dquote "b")) < 64)%nat)
    by (cbn; lia).
  split; [exact Hne |]. split; [exact Hlen |]. split; [reflexivity |].
  split; [| reflexivity].
  exact (proj1 escapeIdentifier_read_back _ " = $1" Hne Hlen eq_refl).
Defined.

(** ** db.js: [initializeDatabase] *)

(** X6: [initializeDatabase] reports the schema ready exactly when the
    catalog lists both [customers] and [appointments].  setupDatabase.js
    creates no table [appointments], so on the database it sets up the
    check reports the tables as not found, although [customers] exists. *)
Theorem initializeDatabase_never_ready :
  (forall catalog : list string,
     DbUtil.initializeDatabase catalog
     = ["🔄 Checking database schema..."; "✅ Database schema is ready"]
     <-> In "customers" catalog /\ In "appointments" catalog)
  /\ DbUtil.tableExists Catalog.created_tables "customers" = true
  /\ (forall t, Catalog.table_name t <> "appointments")
  /\ DbUtil.initializeDatabase Catalog.created_tables
     = ["🔄 Checking database schema...";
        "📦 Database tables not found. Please run schema setup."].
Proof.
  assert (Hexists : forall catalog nm,
             DbUtil.tableExists catalog nm = true <-> In nm catalog).
  { intros catalog nm. unfold DbUtil.tableExists. rewrite existsb_exists. split.
    - intros [x [Hin Heq]]. apply String.eqb_eq in Heq. now subst.
    - intros Hin. exists nm. split; [exact Hin | apply String.eqb_refl]. }
  split; [| split; [reflexivity | split; [| reflexivity]]].
  - intros catalog. rewrite <- !Hexists. unfold DbUtil.initializeDatabase.
    destruct (DbUtil.tableExists catalog "customers"),
      (DbUtil.tableExists catalog "appointments"); cbn; split;
      try (intros H; discriminate H); try (intros [H1 H2]; discriminate);
      try reflexivity; try (intros _; split; reflexivity).
  - intros t; destruct t; discriminate.
Qed.

(** ** routes/api.js: the daily and monthly lists *)

Section Listings.
Import Pg Schema Store Api Order.

(** [date_ltb] is the order of the calendar. *)
Lemma date_ltb_spec (a b : Date) :
  date_ltb a b = true
  <-> year a < year b
      \/ (year a = year b
          /\ (month a < month b \/ (month a = month b /\ day a < day b))).
Proof.
  unfold date_ltb.
  rewrite orb_true_iff, andb_true_iff, orb_true_iff, andb_true_iff.
  rewrite !Z.ltb_lt, !Z.eqb_eq. reflexivity.
Qed.

Lemma date_leb_spec (a b : Date) :
  date_leb a b = true <-> date_ltb a b = true \/ a = b.
Proof. unfold date_leb. now rewrite orb_true_iff, date_eqb_spec. Qed.

Lemma date_trichotomy (a b : Date) :
  date_ltb a b = true \/ a = b \/ date_ltb b a = true.
Proof.
  rewrite !date_ltb_spec. destruct a as [y m d], b as [y' m' d']. cbn [year month day].
  destruct (Z.lt_trichotomy y y') as [H | [H | H]]; [left; left; exact H | | right; right; left; lia].
  destruct (Z.lt_trichotomy m m') as [H1 | [H1 | H1]];
    [left; right; split; [exact H | now left] | | right; right; right; lia].
  destruct (Z.lt_trichotomy d d') as [H2 | [H2 | H2]].
  - left. right. split; [exact H |]. right. now split.
  - right. left. now subst.
  - right. right. right. split; [lia |]. right. split; lia.
Qed.

Lemma later_first_trans (d1 d2 d3 : Date) (c1 c2 c3 : Z) :
  later_first d1 c1 d2 c2 -> later_first d2 c2 d3 c3 -> later_first d1 c1 d3 c3.
Proof.
  unfold later_first. rewrite !date_ltb_spec.
  destruct d1 as [y1 m1 x1], d2 as [y2 m2 x2], d3 as [y3 m3 x3].
  cbn [year month day].
  intros [H | [H Hc]] [H' | [H' Hc']].
  - left. lia.
  - injection H' as -> -> ->. now left.
  - injection H as -> -> ->. now left.
  - right. split; [congruence | lia].
Qed.

Lemma latest_date_first_spec (a b : RecordRow) :
  latest_date_first a b = true
  <-> later_first (rec_date a) (rec_created_at a) (rec_date b) (rec_created_at b).
Proof.
  unfold latest_date_first, later_first.
  now rewrite orb_true_iff, andb_true_iff, date_eqb_spec, Z.leb_le.
Qed.

Lemma latest_expense_date_first_spec (a b : ExpenseRow) :
  latest_expense_date_first a b = true
  <-> later_first (exp_date a) (exp_created_at a) (exp_date b) (exp_created_at b).
Proof.
  unfold latest_expense_date_first, later_first.
  now rewrite orb_true_iff, andb_true_iff, date_eqb_spec, Z.leb_le.
Qed.

Lemma later_first_total (d1 d2 : Date) (c1 c2 : Z) :
  later_first d1 c1 d2 c2 \/ later_first d2 c2 d1 c1.
Proof.
  unfold later_first. destruct (date_trichotomy d1 d2) as [H | [H | H]].
  - right. now left.
  - subst. destruct (Z.le_ge_cases c1 c2); [right | left]; right; now split.
  - left. now left.
Qed.

(** A sort under a total and transitive order yields a list in which
    every row precedes all later rows in the order. *)
Lemma sort_by_strongly_sorted {A : Type} (leb : A -> A -> bool) (R : A -> A -> Prop)
    (l : list A) :
  (forall a b, leb a b = true <-> R a b) ->
  (forall a b, R a b \/ R b a) ->
  (forall a b c, R a b -> R b c -> R a c) ->
  StronglySorted R (sort_by leb l).
Proof.
  intros Hspec Htotal Htrans.
  apply Sorted_StronglySorted; [exact Htrans |].
  apply (Sorted_weaken (fun a b => leb a b = true)).
  - intros a b. apply Hspec.
  - apply sort_by_sorted. intros a b. rewrite !Hspec. apply Htotal.
Qed.

Lemma records_by_date_sorted (l : list RecordRow) :
  StronglySorted
    (fun a b => later_first (rec_date a) (rec_created_at a) (rec_date b) (rec_created_at b))
    (sort_by latest_date_first l).
Proof.
  apply sort_by_strongly_sorted.
  - apply latest_date_first_spec.
  - intros a b. apply later_first_total.
  - intros a b c. apply later_first_trans.
Qed.

Lemma expenses_by_date_sorted (l : list ExpenseRow) :
  StronglySorted
    (fun a b => later_first (exp_date a) (exp_created_at a) (exp_date b) (exp_created_at b))
    (sort_by latest_expense_date_first l).
Proof.
  apply sort_by_strongly_sorted.
  - apply latest_expense_date_first_spec.
  - intros a b. apply later_first_total.
  - intros a b c. apply later_first_trans.
Qed.

Lemma get_records_daily_run (date : string) (db : Database) :
  get_records_daily date db
  = match date_in date with
    | Ok d =>
        (res_json
           (J_records
              (sort_by newest_first
                 (filter (fun r => date_eqb (rec_date r) d) (rows (t_records db))))), db)
    | Err _ => (res_status 500 (J_error "Failed to fetch daily records"), db)
    end.
Proof.
  unfold get_records_daily, try_catch, hbind, query, hret, select_records_daily.
  store_unfold. destruct (date_in date); reflexivity.
Qed.

Lemma get_expenses_daily_run (date : string) (db : Database) :
  get_expenses_daily date db
  = match date_in date with
    | Ok d =>
        (res_json
           (J_expenses
              (sort_by newest_expense_first
                 (filter (fun r => date_eqb (exp_date r) d) (rows (t_expenses db))))), db)
    | Err _ => (res_status 500 (J_error "Failed to fetch daily expenses"), db)
    end.
Proof.
  unfold get_expenses_daily, try_catch, hbind, query, hret, select_expenses_daily.
  store_unfold. destruct (date_in date); reflexivity.
Qed.

(** X7: GET /records/daily/:date and GET /expenses/daily/:date: for a date
    the store reads, the answer is 200 with exactly the rows of that
    date, each once as in the table, the newest first; for a date
    written YYYY-MM-DD whose month or day is not in the calendar, which
    the store refuses, the answer is 500.  The database is unchanged
    either way. *)
Theorem daily_lists_spec (db : Database) (date : string) :
  (forall d, date_in date = Ok d ->
     (exists l,
        get_records_daily date db = (res_json (J_records l), db)
        /\ (forall r, In r l <-> In r (rows (t_records db)) /\ rec_date r = d)
        /\ Permutation l (filter (fun r => date_eqb (rec_date r) d) (rows (t_records db)))
        /\ StronglySorted (fun a b => rec_created_at b <= rec_created_at a) l)
     /\ (exists l,
           get_expenses_daily date db = (res_json (J_expenses l), db)
           /\ (forall r, In r l <-> In r (rows (t_expenses db)) /\ exp_date r = d)
           /\ Permutation l
                (filter (fun r => date_eqb (exp_date r) d) (rows (t_expenses db)))
           /\ StronglySorted (fun a b => exp_created_at b <= exp_created_at a) l))
  /\ (date_in date = Err datetime_field_overflow ->
      get_records_daily date db
      = (res_status 500 (J_error "Failed to fetch daily records"), db)
      /\ get_expenses_daily date db
         = (res_status 500 (J_error "Failed to fetch daily expenses"), db)).
Proof.
  rewrite get_records_daily_run, get_expenses_daily_run. split.
  - intros d ->. split; eexists; (split; [reflexivity |]).
    + split; [| split; [apply sort_by_perm |]].
      * intros r. rewrite sort_by_In, filter_In, date_eqb_spec. reflexivity.
      * apply sort_by_strongly_sorted.
        -- intros a b. unfold newest_first. apply Z.leb_le.
        -- intros a b. lia.
        -- intros a b c. lia.
    + split; [| split; [apply sort_by_perm |]].
      * intros r. rewrite sort_by_In, filter_In, date_eqb_spec. reflexivity.
      * apply sort_by_strongly_sorted.
        -- intros a b. unfold newest_expense_first. apply Z.leb_le.
        -- intros a b. lia.
        -- intros a b c. lia.
  - intros ->. split; reflexivity.
Qed.

(** The theorem on the sample day: both records of 2024-03-10 are
    listed; and the 31st of February is answered 500. *)
Lemma daily_lists_spec_witness :
  date_in "2024-03-10" = Ok (mkDate 2024 3 10)
  /\ (exists l,
        get_records_daily "2024-03-10" Sample.db_day
        = (res_json (J_records l), Sample.db_day)
        /\ (In Sample.cash_row l <->
            In Sample.cash_row (rows (t_records Sample.db_day))
            /\ rec_date Sample.cash_row = mkDate 2024 3 10))
  /\ date_in "2024-02-31" = Err datetime_field_overflow
  /\ get_records_daily "2024-02-31" Sample.db_day
     = (res_status 500 (J_error "Failed to fetch daily records"), Sample.db_day).
Proof.
  assert (H : date_in "2024-03-10" = Ok (mkDate 2024 3 10)) by reflexivity.
  assert (H' : date_in "2024-02-31" = Err datetime_field_overflow) by reflexivity.
  split; [exact H |].
  destruct (proj1 (proj1 (daily_lists_spec Sample.db_day "2024-03-10") _ H))
    as [l [Hrun [Hin _]]].
  split; [exists l; exact (conj Hrun (Hin Sample.cash_row)) |].
  exact (conj H' (proj1 (proj2 (daily_lists_spec Sample.db_day "2024-02-31") H'))).
Defined.

(** GET /records/monthly/:year/:month and GET /expenses/monthly: when
    the store reads both ends of the range (the first of the month and
    day 31 of the same month), the answer is 200 with exactly the rows
    whose date lies in the range, ends included, ordered by date, latest
    first, and within a date the newest first; the database is
    unchanged. *)
Lemma monthly_lists_spec (db : Database) (year month : string) (d1 d2 : Date) :
  date_in (year ++ "-" ++ Js.padStart 2 "0" month ++ "-01") = Ok d1 ->
  date_in (year ++ "-" ++ Js.padStart 2 "0" month ++ "-31") = Ok d2 ->
  (exists l,
     get_records_monthly year month db = (res_json (J_records l), db)
     /\ (forall r, In r l <->
                   In r (rows (t_records db))
                   /\ date_leb d1 (rec_date r) = true /\ date_leb (rec_date r) d2 = true)
     /\ StronglySorted
          (fun a b =>
             later_first (rec_date a) (rec_created_at a) (rec_date b) (rec_created_at b)) l)
  /\ (exists l,
        get_expenses_monthly year month db = (res_json (J_expenses l), db)
        /\ (forall r, In r l <->
                      In r (rows (t_expenses db))
                      /\ date_leb d1 (exp_date r) = true /\ date_leb (exp_date r) d2 = true)
        /\ StronglySorted
             (fun a b =>
                later_first (exp_date a) (exp_created_at a) (exp_date b) (exp_created_at b))
             l).
Proof.
  intros H1 H2. split.
  - eexists. split; [| split].
    + unfold get_records_monthly, try_catch, hbind, query, hret, select_records_between.
      store_unfold. cbv zeta. rewrite H1, H2. reflexivity.
    + intros r. rewrite sort_by_In, filter_In, andb_true_iff. reflexivity.
    + apply records_by_date_sorted.
  - eexists. split; [| split].
    + unfold get_expenses_monthly, try_catch, hbind, query, hret, select_expenses_between.
      store_unfold. cbv zeta. rewrite H1, H2. reflexivity.
    + intros r. rewrite sort_by_In, filter_In, andb_true_iff. reflexivity.
    + apply expenses_by_date_sorted.
Qed.

(** March 2024 on the sample day. *)
Example monthly_lists_march :
  date_in ("2024" ++ "-" ++ Js.padStart 2 "0" "3" ++ "-01") = Ok (mkDate 2024 3 1)
  /\ date_in ("2024" ++ "-" ++ Js.padStart 2 "0" "3" ++ "-31") = Ok (mkDate 2024 3 31)
  /\ exists l,
       get_records_monthly "2024" "3" Sample.db_day = (res_json (J_records l), Sample.db_day)
       /\ (In Sample.cash_row l <->
           In Sample.cash_row (rows (t_records Sample.db_day))
           /\ date_leb (mkDate 2024 3 1) (rec_date Sample.cash_row) = true
           /\ date_leb (rec_date Sample.cash_row) (mkDate 2024 3 31) = true).
Proof.
  assert (H1 : date_in ("2024" ++ "-" ++ Js.padStart 2 "0" "3" ++ "-01")
               = Ok (mkDate 2024 3 1)) by reflexivity.
  assert (H2 : date_in ("2024" ++ "-" ++ Js.padStart 2 "0" "3" ++ "-31")
               = Ok (mkDate 2024 3 31)) by reflexivity.
  split; [exact H1 |]. split; [exact H2 |].
  destruct (proj1 (monthly_lists_spec Sample.db_day "2024" "3" _ _ H1 H2))
    as [l [Hrun [Hin _]]].
  exists l. exact (conj Hrun (Hin Sample.cash_row)).
Defined.

End Listings.

(** ** routes/api.js: customers *)

Section Customers.
Import Pg Schema Store Api Order.

Lemma existsb_name_iff {R : Type} (nm : R -> string) (l : list R) (s : string) :
  existsb (fun r => String.eqb (nm r) s) l = true <-> In s (map nm l).
Proof.
  rewrite existsb_exists, in_map_iff. split.
  - intros [r [Hin Heq]]. apply String.eqb_eq in Heq. now exists r.
  - intros [r [Heq Hin]]. exists r. split; [exact Hin | now apply String.eqb_eq].
Qed.

Lemma StronglySorted_firstn {A : Type} (R : A -> A -> Prop) (n : nat) (l : list A) :
  StronglySorted R l -> StronglySorted R (firstn n l).
Proof.
  revert n. induction l as [| x l IH]; intros n H.
  - rewrite firstn_nil. constructor.
  - destruct n as [| n]; [constructor |].
    inversion H as [| ? ? Hl Hx]; subst. cbn [firstn]. constructor; [now apply IH |].
    apply Forall_forall. intros y Hy. rewrite Forall_forall in Hx. apply Hx.
    revert Hy. clear. revert n. induction l as [| z l IH]; intros n Hy.
    + now rewrite firstn_nil in Hy.
    + destruct n; [destruct Hy |]. destruct Hy as [-> | Hy]; [now left |].
      right. exact (IH n Hy).
Qed.

Lemma In_firstn {A : Type} (n : nat) (l : list A) (x : A) :
  In x (firstn n l) -> In x l.
Proof.
  intros H. rewrite <- (firstn_skipn n l). apply in_or_app. now left.
Qed.

Lemma get_customers_run (db : Database) :
  get_customers db
  = (res_json
       (J_customers
          (sort_by (fun a b => collation db (cust_name a) (cust_name b))
             (rows (t_customers db)))), db).
Proof. reflexivity. Qed.

Lemma get_customer_run (p : string) (n : Z) (db : Database) :
  int4_in p = Ok n ->
  get_customer p db
  = (match filter (fun c => cust_id c =? n) (rows (t_customers db)) with
     | [] => res_status 404 (J_error "Customer not found")
     | c :: _ =>
         res_json
           (J_customer_details c
              (firstn 50
                 (sort_by latest_date_first
                    (filter
                       (fun r => option_eqb String.eqb (rec_customer_name r)
                                   (Some (cust_name c)))
                       (rows (t_records db))))))
     end, db).
Proof.
  intros H.
  unfold get_customer, try_catch, hbind, query, hret, select_customer,
    select_records_of_customer.
  store_unfold. rewrite H.
  destruct (filter (fun c => cust_id c =? n) (rows (t_customers db))); reflexivity.
Qed.

(** X8: GET /customers: under a total collation, every customer once,
    ordered by name; the database is unchanged. *)
Theorem customers_list_spec (db : Database) :
  (forall a b, collation db a b = true \/ collation db b a = true) ->
  exists l,
    get_customers db = (res_json (J_customers l), db)
    /\ Permutation l (rows (t_customers db))
    /\ Sorted (fun a b => collation db (cust_name a) (cust_name b) = true) l.
Proof.
  intros Htotal. eexists. split; [apply get_customers_run |].
  split; [apply sort_by_perm |].
  apply (sort_by_sorted (fun a b => collation db (cust_name a) (cust_name b))).
  intros a b. apply Htotal.
Qed.

(** The theorem on a database of three customers, registered as Ali,
    Veli and Cem: the list holds the three, ordered by name. *)
Lemma customers_list_spec_witness :
  (forall a b, collation Scenario.db_customers a b = true
               \/ collation Scenario.db_customers b a = true)
  /\ map cust_name (rows (t_customers Scenario.db_customers)) = ["Ali"; "Veli"; "Cem"]
  /\ exists l,
       get_customers Scenario.db_customers
       = (res_json (J_customers l), Scenario.db_customers)
       /\ Permutation l (rows (t_customers Scenario.db_customers))
       /\ Sorted (fun a b => collation Scenario.db_customers (cust_name a) (cust_name b)
                             = true) l.
Proof.
  assert (Hc : collation Scenario.db_customers = String.leb)
    by (vm_compute; reflexivity).
  assert (Htotal : forall a b, collation Scenario.db_customers a b = true
                               \/ collation Scenario.db_customers b a = true).
  { intros a b. rewrite Hc.
    unfold String.leb. rewrite (String.compare_antisym a b).
    destruct (String.compare b a); cbn; auto. }
  assert (Hnames : map cust_name (rows (t_customers Scenario.db_customers))
                   = ["Ali"; "Veli"; "Cem"]) by (vm_compute; reflexivity).
  exact (conj Htotal (conj Hnames (customers_list_spec Scenario.db_customers Htotal))).
Defined.

(** The list of the three customers, as the route returns it. *)
Example customers_list_three :
  match body (fst (get_customers Scenario.db_customers)) with
  | J_customers l => map cust_name l = ["Ali"; "Cem"; "Veli"]
  | _ => False
  end.
Proof. vm_compute. reflexivity. Qed.

(** X9: GET /customers/:id, for an id the store reads as the integer [n] and
    a table with distinct ids: without a customer of that id the answer
    is 404 "Customer not found"; for the customer [c] of that id the
    answer is [c] with records taken from the records table whose
    [customer_name] is the name of [c], at most 50 of them, the latest
    date first; all of them when there are at most 50.  The database is
    unchanged. *)
Theorem customer_details_spec (db : Database) (p_id : string) (n : Z) :
  int4_in p_id = Ok n ->
  NoDup (map cust_id (rows (t_customers db))) ->
  ((forall c, In c (rows (t_customers db)) -> cust_id c <> n) ->
   get_customer p_id db = (res_status 404 (J_error "Customer not found"), db))
  /\ (forall c, In c (rows (t_customers db)) -> cust_id c = n ->
      let mine :=
        filter (fun r => option_eqb String.eqb (rec_customer_name r) (Some (cust_name c)))
          (rows (t_records db)) in
      exists recs,
        get_customer p_id db = (res_json (J_customer_details c recs), db)
        /\ (List.length recs <= 50)%nat
        /\ List.length recs = Nat.min 50 (List.length mine)
        /\ (forall r, In r recs ->
                      In r (rows (t_records db))
                      /\ rec_customer_name r = Some (cust_name c))
        /\ StronglySorted
             (fun a b =>
                later_first (rec_date a) (rec_created_at a) (rec_date b) (rec_created_at b))
             recs
        /\ ((List.length mine <= 50)%nat -> Permutation recs mine)).
Proof.
  intros Hid Hnodup. rewrite (get_customer_run p_id n db Hid). split.
  - intros Hnone.
    destruct (filter_none (fun c => cust_id c =? n) (rows (t_customers db))) as [-> _];
      [| reflexivity].
    intros c Hc. apply Z.eqb_neq. now apply Hnone.
  - intros c Hc Hn mine. subst n.
    destruct (filter_key_unique cust_id (rows (t_customers db)) c Hnodup Hc) as [-> _].
    eexists. split; [reflexivity |]. fold mine.
    assert (Hlen : List.length (sort_by latest_date_first mine) = List.length mine)
      by apply Permutation_length, sort_by_perm.
    split; [rewrite length_firstn; lia |].
    split; [rewrite length_firstn, Hlen; reflexivity |].
    split; [| split].
    + intros r Hr. apply In_firstn, sort_by_In in Hr. unfold mine in Hr.
      apply filter_In in Hr. destruct Hr as [Hr Hname].
      apply option_string_eqb_spec in Hname. now split.
    + apply StronglySorted_firstn, records_by_date_sorted.
    + intros Hfew. rewrite firstn_all2 by lia. apply sort_by_perm.
Qed.

End Customers.

(** The theorem on the sample day, with the customer "Ali" registered
    under id 1. *)
Lemma customer_details_spec_witness :
  Pg.int4_in "1" = Pg.Ok 1
  /\ NoDup (map Schema.cust_id (Schema.rows (Schema.t_customers Scenario.db_customer)))
  /\ In Scenario.ali (Schema.rows (Schema.t_customers Scenario.db_customer))
  /\ Schema.cust_id Scenario.ali = 1
  /\ exists recs,
       Api.get_customer "1" Scenario.db_customer
       = (Api.res_json (Api.J_customer_details Scenario.ali recs), Scenario.db_customer)
       /\ (List.length recs <= 50)%nat.
Proof.
  assert (H1 : Pg.int4_in "1" = Pg.Ok 1) by reflexivity.
  assert (H2 : NoDup (map Schema.cust_id
                        (Schema.rows (Schema.t_customers Scenario.db_customer))))
    by nodup_concrete.
  assert (H3 : In Scenario.ali (Schema.rows (Schema.t_customers Scenario.db_customer)))
    by (vm_compute; auto).
  destruct (proj2 (customer_details_spec Scenario.db_customer "1" 1 H1 H2)
              Scenario.ali H3 eq_refl) as [recs [Hrun [Hlen _]]].
  split; [exact H1 |]. split; [exact H2 |]. split; [exact H3 |].
  split; [reflexivity |].
  exists recs. exact (conj Hrun Hlen).
Defined.

Section NewNames.
Import Pg Schema Store Api.

(** Text that does not fit a VARCHAR column is refused with 22001 and
    with no other error. *)
Lemma nullable_varchar_error (n : nat) (p : option string) (e : sqlstate) :
  nullable (varchar n) p = Err e -> e = string_data_right_truncation.
Proof.
  destruct p as [s |]; [| discriminate]. unfold nullable, rbind, varchar.
  destruct (utf8_length s <=? n)%nat; [discriminate |].
  destruct (utf8_split n s) as [a b0]. destruct (all_spaces b0); [discriminate |].
  intros H. now injection H.
Qed.

Lemma duplicate_or_truncation (duplicate generic : string) :
  duplicate_or duplicate generic (StoreError string_data_right_truncation)
  = res_status 500 (J_error generic).
Proof. reflexivity. Qed.

(** X10: POST /customers.  With a name that fits the column (and a phone and
    an e-mail that fit theirs): a name no customer has is stored under
    the next id, with the phone and the e-mail, and answered with 200; a
    name some customer has is answered with 400 "Customer with this name
    already exists", no row is stored, and the id drawn for it is not
    used again.  Without a name, or with a name too long for the column,
    the answer is 500 "Failed to add customer" and no row is stored. *)
Theorem post_customers_spec (now : Z) (b : Body) (db : Database) :
  (forall nm s ph em,
     b "name" = Some nm ->
     varchar 255 nm = Ok s ->
     nullable (varchar 50) (b "phone") = Ok ph ->
     nullable (varchar 255) (b "email") = Ok em ->
     let row := {| cust_id := next_id (t_customers db); cust_name := s; cust_phone := ph;
                   cust_email := em; cust_created_at := now |} in
     (~ In s (map cust_name (rows (t_customers db))) ->
      post_customers now b db
      = (res_json (J_customer row),
         set_customers (append row (bump (t_customers db))) db))
     /\ (In s (map cust_name (rows (t_customers db))) ->
         post_customers now b db
         = (res_status 400 (J_error "Customer with this name already exists"),
            set_customers (bump (t_customers db)) db)))
  /\ (b "name" = None \/ (exists e, nullable (varchar 255) (b "name") = Err e) ->
      fst (post_customers now b db) = res_status 500 (J_error "Failed to add customer")
      /\ rows (t_customers (snd (post_customers now b db))) = rows (t_customers db)).
Proof.
  split.
  - intros nm s ph em Hname Hs Hph Hem row.
    unfold post_customers, try_catch, hbind, query, hret, insert_customer.
    store_unfold. rewrite Hname, Hph, Hem. cbn [nullable rbind]. rewrite Hs.
    cbn -[existsb]. split; intros Hin.
    + destruct (existsb _ _) eqn:Hex; [| reflexivity].
      apply existsb_name_iff in Hex. now destruct Hin.
    + apply (existsb_name_iff cust_name) in Hin. rewrite Hin. reflexivity.
  - intros Hname.
    unfold post_customers, try_catch, hbind, query, hret, insert_customer.
    store_unfold. cbn [check_columns columns forallb existsb String.eqb Ascii.eqb
                         Bool.eqb andb orb].
    destruct Hname as [Hname | [e Hname]].
    + rewrite Hname. cbn [nullable].
      destruct (nullable (varchar 50) (b "phone")) as [ph | e] eqn:Hph.
      * destruct (nullable (varchar 255) (b "email")) as [em | e] eqn:Hem.
        -- split; reflexivity.
        -- apply nullable_varchar_error in Hem. subst e. split; reflexivity.
      * apply nullable_varchar_error in Hph. subst e. split; reflexivity.
    + rewrite Hname. apply nullable_varchar_error in Hname. subst e.
      split; reflexivity.
Qed.

(** The theorem on the sample day: "Ali" is stored as customer 1, and a
    second "Ali" is answered with 400. *)
Lemma post_customers_spec_witness :
  Scenario.ali_body "name" = Some "Ali"
  /\ varchar 255 "Ali" = Ok "Ali"
  /\ ~ In "Ali" (map cust_name (rows (t_customers Sample.db_day)))
  /\ fst (post_customers 3 Scenario.ali_body Sample.db_day)
     = res_json (J_customer Scenario.ali)
  /\ In "Ali" (map cust_name (rows (t_customers Scenario.db_customer)))
  /\ fst (post_customers 4 Scenario.ali_body Scenario.db_customer)
     = res_status 400 (J_error "Customer with this name already exists").
Proof.
  assert (Hnew : ~ In "Ali" (map cust_name (rows (t_customers Sample.db_day))))
    by (vm_compute; tauto).
  assert (Hold : In "Ali" (map cust_name (rows (t_customers Scenario.db_customer))))
    by (vm_compute; auto).
  pose proof (proj1 (post_customers_spec 3 Scenario.ali_body Sample.db_day)
                "Ali" "Ali" (Some "555 01 02") None eq_refl eq_refl eq_refl eq_refl) as H3.
  pose proof (proj1 (post_customers_spec 4 Scenario.ali_body Scenario.db_customer)
                "Ali" "Ali" (Some "555 01 02") None eq_refl eq_refl eq_refl eq_refl) as H4.
  cbv zeta in H3, H4.
  assert (Hfirst : fst (post_customers 3 Scenario.ali_body Sample.db_day)
                   = res_json (J_customer Scenario.ali)).
  { rewrite (proj1 H3 Hnew). vm_compute. reflexivity. }
  assert (Hsecond : fst (post_customers 4 Scenario.ali_body Scenario.db_customer)
                    = res_status 400 (J_error "Customer with this name already exists")).
  { rewrite (proj2 H4 Hold). reflexivity. }
  exact (conj eq_refl (conj eq_refl (conj Hnew (conj Hfirst (conj Hold Hsecond))))).
Defined.

End NewNames.

(** ** routes/api.js: staff *)

Section StaffNames.
Import Pg Schema Store Api.

Lemma post_staff_run (b : Body) (db : Database) (nm s : string) :
  b "name" = Some nm ->
  varchar 255 nm = Ok s ->
  post_staff b db
  = if existsb (fun r => String.eqb (name r) s) (rows (t_staff db))
    then (res_status 400 (J_error "Staff member with this name already exists"),
          set_lookup Staff (bump (t_staff db)) db)
    else (res_json (J_lookup {| id := next_id (t_staff db); name := s;
                                active := Some true |}),
          set_lookup Staff
            (append {| id := next_id (t_staff db); name := s; active := Some true |}
               (bump (t_staff db))) db).
Proof.
  intros Hname Hs.
  unfold post_staff, try_catch, hbind, query, hret, insert_lookup.
  store_unfold. rewrite Hname. cbn [existsb String.eqb Ascii.eqb Bool.eqb orb].
  cbn [nullable rbind]. rewrite Hs. cbn -[existsb].
  destruct (existsb _ _); reflexivity.
Qed.

(** X11: POST /staff.  With a name that fits the column: a name no staff
    member has, active or not, is stored as an active row under the
    next id and answered with 200; a name some row has is answered with
    400 "Staff member with this name already exists", no row is stored,
    and the id drawn for it is not used again.  Without a name, or with a
    name too long for the column, the answer is 500 "Failed to add staff
    member" and no row is stored.  The other tables are never changed. *)
Theorem post_staff_creates_or_rejects (b : Body) (db : Database) :
  (forall nm s,
     b "name" = Some nm ->
     varchar 255 nm = Ok s ->
     let row := {| id := next_id (t_staff db); name := s; active := Some true |} in
     (~ In s (map name (rows (t_staff db))) ->
      post_staff b db
      = (res_json (J_lookup row), set_lookup Staff (append row (bump (t_staff db))) db))
     /\ (In s (map name (rows (t_staff db))) ->
         post_staff b db
         = (res_status 400 (J_error "Staff member with this name already exists"),
            set_lookup Staff (bump (t_staff db)) db)))
  /\ (b "name" = None \/ (exists e, nullable (varchar 255) (b "name") = Err e) ->
      fst (post_staff b db) = res_status 500 (J_error "Failed to add staff member")
      /\ rows (t_staff (snd (post_staff b db))) = rows (t_staff db))
  /\ t_services (snd (post_staff b db)) = t_services db
  /\ t_expense_types (snd (post_staff b db)) = t_expense_types db
  /\ t_customers (snd (post_staff b db)) = t_customers db
  /\ t_records (snd (post_staff b db)) = t_records db
  /\ t_expenses (snd (post_staff b db)) = t_expenses db.
Proof.
  split; [| split].
  - intros nm s Hname Hs row. rewrite (post_staff_run b db nm s Hname Hs).
    split; intros Hin.
    + destruct (existsb _ _) eqn:Hex; [| reflexivity].
      apply existsb_name_iff in Hex. now destruct Hin.
    + apply (existsb_name_iff name) in Hin. rewrite Hin. reflexivity.
  - intros Hname.
    unfold post_staff, try_catch, hbind, query, hret, insert_lookup.
    store_unfold. cbn [existsb String.eqb Ascii.eqb Bool.eqb orb].
    destruct Hname as [Hname | [e Hname]].
    + rewrite Hname. split; reflexivity.
    + rewrite Hname. apply nullable_varchar_error in Hname. subst e.
      split; reflexivity.
  - unfold post_staff, try_catch, hbind, query, hret, insert_lookup.
    store_unfold. cbn [existsb String.eqb Ascii.eqb Bool.eqb orb].
    destruct (nullable (varchar 255) (b "name")) as [[s |] | e]; cbn -[existsb].
    + destruct (existsb _ _); repeat split.
    + repeat split.
    + repeat split.
Qed.

(** The theorem on a fresh installation: "Cemal" is stored under id 5,
    after the four seeded staff members, and a second "Ufuk" is answered
    with 400. *)
Lemma post_staff_creates_or_rejects_witness :
  Scenario.new_barber "name" = Some "Cemal"
  /\ varchar 255 "Cemal" = Ok "Cemal"
  /\ ~ In "Cemal" (map name (rows (t_staff Sample.db0)))
  /\ fst (post_staff Scenario.new_barber Sample.db0)
     = res_json (J_lookup {| id := 5; name := "Cemal"; active := Some true |})
  /\ Scenario.ufuk_again "name" = Some "Ufuk"
  /\ In "Ufuk" (map name (rows (t_staff Sample.db0)))
  /\ fst (post_staff Scenario.ufuk_again Sample.db0)
     = res_status 400 (J_error "Staff member with this name already exists").
Proof.
  assert (Hnew : ~ In "Cemal" (map name (rows (t_staff Sample.db0)))).
  { vm_compute. intros H. repeat (destruct H as [H | H]; [discriminate H |]). exact H. }
  assert (Hold : In "Ufuk" (map name (rows (t_staff Sample.db0))))
    by (vm_compute; auto).
  pose proof (proj1 (post_staff_creates_or_rejects Scenario.new_barber Sample.db0)
                "Cemal" "Cemal" eq_refl eq_refl) as H1.
  pose proof (proj1 (post_staff_creates_or_rejects Scenario.ufuk_again Sample.db0)
                "Ufuk" "Ufuk" eq_refl eq_refl) as H2.
  cbv zeta in H1, H2.
  assert (Hfirst : fst (post_staff Scenario.new_barber Sample.db0)
                   = res_json (J_lookup {| id := 5; name := "Cemal";
                                           active := Some true |})).
  { rewrite (proj1 H1 Hnew). vm_compute. reflexivity. }
  assert (Hsecond : fst (post_staff Scenario.ufuk_again Sample.db0)
                    = res_status 400
                        (J_error "Staff member with this name already exists")).
  { rewrite (proj2 H2 Hold). reflexivity. }
  exact (conj eq_refl (conj eq_refl (conj Hnew (conj Hfirst
           (conj eq_refl (conj Hold Hsecond)))))).
Defined.

(** X12: A name stays taken after its row is deactivated: DELETE /staff/:id
    keeps the row and its name, so POST /staff with the name of any row
    of the table, before or after a soft delete, is answered with 400 and
    stores no row. *)
Theorem deactivated_staff_name_stays_taken (db : Database) (p_id : string) (b : Body)
    (nm : string) (r : LookupRow) :
  In r (rows (t_staff db)) ->
  b "name" = Some nm ->
  varchar 255 nm = Ok (name r) ->
  let db' := snd (delete_staff p_id db) in
  map name (rows (t_staff db')) = map name (rows (t_staff db))
  /\ fst (post_staff b db')
     = res_status 400 (J_error "Staff member with this name already exists")
  /\ rows (t_staff (snd (post_staff b db'))) = rows (t_staff db').
Proof.
  intros Hr Hname Hs db'.
  assert (Hnames : map name (rows (t_staff db')) = map name (rows (t_staff db))).
  { unfold db', delete_staff, delete_lookup, try_catch, hbind, query, deactivate_lookup.
    store_unfold. cbn [check_columns columns table_of forallb existsb String.eqb
                         Ascii.eqb Bool.eqb andb orb].
    destruct (int4_in p_id) as [n | e]; [| reflexivity].
    destruct (map deactivated _); cbn; apply deactivated_names. }
  split; [exact Hnames |].
  assert (Hin : In (name r) (map name (rows (t_staff db')))).
  { rewrite Hnames. now apply in_map. }
  rewrite (post_staff_run b db' nm (name r) Hname Hs).
  apply (existsb_name_iff name) in Hin. rewrite Hin. split; reflexivity.
Qed.

(** The theorem on a fresh installation: after DELETE /staff/1, a new
    "Ufuk" is still refused. *)
Lemma deactivated_staff_name_stays_taken_witness :
  let r := {| id := 1; name := "Ufuk"; active := Some true |} in
  In r (rows (t_staff Sample.db0))
  /\ Scenario.ufuk_again "name" = Some "Ufuk"
  /\ varchar 255 "Ufuk" = Ok (name r)
  /\ fst (post_staff Scenario.ufuk_again (snd (delete_staff "1" Sample.db0)))
     = res_status 400 (J_error "Staff member with this name already exists").
Proof.
  cbv zeta.
  assert (Hr : In {| id := 1; name := "Ufuk"; active := Some true |}
                 (rows (t_staff Sample.db0))) by (vm_compute; auto).
  pose proof (deactivated_staff_name_stays_taken Sample.db0 "1" Scenario.ufuk_again
                "Ufuk" _ Hr eq_refl eq_refl) as H.
  cbv zeta in H.
  exact (conj Hr (conj eq_refl (conj eq_refl (proj1 (proj2 H))))).
Defined.

End StaffNames.

(** ** routes/api.js: deleting twice *)

Section Repeated.
Import Pg Schema Store Api.

Lemma filter_removed {R : Type} (key : R -> Z) (n : Z) (l : list R) :
  forall r, In r (filter (fun x => negb (key x =? n)) l) -> (key r =? n) = false.
Proof. intros r Hr. apply filter_In in Hr. now apply negb_true_iff. Qed.

(** X13: DELETE /records/:id and DELETE /expenses/:id a second time: after
    the first request, whatever it answered, no row of that id is left,
    and the second request answers 404 and changes nothing. *)
Theorem hard_delete_twice (db : Database) (p_id : string) (n : Z) :
  int4_in p_id = Ok n ->
  (let db1 := snd (delete_records p_id db) in
   (forall r, In r (rows (t_records db1)) -> rec_id r <> n)
   /\ delete_records p_id db1 = (res_status 404 (J_error "Record not found"), db1))
  /\ (let db1 := snd (delete_expenses p_id db) in
      (forall r, In r (rows (t_expenses db1)) -> exp_id r <> n)
      /\ delete_expenses p_id db1 = (res_status 404 (J_error "Expense not found"), db1)).
Proof.
  intros H. cbv zeta. split.
  - rewrite (delete_records_run p_id n db H). cbn [snd].
    set (db1 := set_records _ db).
    assert (Hgone : forall r, In r (rows (t_records db1)) -> (rec_id r =? n) = false)
      by apply filter_removed.
    split; [intros r Hr; apply Z.eqb_neq; now apply Hgone |].
    rewrite (delete_records_run p_id n db1 H).
    destruct (filter_none _ _ Hgone) as [-> ->]. now rewrite set_records_same.
  - rewrite (delete_expenses_run p_id n db H). cbn [snd].
    set (db1 := set_expenses _ db).
    assert (Hgone : forall r, In r (rows (t_expenses db1)) -> (exp_id r =? n) = false)
      by apply filter_removed.
    split; [intros r Hr; apply Z.eqb_neq; now apply Hgone |].
    rewrite (delete_expenses_run p_id n db1 H).
    destruct (filter_none _ _ Hgone) as [-> ->]. now rewrite set_expenses_same.
Qed.

(** The theorem on the sample day: record 1 is deleted, and a second
    DELETE /records/1 answers 404. *)
Lemma hard_delete_twice_witness :
  int4_in "1" = Ok 1
  /\ fst (delete_records "1" Sample.db_day)
     = res_json (J_record_deleted "Record deleted successfully" Sample.cash_row)
  /\ fst (delete_records "1" (snd (delete_records "1" Sample.db_day)))
     = res_status 404 (J_error "Record not found").
Proof.
  assert (H : int4_in "1" = Ok 1) by reflexivity.
  pose proof (proj2 (proj1 (hard_delete_twice Sample.db_day "1" 1 H))) as H2.
  cbv zeta in H2.
  assert (H1 : fst (delete_records "1" Sample.db_day)
               = res_json (J_record_deleted "Record deleted successfully" Sample.cash_row))
    by (vm_compute; reflexivity).
  assert (H3 : fst (delete_records "1" (snd (delete_records "1" Sample.db_day)))
               = res_status 404 (J_error "Record not found"))
    by (rewrite H2; reflexivity).
  exact (conj H (conj H1 H3)).
Defined.

Lemma deactivated_twice (n : Z) (r : LookupRow) :
  (if id (if id r =? n then deactivated r else r) =? n
   then deactivated (if id r =? n then deactivated r else r)
   else (if id r =? n then deactivated r else r))
  = (if id r =? n then deactivated r else r).
Proof.
  destruct (id r =? n) eqn:H; cbn [deactivated id]; rewrite H; reflexivity.
Qed.

Lemma deactivated_selected (n : Z) (l : list LookupRow) :
  map deactivated
    (filter (fun r => id r =? n) (map (fun r => if id r =? n then deactivated r else r) l))
  = map deactivated (filter (fun r => id r =? n) l).
Proof.
  induction l as [| r l IH]; [reflexivity |].
  cbn [map filter]. destruct (id r =? n) eqn:H; cbn [deactivated id]; rewrite H.
  - cbn [map]. now rewrite IH.
  - exact IH.
Qed.

Lemma lookup_rows_selected (n : Z) (l : list LookupRow) (r : LookupRow) :
  In r (map (fun x => if id x =? n then deactivated x else x) l) ->
  id r = n -> active r = Some false.
Proof.
  intros Hr Hn. apply in_map_iff in Hr. destruct Hr as [x [<- _]].
  destruct (id x =? n) eqn:H; [reflexivity |].
  apply Z.eqb_neq in H. now destruct H.
Qed.

(** X14: DELETE /services/:id and DELETE /staff/:id a second time: the route
    does not test whether the row is active, so the second request is
    answered exactly as the first (200 with the inactive row when the id
    exists, 404 otherwise) and changes nothing more; after the first
    request every row of that id is inactive. *)
Theorem soft_delete_twice (db : Database) (t : lookup_table) (route : string -> Route)
    (p_id : string) (n : Z) :
  soft_delete_route t = Some route ->
  int4_in p_id = Ok n ->
  let db1 := snd (route p_id db) in
  route p_id db1 = (fst (route p_id db), db1)
  /\ (forall r, In r (rows (lookup t db1)) -> id r = n -> active r = Some false).
Proof.
  intros Hroute Hid.
  assert (Hrun : exists m1 m2 m3 m4, route = delete_lookup t m1 m2 m3 m4).
  { destruct t; cbn in Hroute; [| | discriminate]; injection Hroute as <-;
      do 4 eexists; reflexivity. }
  destruct Hrun as [m1 [m2 [m3 [m4 ->]]]]. cbv zeta.
  rewrite (delete_lookup_run t m1 m2 m3 m4 p_id n db Hid). cbn [fst snd].
  set (upd := fun r => if id r =? n then deactivated r else r).
  set (db1 := set_lookup t (with_rows (map upd (rows (lookup t db))) (lookup t db)) db).
  assert (Hrows : rows (lookup t db1) = map upd (rows (lookup t db))).
  { unfold db1. now rewrite lookup_set_same. }
  split.
  - rewrite (delete_lookup_run t m1 m2 m3 m4 p_id n db1 Hid). fold upd.
    rewrite Hrows. unfold upd at 1. rewrite deactivated_selected. f_equal.
    rewrite map_map. unfold upd at 1 2.
    rewrite (map_ext _ _ (deactivated_twice n)). fold upd.
    unfold db1. rewrite lookup_set_same, set_lookup_twice. reflexivity.
  - intros r Hr Hn. rewrite Hrows in Hr. exact (lookup_rows_selected n _ r Hr Hn).
Qed.

(** The theorem on a fresh installation: DELETE /staff/2 twice. *)
Lemma soft_delete_twice_witness :
  soft_delete_route Staff = Some delete_staff
  /\ int4_in "2" = Ok 2
  /\ (let db1 := snd (delete_staff "2" Sample.db0) in
      delete_staff "2" db1 = (fst (delete_staff "2" Sample.db0), db1)
      /\ (forall r, In r (rows (lookup Staff db1)) -> id r = 2 -> active r = Some false)).
Proof.
  assert (H : int4_in "2" = Ok 2) by reflexivity.
  assert (Hr : soft_delete_route Staff = Some delete_staff) by reflexivity.
  exact (conj Hr (conj H (soft_delete_twice Sample.db0 Staff delete_staff "2" 2 Hr H))).
Defined.

End Repeated.

(** ** app.js: what a request can change *)

Section Requests.
Import Pg Schema Store Api App Invariant History.

Lemma match_route_read_only (req : request) (route : Route) (db : Database) :
  req_method req <> POST -> req_method req <> DELETE ->
  match_route req = Some route -> snd (route db) = db.
Proof.
  intros Hpost Hdelete. unfold match_route.
  destruct (req_method req); try (now destruct Hpost); try (now destruct Hdelete);
    destruct (req_path req) as [| a [| x [| y [| z [| w l]]]]];
    try discriminate;
    repeat match goal with
      | |- context [if ?b then _ else _] => destruct b
      end;
    intros H; try discriminate; injection H as <-;
    auto using get_records_daily_frame, get_records_monthly_frame,
      get_expenses_daily_frame, get_expenses_monthly_frame, get_customers_frame,
      get_customer_frame, get_daily_summary_frame, get_staff_performance_frame,
      get_service_analysis_frame;
    unfold get_services, get_staff, get_expense_types; apply get_lookups_frame.
Qed.

(** X15: Only POST and DELETE requests change the database: a GET, HEAD, PUT,
    PATCH or OPTIONS request, to any path, with any query and body,
    whether it is answered with 200, 204, 404 or 500, leaves every table
    as it was. *)
Theorem read_only_methods (env : option string) (req : request) (db : Database) :
  req_method req <> POST -> req_method req <> DELETE ->
  snd (handle env req db) = db.
Proof.
  intros Hpost Hdelete. unfold handle.
  destruct (req_method req) eqn:Hm; try (now destruct Hpost); try (now destruct Hdelete);
    destruct (req_path req) as [| a rest]; try reflexivity;
    (destruct (segment a "api");
     [ match goal with
       | |- context [match_route ?r] =>
           destruct (match_route r) as [route |] eqn:E;
           [ apply (match_route_read_only r route db); [discriminate | discriminate | exact E]
           | reflexivity ]
       end
     | destruct rest; try destruct (segment a "health"); reflexivity ]).
Qed.

(** The theorem for GET /api/staff?includeInactive=true on a fresh
    installation. *)
Lemma read_only_methods_witness :
  req_method Scenario.list_all_staff <> POST
  /\ req_method Scenario.list_all_staff <> DELETE
  /\ snd (handle None Scenario.list_all_staff Sample.db0) = Sample.db0.
Proof.
  assert (H1 : req_method Scenario.list_all_staff <> POST) by discriminate.
  assert (H2 : req_method Scenario.list_all_staff <> DELETE) by discriminate.
  exact (conj H1 (conj H2 (read_only_methods None Scenario.list_all_staff Sample.db0 H1 H2))).
Defined.

(** X16: In every database the application can reach, the primary keys and
    the UNIQUE constraints of the schema hold: in each of the six tables
    no two rows share an id and every id is below the next value of the
    sequence; no two customers share a name, and no two rows of
    services, of staff or of expense types share a name. *)
Theorem reachable_keys_and_names (coll : string -> string -> bool) (db : Database) :
  reachable coll db ->
  (NoDup (map cust_id (rows (t_customers db)))
   /\ (forall c, In c (rows (t_customers db)) -> cust_id c < next_id (t_customers db))
   /\ NoDup (map cust_name (rows (t_customers db))))
  /\ (forall t,
        NoDup (map id (rows (lookup t db)))
        /\ (forall r, In r (rows (lookup t db)) -> id r < next_id (lookup t db))
        /\ NoDup (map name (rows (lookup t db))))
  /\ (NoDup (map rec_id (rows (t_records db)))
      /\ forall r, In r (rows (t_records db)) -> rec_id r < next_id (t_records db))
  /\ (NoDup (map exp_id (rows (t_expenses db)))
      /\ forall r, In r (rows (t_expenses db)) -> exp_id r < next_id (t_expenses db)).
Proof.
  intros H. apply reachable_ok in H.
  destruct H as [[Hc1 Hc2] Hc3 Hl Hln [Hr1 Hr2] [He1 He2] _ _].
  rewrite Forall_forall in Hc2, Hr2, He2.
  split; [now repeat split |]. split; [| split; now split].
  intros t. destruct (Hl t) as [H1 H2]. rewrite Forall_forall in H2.
  repeat split; [exact H1 | exact H2 | exact (Hln t)].
Qed.

(** The theorem on a fresh installation after one POST /api/records. *)
Lemma reachable_keys_and_names_witness :
  reachable String.leb (snd (handle None Scenario.post_cash Sample.db0))
  /\ NoDup (map rec_id
              (rows (t_records (snd (handle None Scenario.post_cash Sample.db0)))))
  /\ NoDup (map name
              (rows (lookup Staff (snd (handle None Scenario.post_cash Sample.db0))))).
Proof.
  assert (H : reachable String.leb (snd (handle None Scenario.post_cash Sample.db0))).
  { apply reachable_step. apply reachable_initial. }
  pose proof (reachable_keys_and_names String.leb _ H) as [_ [Hl [[Hr _] _]]].
  exact (conj H (conj Hr (proj2 (proj2 (Hl Staff))))).
Defined.

End Requests.

(** ** Ids are not given out twice *)

Section Ids.
Import Pg Schema Store Api App Invariant History.

Lemma ids_fresh_refl {R : Type} (key : R -> Z) (t : Table R) : ids_fresh key t t.
Proof.
  split; [lia |]. intros r Hr. left. now apply in_map.
Qed.

Lemma ids_fresh_trans {R : Type} (key : R -> Z) (a b c : Table R) :
  ids_fresh key a b -> ids_fresh key b c -> ids_fresh key a c.
Proof.
  intros [Hab Hb] [Hbc Hc]. split; [lia |].
  intros r Hr. destruct (Hc r Hr) as [Hin | Hnew]; [| right; lia].
  apply in_map_iff in Hin. destruct Hin as [r' [<- Hr']]. exact (Hb r' Hr').
Qed.

Lemma ids_fresh_bump {R : Type} (key : R -> Z) (t : Table R) :
  ids_fresh key t (bump t).
Proof.
  split; [cbn; lia |]. intros r Hr. left. now apply in_map.
Qed.

Lemma ids_fresh_append {R : Type} (key : R -> Z) (t : Table R) (row : R) :
  key row = next_id t -> ids_fresh key t (append row (bump t)).
Proof.
  intros Hkey. split; [cbn; lia |]. intros r Hr. cbn in Hr.
  apply in_app_or in Hr. destruct Hr as [Hr | [<- | []]].
  - left. now apply in_map.
  - right. lia.
Qed.

Lemma ids_fresh_filter {R : Type} (key : R -> Z) (t : Table R) (f : R -> bool) :
  ids_fresh key t (with_rows (filter f (rows t)) t).
Proof.
  split; [cbn; lia |]. intros r Hr. cbn in Hr. apply filter_In in Hr.
  left. now apply in_map.
Qed.

Lemma ids_fresh_deactivate (t : Table LookupRow) (n : Z) :
  ids_fresh id t
    (with_rows (map (fun r => if id r =? n then deactivated r else r) (rows t)) t).
Proof.
  split; [cbn; lia |]. intros r Hr. cbn in Hr. left.
  rewrite <- (deactivated_ids n (rows t)). now apply in_map.
Qed.

Lemma all_ids_fresh_refl (db : Database) : all_ids_fresh db db.
Proof. repeat split; try lia; intros; left; now apply in_map. Qed.

Lemma all_ids_fresh_trans (a b c : Database) :
  all_ids_fresh a b -> all_ids_fresh b c -> all_ids_fresh a c.
Proof.
  intros [H1 [H2 [H3 H4]]] [H1' [H2' [H3' H4']]].
  split; [| split; [| split]]; [| | | intros t]; eapply ids_fresh_trans; eauto.
Qed.

Lemma fresh_set_records (tb : Table RecordRow) (db : Database) :
  ids_fresh rec_id (t_records db) tb -> all_ids_fresh db (set_records tb db).
Proof.
  intros H. split; [exact H |].
  split; [apply ids_fresh_refl |]. split; [apply ids_fresh_refl |].
  intros t. destruct t; apply ids_fresh_refl.
Qed.

Lemma fresh_set_expenses (tb : Table ExpenseRow) (db : Database) :
  ids_fresh exp_id (t_expenses db) tb -> all_ids_fresh db (set_expenses tb db).
Proof.
  intros H. split; [apply ids_fresh_refl |]. split; [exact H |].
  split; [apply ids_fresh_refl |].
  intros t. destruct t; apply ids_fresh_refl.
Qed.

Lemma fresh_set_customers (tb : Table CustomerRow) (db : Database) :
  ids_fresh cust_id (t_customers db) tb -> all_ids_fresh db (set_customers tb db).
Proof.
  intros H. split; [apply ids_fresh_refl |]. split; [apply ids_fresh_refl |].
  split; [exact H |].
  intros t. destruct t; apply ids_fresh_refl.
Qed.

Lemma fresh_set_lookup (t : lookup_table) (tb : Table LookupRow) (db : Database) :
  ids_fresh id (lookup t db) tb -> all_ids_fresh db (set_lookup t tb db).
Proof.
  intros H. destruct (set_lookup_frame t tb db) as [Hc [Hr [He _]]].
  unfold all_ids_fresh. rewrite Hc, Hr, He.
  split; [apply ids_fresh_refl |]. split; [apply ids_fresh_refl |].
  split; [apply ids_fresh_refl |].
  intros t0. destruct (lookup_table_eq_dec t0 t) as [-> | Hne].
  - now rewrite lookup_set_same.
  - rewrite (lookup_set_other _ _ _ _ Hne). apply ids_fresh_refl.
Qed.

Lemma change_fresh (allowed : lookup_table -> Prop) (db db' : Database) :
  change allowed db db' -> all_ids_fresh db db'.
Proof.
  intros H. destruct H as [| row Hid _ | f | | row Hid _ | f | | row Hid _
                           | t _ | t row _ Hid _ | t n _].
  - apply fresh_set_records, ids_fresh_bump.
  - apply fresh_set_records, ids_fresh_append, Hid.
  - apply fresh_set_records, ids_fresh_filter.
  - apply fresh_set_expenses, ids_fresh_bump.
  - apply fresh_set_expenses, ids_fresh_append, Hid.
  - apply fresh_set_expenses, ids_fresh_filter.
  - apply fresh_set_customers, ids_fresh_bump.
  - apply fresh_set_customers, ids_fresh_append, Hid.
  - apply fresh_set_lookup, ids_fresh_bump.
  - apply fresh_set_lookup, ids_fresh_append, Hid.
  - apply fresh_set_lookup, ids_fresh_deactivate.
Qed.

Lemma changes_fresh (allowed : lookup_table -> Prop) (db db' : Database) :
  changes allowed db db' -> all_ids_fresh db db'.
Proof.
  induction 1 as [| db1 db2 _ IH Hstep]; [apply all_ids_fresh_refl |].
  eapply all_ids_fresh_trans; [exact IH | exact (change_fresh _ _ _ Hstep)].
Qed.

Lemma steps_fresh (db db' : Database) : steps db db' -> all_ids_fresh db db'.
Proof.
  induction 1 as [| db1 env req _ IH]; [apply all_ids_fresh_refl |].
  eapply all_ids_fresh_trans; [exact IH |].
  exact (changes_fresh _ _ _ (handle_changes env req db1)).
Qed.

Lemma ids_fresh_gone {R : Type} (key : R -> Z) (t t' : Table R) (n : Z) :
  ids_fresh key t t' ->
  n < next_id t -> ~ In n (map key (rows t)) -> ~ In n (map key (rows t')).
Proof.
  intros [_ H] Hlt Hout Hin. apply in_map_iff in Hin. destruct Hin as [r [<- Hr]].
  destruct (H r Hr) as [Hold | Hnew]; [now apply Hout | lia].
Qed.

(** X17: Ids are never given out twice.  Over any sequence of requests, in
    each of the six tables: the sequence behind [id] never goes back;
    every row present afterwards carries the id of a row present before,
    or an id drawn from the sequence since; so an id below the sequence
    that no row carries, such as the id of a deleted record, is never
    carried by a row again. *)
Theorem ids_are_not_reused (db db' : Database) :
  steps db db' ->
  all_ids_fresh db db'
  /\ (forall n, n < next_id (t_records db) ->
                ~ In n (map rec_id (rows (t_records db))) ->
                ~ In n (map rec_id (rows (t_records db'))))
  /\ (forall n, n < next_id (t_expenses db) ->
                ~ In n (map exp_id (rows (t_expenses db))) ->
                ~ In n (map exp_id (rows (t_expenses db'))))
  /\ (forall n, n < next_id (t_customers db) ->
                ~ In n (map cust_id (rows (t_customers db))) ->
                ~ In n (map cust_id (rows (t_customers db'))))
  /\ (forall t n, n < next_id (lookup t db) ->
                  ~ In n (map id (rows (lookup t db))) ->
                  ~ In n (map id (rows (lookup t db')))).
Proof.
  intros H. pose proof (steps_fresh db db' H) as Hfresh.
  split; [exact Hfresh |]. destruct Hfresh as [Hr [He [Hc Hl]]].
  split; [intros n; now apply ids_fresh_gone |].
  split; [intros n; now apply ids_fresh_gone |].
  split; [intros n; now apply ids_fresh_gone |].
  intros t n. apply ids_fresh_gone, Hl.
Qed.

(** The theorem on the sample day after DELETE /api/records/1 and a new
    POST /api/records: no row carries id 1 again, the new record is
    number 3. *)
Lemma ids_are_not_reused_witness :
  let db1 := snd (handle None Scenario.delete_first Sample.db_day) in
  let db2 := snd (handle None Scenario.post_cash db1) in
  steps db1 db2
  /\ 1 < next_id (t_records db1)
  /\ ~ In 1 (map rec_id (rows (t_records db1)))
  /\ ~ In 1 (map rec_id (rows (t_records db2))).
Proof.
  cbv zeta.
  set (db1 := snd (handle None Scenario.delete_first Sample.db_day)).
  assert (Hsteps : steps db1 (snd (handle None Scenario.post_cash db1))).
  { apply steps_more. apply steps_none. }
  assert (Hlt : 1 < next_id (t_records db1)) by (vm_compute; reflexivity).
  assert (Hout : ~ In 1 (map rec_id (rows (t_records db1)))).
  { vm_compute. intros [H | []]. discriminate H. }
  exact (conj Hsteps (conj Hlt (conj Hout
           (proj1 (proj2 (ids_are_not_reused _ _ Hsteps)) 1 Hlt Hout)))).
Defined.

End Ids.

(** ** setupDatabase.js: the seed rows *)

Section Seeding.
Import Pg Schema Store History.
Local Open Scope store_scope.

Lemma set_lookup_same (t : lookup_table) (db : Database) :
  set_lookup t (lookup t db) db = db.
Proof. destruct t, db; reflexivity. Qed.

Lemma default_names_valid (t : lookup_table) (nm : string) :
  In nm (default_names t) -> varchar 255 nm = Ok nm.
Proof.
  assert (H : forallb (fun s => match varchar 255 s with
                                | Ok s' => String.eqb s' s
                                | Err _ => false
                                end) (default_names t) = true)
    by (destruct t; vm_compute; reflexivity).
  intros Hin. rewrite forallb_forall in H. specialize (H nm Hin).
  destruct (varchar 255 nm) as [s' | e]; [| discriminate H].
  apply String.eqb_eq in H. now subst.
Qed.

Lemma default_names_distinct (t : lookup_table) : NoDup (default_names t).
Proof.
  assert (H : nodup string_dec (default_names t) = default_names t)
    by (destruct t; vm_compute; reflexivity).
  rewrite <- H. apply NoDup_nodup.
Qed.

Lemma default_names_some (t : lookup_table) : default_names t <> [].
Proof. destruct t; discriminate. Qed.

Lemma insert_seed_run (t : lookup_table) (nm : string) (db : Database) :
  varchar 255 nm = Ok nm ->
  ~ In nm (map name (rows (lookup t db))) ->
  insert_lookup_do_nothing t (Some nm) db
  = (Ok [{| id := next_id (lookup t db); name := nm; active := Some true |}],
     set_lookup t
       (append {| id := next_id (lookup t db); name := nm; active := Some true |}
          (bump (lookup t db))) db).
Proof.
  intros Hnm Hnew. unfold insert_lookup_do_nothing. store_unfold.
  assert (Hcols : check_columns (table_of t) ["name"; "active"] = Ok tt)
    by (destruct t; reflexivity).
  rewrite Hcols. cbn [nullable rbind]. rewrite Hnm. cbn -[existsb].
  rewrite lookup_set_same. cbn [rows bump].
  destruct (existsb _ _) eqn:Hex.
  - apply existsb_name_iff in Hex. now destruct Hnew.
  - now rewrite lookup_set_same, set_lookup_twice.
Qed.

Lemma for_each_seed (t : lookup_table) (names : list string) (db : Database) :
  NoDup names ->
  (forall nm, In nm names -> varchar 255 nm = Ok nm) ->
  (forall nm, In nm names -> ~ In nm (map name (rows (lookup t db)))) ->
  Setup.for_each (fun nm => insert_lookup_do_nothing t (Some nm) ;;; ret tt) names db
  = (Ok tt,
     set_lookup t
       {| rows := rows (lookup t db) ++ seed_rows (next_id (lookup t db)) names;
          next_id := next_id (lookup t db) + Z.of_nat (List.length names) |} db).
Proof.
  revert db. induction names as [| nm names IH]; intros db Hnodup Hvalid Hnew.
  - cbn [Setup.for_each seed_rows List.length Z.of_nat]. unfold ret.
    rewrite app_nil_r, Z.add_0_r.
    replace {| rows := rows (lookup t db); next_id := next_id (lookup t db) |}
      with (lookup t db) by now destruct (lookup t db).
    now rewrite set_lookup_same.
  - inversion Hnodup as [| ? ? Hhead Htail]; subst.
    cbn [Setup.for_each]. unfold bind at 1. unfold bind at 1.
    rewrite (insert_seed_run t nm db) by (try apply Hvalid; try apply Hnew; now left).
    unfold ret at 1.
    rewrite IH.
    + rewrite lookup_set_same, set_lookup_twice. cbn [rows next_id append bump seed_rows].
      rewrite <- app_assoc. cbn [app List.length]. rewrite Nat2Z.inj_succ.
      do 3 f_equal. lia.
    + exact Htail.
    + intros x Hx. apply Hvalid. now right.
    + intros x Hx. rewrite lookup_set_same. cbn [rows append bump].
      rewrite map_app. intros Hin. apply in_app_or in Hin.
      destruct Hin as [Hin | [Heq | []]].
      * apply (Hnew x); [now right | exact Hin].
      * cbn in Heq. subst x. now apply Hhead.
Qed.

Lemma seed_run (t : lookup_table) (db : Database) :
  Setup.seed t (default_names t) db = (Ok tt, seed_result t db).
Proof.
  unfold Setup.seed, seed_result. unfold bind at 1. unfold count_lookup, gets.
  destruct (rows (lookup t db)) as [| r l] eqn:Hrows.
  - cbn [count_rows List.length Z.of_nat Z.eqb].
    rewrite for_each_seed.
    + now rewrite Hrows.
    + apply default_names_distinct.
    + apply default_names_valid.
    + intros nm _. rewrite Hrows. intros [].
  - reflexivity.
Qed.

Lemma setupDatabase_run (db : Database) :
  Setup.setupDatabase db
  = (Ok tt, seed_result ExpenseTypes (seed_result Staff (seed_result Services db))).
Proof.
  unfold Setup.setupDatabase.
  change Setup.defaultServices with (default_names Services).
  change Setup.defaultStaff with (default_names Staff).
  change Setup.defaultExpenseTypes with (default_names ExpenseTypes).
  unfold bind. now rewrite !seed_run.
Qed.

Lemma lookup_seed_result_other (t t0 : lookup_table) (db : Database) :
  t <> t0 -> lookup t (seed_result t0 db) = lookup t db.
Proof.
  intros Hne. unfold seed_result.
  destruct (rows (lookup t0 db)); [now apply lookup_set_other | reflexivity].
Qed.

Lemma seed_result_frame (t : lookup_table) (db : Database) :
  t_customers (seed_result t db) = t_customers db
  /\ t_records (seed_result t db) = t_records db
  /\ t_expenses (seed_result t db) = t_expenses db
  /\ collation (seed_result t db) = collation db.
Proof.
  unfold seed_result.
  destruct (rows (lookup t db)); [apply set_lookup_frame | repeat split].
Qed.

Lemma seed_result_kept (t : lookup_table) (db : Database) :
  rows (lookup t db) <> [] -> seed_result t db = db.
Proof.
  intros H. unfold seed_result. destruct (rows (lookup t db)); [now destruct H | reflexivity].
Qed.

Lemma seed_result_some (t : lookup_table) (db : Database) :
  rows (lookup t (seed_result t db)) <> [].
Proof.
  unfold seed_result. destruct (rows (lookup t db)) as [| r l] eqn:Hrows.
  - rewrite lookup_set_same. cbn [rows].
    pose proof (default_names_some t) as Hsome.
    destruct (default_names t); [now destruct Hsome | discriminate].
  - rewrite Hrows. discriminate.
Qed.

(** The lookup table [t] after [setupDatabase]. *)
Lemma lookup_after_setup (t : lookup_table) (db : Database) :
  lookup t (snd (Setup.setupDatabase db)) = lookup t (seed_result t db).
Proof.
  rewrite setupDatabase_run. cbn [snd]. destruct t.
  - rewrite !lookup_seed_result_other by discriminate. reflexivity.
  - rewrite lookup_seed_result_other by discriminate.
    unfold seed_result at 1 3.
    rewrite (lookup_seed_result_other Staff Services) by discriminate.
    destruct (rows (lookup Staff db)); [| apply lookup_seed_result_other; discriminate].
    now rewrite !lookup_set_same.
  - unfold seed_result at 1 4.
    rewrite !(lookup_seed_result_other ExpenseTypes) by discriminate.
    destruct (rows (lookup ExpenseTypes db));
      [| rewrite !lookup_seed_result_other by discriminate; reflexivity].
    now rewrite !lookup_set_same.
Qed.

Lemma seed_rows_spec (names : list string) (k : Z) :
  map name (seed_rows k names) = names
  /\ map id (seed_rows k names)
     = map (fun i => k + Z.of_nat i) (seq 0 (List.length names))
  /\ Forall (fun r => active r = Some true) (seed_rows k names).
Proof.
  revert k. induction names as [| nm names IH]; intros k.
  - repeat split. constructor.
  - destruct (IH (k + 1)) as [H1 [H2 H3]]. cbn [seed_rows map List.length seq].
    split; [now rewrite H1 |]. split; [| now constructor].
    rewrite H2, <- seq_shift, map_map. f_equal; [cbn; lia |].
    apply map_ext. intros i. lia.
Qed.

End Seeding.

(** X18: [setupDatabase] on a database whose tables exist always succeeds.
    It leaves a lookup table that has a row exactly as it is.  Into an
    empty lookup table it inserts the whole seed list: one row per name,
    in the order of the list, each active, with consecutive ids from the
    next value of the sequence.  It never touches customers, records or
    expenses. *)
Theorem setupDatabase_spec (db : Schema.Database) :
  let db' := snd (Setup.setupDatabase db) in
  fst (Setup.setupDatabase db) = Pg.Ok tt
  /\ (forall t, Schema.rows (Schema.lookup t db) <> [] ->
                Schema.lookup t db' = Schema.lookup t db)
  /\ (forall t, Schema.rows (Schema.lookup t db) = [] ->
        let k := Schema.next_id (Schema.lookup t db) in
        let names := History.default_names t in
        map Schema.name (Schema.rows (Schema.lookup t db')) = names
        /\ map Schema.id (Schema.rows (Schema.lookup t db'))
           = map (fun i => k + Z.of_nat i) (seq 0 (List.length names))
        /\ Forall (fun r => Schema.active r = Some true)
             (Schema.rows (Schema.lookup t db'))
        /\ Schema.next_id (Schema.lookup t db') = k + Z.of_nat (List.length names))
  /\ Schema.t_customers db' = Schema.t_customers db
  /\ Schema.t_records db' = Schema.t_records db
  /\ Schema.t_expenses db' = Schema.t_expenses db.
Proof.
  cbv zeta. split; [now rewrite setupDatabase_run |].
  split; [| split].
  - intros t Hsome. rewrite lookup_after_setup. now rewrite seed_result_kept.
  - intros t Hnone. rewrite lookup_after_setup. unfold History.seed_result.
    rewrite Hnone, lookup_set_same. cbn [Schema.rows Schema.next_id].
    destruct (seed_rows_spec (History.default_names t)
                (Schema.next_id (Schema.lookup t db))) as [H1 [H2 H3]].
    repeat split; assumption.
  - rewrite setupDatabase_run. cbn [snd].
    destruct (seed_result_frame Schema.ExpenseTypes
                (History.seed_result Schema.Staff
                   (History.seed_result Schema.Services db))) as [-> [-> [-> _]]].
    destruct (seed_result_frame Schema.Staff
                (History.seed_result Schema.Services db)) as [-> [-> [-> _]]].
    destruct (seed_result_frame Schema.Services db) as [-> [-> [-> _]]].
    repeat split.
Qed.

(** The theorem on the database before any row: the staff table is
    seeded with the four default names, under ids 1 to 4. *)
Lemma setupDatabase_spec_witness :
  Schema.rows (Schema.lookup Schema.Staff (Schema.empty_db String.leb)) = []
  /\ map Schema.name (Schema.rows (Schema.lookup Schema.Staff Sample.db0))
     = ["Ufuk"; "Muhammet"; "Manikürist"; "Kalfa"]
  /\ map Schema.id (Schema.rows (Schema.lookup Schema.Staff Sample.db0)) = [1; 2; 3; 4].
Proof.
  pose proof (setupDatabase_spec (Schema.empty_db String.leb)) as H.
  cbv zeta in H. destruct H as [_ [_ [H _]]].
  destruct (H Schema.Staff eq_refl) as [H1 [H2 _]].
  exact (conj eq_refl (conj H1 H2)).
Defined.

(** X19: Running [setupDatabase] again changes nothing: after one run every
    lookup table has a row, so a second run inserts no row, draws no id
    and succeeds. *)
Theorem setupDatabase_idempotent (db : Schema.Database) :
  (forall t, Schema.rows (Schema.lookup t (snd (Setup.setupDatabase db))) <> [])
  /\ Setup.setupDatabase (snd (Setup.setupDatabase db))
     = (Pg.Ok tt, snd (Setup.setupDatabase db)).
Proof.
  assert (Hsome : forall t,
             Schema.rows (Schema.lookup t (snd (Setup.setupDatabase db))) <> []).
  { intros t. rewrite lookup_after_setup. apply seed_result_some. }
  split; [exact Hsome |].
  rewrite (setupDatabase_run (snd (Setup.setupDatabase db))).
  rewrite (seed_result_kept Schema.Services) by apply Hsome.
  rewrite (seed_result_kept Schema.Staff) by apply Hsome.
  rewrite (seed_result_kept Schema.ExpenseTypes) by apply Hsome.
  reflexivity.
Qed.

(** ** Groups and their totals *)

Section Groups.
Context {A K : Type} (sel : K -> A -> bool) (key : A -> K).

Lemma sum_Z_zero (D : list K) : sum_Z (map (fun _ => 0) D) = 0.
Proof. induction D as [| d D IH]; [reflexivity |]. cbn. exact IH. Qed.

Lemma sum_Z_plus (a b : K -> Z) (D : list K) :
  sum_Z (map (fun d => a d + b d) D) = sum_Z (map a D) + sum_Z (map b D).
Proof.
  induction D as [| d D IH]; [reflexivity |].
  cbn [map sum_Z fold_right] in *. unfold sum_Z in *. lia.
Qed.

(** Among distinct keys exactly one selects a given row. *)
Lemma sum_Z_selected (x : A) (c : Z) (D : list K) :
  (forall d, sel d x = true <-> key x = d) ->
  NoDup D -> In (key x) D ->
  sum_Z (map (fun d => if sel d x then c else 0) D) = c.
Proof.
  intros Hsel Hnodup Hin. induction D as [| d D IH]; [destruct Hin |].
  inversion Hnodup as [| ? ? Hd HD]; subst. cbn [map sum_Z fold_right].
  destruct (sel d x) eqn:Hdx.
  - apply Hsel in Hdx. subst d.
    assert (Hrest : map (fun d => if sel d x then c else 0) D = map (fun _ => 0) D).
    { apply map_ext_in. intros d Hd'. destruct (sel d x) eqn:E; [| reflexivity].
      apply Hsel in E. subst d. now destruct Hd. }
    fold (sum_Z (map (fun d => if sel d x then c else 0) D)).
    rewrite Hrest, sum_Z_zero. lia.
  - destruct Hin as [Heq | Hin].
    + symmetry in Heq. apply Hsel in Heq. congruence.
    + fold (sum_Z (map (fun d => if sel d x then c else 0) D)).
      rewrite (IH HD Hin). lia.
Qed.

(** The sums of the groups add up to the sum of all rows, when every row
    belongs to the group of exactly one of the keys. *)
Lemma sum_by_group (f : A -> Z) (l : list A) (D : list K) :
  (forall x, In x l -> forall d, sel d x = true <-> key x = d) ->
  NoDup D ->
  (forall x, In x l -> In (key x) D) ->
  sum_Z (map (fun d => sum_Z (map f (filter (sel d) l))) D) = sum_Z (map f l).
Proof.
  intros Hsel Hnodup. induction l as [| x l IH]; intros Hkeys.
  - cbn [filter map]. apply sum_Z_zero.
  - assert (Hstep : map (fun d => sum_Z (map f (filter (sel d) (x :: l)))) D
                    = map (fun d => (if sel d x then f x else 0)
                                    + sum_Z (map f (filter (sel d) l))) D).
    { apply map_ext. intros d. cbn [filter]. destruct (sel d x); reflexivity. }
    rewrite Hstep, sum_Z_plus.
    rewrite (sum_Z_selected x (f x) D) by (auto; apply Hsel || apply Hkeys; now left).
    rewrite IH.
    + reflexivity.
    + intros y Hy. apply Hsel. now right.
    + intros y Hy. apply Hkeys. now right.
Qed.

End Groups.

Lemma count_rows_sum {A : Type} (l : list A) :
  count_rows l = sum_Z (map (fun _ => 1) l).
Proof.
  unfold count_rows. induction l as [| x l IH]; [reflexivity |].
  cbn [List.length map sum_Z fold_right]. fold (sum_Z (map (fun _ : A => 1) l)).
  rewrite Nat2Z.inj_succ, IH. lia.
Qed.

Section GroupTotals.
Import Pg Schema Store Api.

Lemma group_records_totals (selected : list RecordRow) :
  NoDup (map grp_payment_type (group_records selected))
  /\ (forall pt, In pt (map grp_payment_type (group_records selected))
                 <-> exists r, In r selected /\ rec_payment_type r = pt)
  /\ sum_Z (map grp_total (group_records selected)) = sum_Z (map rec_price selected)
  /\ sum_Z (map grp_count (group_records selected)) = count_rows selected
  /\ (forall g, In g (group_records selected) -> 1 <= grp_count g).
Proof.
  unfold group_records.
  set (D := distinct String.eqb (map rec_payment_type selected)).
  assert (Hnodup : NoDup D) by apply (distinct_NoDup String.eqb String.eqb_eq).
  assert (HD : forall pt, In pt D <-> exists r, In r selected /\ rec_payment_type r = pt).
  { intros pt. unfold D. rewrite (distinct_In String.eqb String.eqb_eq), in_map_iff.
    split; intros [r [H1 H2]]; exists r; tauto. }
  assert (Hsel : forall x, In x selected ->
                 forall d, String.eqb (rec_payment_type x) d = true
                           <-> rec_payment_type x = d)
    by (intros x _ d; apply String.eqb_eq).
  assert (Hkeys : forall x, In x selected -> In (rec_payment_type x) D)
    by (intros x Hx; apply HD; now exists x).
  rewrite !map_map. cbn [grp_payment_type grp_total grp_count].
  rewrite map_id. split; [exact Hnodup |]. split; [exact HD |].
  split; [| split].
  - exact (sum_by_group (fun d x => String.eqb (rec_payment_type x) d) rec_payment_type
             rec_price selected D Hsel Hnodup Hkeys).
  - rewrite (count_rows_sum selected).
    rewrite <- (sum_by_group (fun d x => String.eqb (rec_payment_type x) d)
                  rec_payment_type (fun _ => 1) selected D Hsel Hnodup Hkeys).
    f_equal. apply map_ext. intros d. apply count_rows_sum.
  - intros g Hg. apply in_map_iff in Hg. destruct Hg as [pt [<- Hpt]].
    cbn [grp_count]. apply HD in Hpt. destruct Hpt as [r [Hr Heq]].
    assert (Hin : In r (filter (fun x => String.eqb (rec_payment_type x) pt) selected)).
    { apply filter_In. split; [exact Hr | now apply String.eqb_eq]. }
    unfold count_rows.
    destruct (filter (fun x => String.eqb (rec_payment_type x) pt) selected);
      [destruct Hin | cbn [List.length]; lia].
Qed.

Lemma group_expenses_totals (selected : list ExpenseRow) :
  NoDup (map grp_payment_type (group_expenses selected))
  /\ (forall pt, In pt (map grp_payment_type (group_expenses selected))
                 <-> exists r, In r selected /\ exp_payment_type r = pt)
  /\ sum_Z (map grp_total (group_expenses selected)) = sum_Z (map exp_amount selected)
  /\ sum_Z (map grp_count (group_expenses selected)) = count_rows selected
  /\ (forall g, In g (group_expenses selected) -> 1 <= grp_count g).
Proof.
  unfold group_expenses.
  set (D := distinct String.eqb (map exp_payment_type selected)).
  assert (Hnodup : NoDup D) by apply (distinct_NoDup String.eqb String.eqb_eq).
  assert (HD : forall pt, In pt D <-> exists r, In r selected /\ exp_payment_type r = pt).
  { intros pt. unfold D. rewrite (distinct_In String.eqb String.eqb_eq), in_map_iff.
    split; intros [r [H1 H2]]; exists r; tauto. }
  assert (Hsel : forall x, In x selected ->
                 forall d, String.eqb (exp_payment_type x) d = true
                           <-> exp_payment_type x = d)
    by (intros x _ d; apply String.eqb_eq).
  assert (Hkeys : forall x, In x selected -> In (exp_payment_type x) D)
    by (intros x Hx; apply HD; now exists x).
  rewrite !map_map. cbn [grp_payment_type grp_total grp_count].
  rewrite map_id. split; [exact Hnodup |]. split; [exact HD |].
  split; [| split].
  - exact (sum_by_group (fun d x => String.eqb (exp_payment_type x) d) exp_payment_type
             exp_amount selected D Hsel Hnodup Hkeys).
  - rewrite (count_rows_sum selected).
    rewrite <- (sum_by_group (fun d x => String.eqb (exp_payment_type x) d)
                  exp_payment_type (fun _ => 1) selected D Hsel Hnodup Hkeys).
    f_equal. apply map_ext. intros d. apply count_rows_sum.
  - intros g Hg. apply in_map_iff in Hg. destruct Hg as [pt [<- Hpt]].
    cbn [grp_count]. apply HD in Hpt. destruct Hpt as [r [Hr Heq]].
    assert (Hin : In r (filter (fun x => String.eqb (exp_payment_type x) pt) selected)).
    { apply filter_In. split; [exact Hr | now apply String.eqb_eq]. }
    unfold count_rows.
    destruct (filter (fun x => String.eqb (exp_payment_type x) pt) selected);
      [destruct Hin | cbn [List.length]; lia].
Qed.

(** X20: the two grouping statements of GET /reports/daily-summary/:date,
    each taken alone: for a date the store reads, the statement returns
    one group for each payment type that a row of the day carries, and
    no other group; every group counts at least one row; the counts of
    the groups add up to the number of rows of the day, and their totals
    to the sum of the day.  The rows of the day are the rows of the
    table whose date is the date asked for.  The statement leaves the
    database as it is. *)
Theorem daily_summary_groups_add_up (db : Database) (date : string) (d : Date) :
  date_in date = Ok d ->
  let recs := filter (fun r => date_eqb (rec_date r) d) (rows (t_records db)) in
  let exps := filter (fun e => date_eqb (exp_date e) d) (rows (t_expenses db)) in
  (forall r, In r recs <-> In r (rows (t_records db)) /\ rec_date r = d)
  /\ (forall e, In e exps <-> In e (rows (t_expenses db)) /\ exp_date e = d)
  /\ (exists groups,
        income_by_payment_type date db = (Ok groups, db)
        /\ NoDup (map grp_payment_type groups)
        /\ (forall pt, In pt (map grp_payment_type groups)
                       <-> exists r, In r recs /\ rec_payment_type r = pt)
        /\ sum_Z (map grp_total groups) = sum_Z (map rec_price recs)
        /\ sum_Z (map grp_count groups) = count_rows recs
        /\ (forall g, In g groups -> 1 <= grp_count g))
  /\ (exists groups,
        expenses_by_payment_type date db = (Ok groups, db)
        /\ NoDup (map grp_payment_type groups)
        /\ (forall pt, In pt (map grp_payment_type groups)
                       <-> exists r, In r exps /\ exp_payment_type r = pt)
        /\ sum_Z (map grp_total groups) = sum_Z (map exp_amount exps)
        /\ sum_Z (map grp_count groups) = count_rows exps
        /\ (forall g, In g groups -> 1 <= grp_count g)).
Proof.
  intros H. cbv zeta.
  split; [intros r; rewrite filter_In, date_eqb_spec; reflexivity |].
  split; [intros e; rewrite filter_In, date_eqb_spec; reflexivity |].
  split.
  - exists (group_records (records_on d (rows (t_records db)))). split.
    + unfold income_by_payment_type. store_unfold. rewrite H. reflexivity.
    + apply group_records_totals.
  - exists (group_expenses (expenses_on d (rows (t_expenses db)))). split.
    + unfold expenses_by_payment_type. store_unfold. rewrite H. reflexivity.
    + apply group_expenses_totals.
Qed.

(** The theorem on the sample day: the groups of the records have totals
    that add up to 150 and counts that add up to 2. *)
Lemma daily_summary_groups_add_up_witness :
  date_in "2024-03-10" = Ok (mkDate 2024 3 10)
  /\ exists groups,
       income_by_payment_type "2024-03-10" Sample.db_day = (Ok groups, Sample.db_day)
       /\ sum_Z (map grp_total groups) = 15000
       /\ sum_Z (map grp_count groups) = 2.
Proof.
  assert (H : date_in "2024-03-10" = Ok (mkDate 2024 3 10)) by reflexivity.
  split; [exact H |].
  destruct (daily_summary_groups_add_up Sample.db_day "2024-03-10" _ H)
    as [_ [_ [[groups [Hrun [_ [_ [Htotal [Hcount _]]]]]] _]]].
  exists groups. exact (conj Hrun (conj Htotal Hcount)).
Defined.

End GroupTotals.

(** ** routes/api.js: the service analysis *)

Section ServiceAnalysis.
Import Pg Schema Store Api Analysis.

Lemma sum_Z_perm (l l' : list Z) : Permutation l l' -> sum_Z l = sum_Z l'.
Proof.
  induction 1 as [| x l l' _ IH | x y l | l l' l'' _ IH1 _ IH2];
    cbn [sum_Z fold_right] in *; unfold sum_Z in *; lia.
Qed.

Lemma min_Z_spec (x : Z) (l : list Z) :
  In (min_Z (x :: l)) (x :: l) /\ forall y, In y (x :: l) -> min_Z (x :: l) <= y.
Proof.
  unfold min_Z. induction l as [| z l [IHin IHle]].
  - cbn. split; [now left | intros y [<- | []]; lia].
  - cbn [fold_right]. split.
    + destruct (Z.min_spec z (fold_right Z.min x l)) as [[_ ->] | [_ ->]].
      * right. now left.
      * destruct IHin as [H | H]; [now left | right; now right].
    + intros y [<- | [<- | Hy]].
      * pose proof (IHle x (or_introl eq_refl)). lia.
      * lia.
      * pose proof (IHle y (or_intror Hy)). lia.
Qed.

Lemma max_Z_spec (x : Z) (l : list Z) :
  In (max_Z (x :: l)) (x :: l) /\ forall y, In y (x :: l) -> y <= max_Z (x :: l).
Proof.
  unfold max_Z. induction l as [| z l [IHin IHle]].
  - cbn. split; [now left | intros y [<- | []]; lia].
  - cbn [fold_right]. split.
    + destruct (Z.max_spec z (fold_right Z.max x l)) as [[_ ->] | [_ ->]].
      * destruct IHin as [H | H]; [now left | right; now right].
      * right. now left.
    + intros y [<- | [<- | Hy]].
      * pose proof (IHle x (or_introl eq_refl)). lia.
      * lia.
      * pose proof (IHle y (or_intror Hy)). lia.
Qed.

(** Grouping by a column that is not null in any selected row. *)
Lemma sum_by_option_group (k : RecordRow -> option string) (f : RecordRow -> Z)
    (selected : list RecordRow) :
  (forall x, In x selected -> is_some (k x) = true) ->
  sum_Z
    (map (fun s =>
            sum_Z (map f (filter (fun r => option_eqb String.eqb (k r) (Some s)) selected)))
       (distinct String.eqb
          (flat_map (fun r => match k r with Some s => [s] | None => [] end) selected)))
  = sum_Z (map f selected).
Proof.
  intros Hsome.
  apply (sum_by_group (fun s r => option_eqb String.eqb (k r) (Some s))
           (fun r => match k r with Some s => s | None => EmptyString end)).
  - intros x Hx d. specialize (Hsome x Hx). destruct (k x) as [s |]; [| discriminate].
    cbn [option_eqb]. apply String.eqb_eq.
  - apply (distinct_NoDup String.eqb String.eqb_eq).
  - intros x Hx. apply (distinct_In String.eqb String.eqb_eq), in_flat_map.
    exists x. split; [exact Hx |]. specialize (Hsome x Hx).
    destruct (k x) as [s |]; [now left | discriminate].
Qed.

(** The records the service analysis selects, and the group of one
    service among them. *)
Lemma get_service_analysis_run (p_start p_end : string) (d1 d2 : Date) (db : Database) :
  date_in p_start = Ok d1 -> date_in p_end = Ok d2 ->
  get_service_analysis p_start p_end db = (res_json (J_service_analysis
    (sort_by (fun a b => sa_count b <=? sa_count a)
       (map (fun s =>
               {| sa_service := s;
                  sa_count := count_rows (service_group d1 d2 s (rows (t_records db)));
                  sa_total_revenue :=
                    sum_Z (map rec_price (service_group d1 d2 s (rows (t_records db))));
                  sa_average_price :=
                    average (map rec_price (service_group d1 d2 s (rows (t_records db))));
                  sa_min_price :=
                    min_Z (map rec_price (service_group d1 d2 s (rows (t_records db))));
                  sa_max_price :=
                    max_Z (map rec_price (service_group d1 d2 s (rows (t_records db)))) |})
          (distinct String.eqb
             (flat_map service_of (with_service_in_range d1 d2 (rows (t_records db)))))))),
    db).
Proof.
  intros H1 H2.
  unfold get_service_analysis, try_catch, hbind, query, hret, service_analysis.
  store_unfold. rewrite H1, H2. reflexivity.
Qed.

Lemma service_group_spec (d1 d2 : Date) (all : list RecordRow) (s : string)
    (r : RecordRow) :
  In r (service_group d1 d2 s all)
  <-> In r all /\ date_leb d1 (rec_date r) = true /\ date_leb (rec_date r) d2 = true
      /\ rec_service r = Some s.
Proof.
  unfold service_group, with_service_in_range, in_range.
  rewrite !filter_In, !andb_true_iff, option_string_eqb_spec. split.
  - intros [[Hr [[Ha Hb] _]] Hs]. tauto.
  - intros [Hr [Ha [Hb Hs]]]. rewrite Hs. cbn. tauto.
Qed.

Lemma service_names_spec (d1 d2 : Date) (all : list RecordRow) (s : string) :
  In s (distinct String.eqb (flat_map service_of (with_service_in_range d1 d2 all)))
  <-> exists r, In r (service_group d1 d2 s all).
Proof.
  rewrite (distinct_In String.eqb String.eqb_eq), in_flat_map. split.
  - intros [r [Hr Hs]]. exists r. unfold service_group. apply filter_In.
    split; [exact Hr |]. unfold service_of in Hs.
    destruct (rec_service r) as [s' |]; [| destruct Hs].
    destruct Hs as [-> | []]. cbn. apply String.eqb_refl.
  - intros [r Hr]. unfold service_group in Hr. apply filter_In in Hr.
    destruct Hr as [Hr Hs]. exists r. split; [exact Hr |].
    apply option_string_eqb_spec in Hs. unfold service_of. rewrite Hs. now left.
Qed.

(** The report of the service analysis, with the records named as the
    statement selects them. *)
Lemma service_analysis_groups (db : Database) (startDate endDate : string)
    (d1 d2 : Date) :
  date_in startDate = Ok d1 ->
  date_in endDate = Ok d2 ->
  let all := rows (t_records db) in
  exists report : list ServiceAnalysisRow,
    get_service_analysis startDate endDate db
    = (res_json (J_service_analysis report), db)
    /\ StronglySorted (fun a b => sa_count b <= sa_count a) report
    /\ NoDup (map sa_service report)
    /\ (forall s, In s (map sa_service report) <->
                  exists r, In r all
                            /\ date_leb d1 (rec_date r) = true
                            /\ date_leb (rec_date r) d2 = true
                            /\ rec_service r = Some s)
    /\ (forall row, In row report ->
          let g := service_group d1 d2 (sa_service row) all in
          let total := sum_Z (map rec_price g) in
          let s := div_scale total (count_rows g) in
          (forall r, In r g <->
                     In r all
                     /\ date_leb d1 (rec_date r) = true
                     /\ date_leb (rec_date r) d2 = true
                     /\ rec_service r = Some (sa_service row))
          /\ sa_count row = count_rows g
          /\ 1 <= sa_count row
          /\ sa_total_revenue row = total
          /\ 2 <= s <= 1000
          /\ sa_average_price row
             == rounded_quotient total (count_rows g) s # Z.to_pos (10 ^ s)
          /\ (Qabs (sa_average_price row - (total # 100) / inject_Z (count_rows g))
              <= 1 # (2 * Z.to_pos (10 ^ s)))%Q
          /\ (Qabs (sa_average_price row - (total # 100) / inject_Z (count_rows g))
              <= 1 # 200)%Q
          /\ (forall k, total = count_rows g * k ->
                        sa_average_price row == (total # 100) / inject_Z (count_rows g))
          /\ (exists r, In r g /\ rec_price r = sa_min_price row)
          /\ (exists r, In r g /\ rec_price r = sa_max_price row)
          /\ (forall r, In r g -> sa_min_price row <= rec_price r <= sa_max_price row))
    /\ sum_Z (map sa_count report) = count_rows (with_service_in_range d1 d2 all)
    /\ sum_Z (map sa_total_revenue report)
       = sum_Z (map rec_price (with_service_in_range d1 d2 all)).
Proof.
  intros H1 H2. cbv zeta.
  set (all := rows (t_records db)).
  eexists. split; [apply (get_service_analysis_run startDate endDate d1 d2 db H1 H2) |].
  fold all.
  set (mk := fun s => {| sa_service := s;
                         sa_count := count_rows (service_group d1 d2 s all);
                         sa_total_revenue := sum_Z (map rec_price (service_group d1 d2 s all));
                         sa_average_price := average (map rec_price (service_group d1 d2 s all));
                         sa_min_price := min_Z (map rec_price (service_group d1 d2 s all));
                         sa_max_price := max_Z (map rec_price (service_group d1 d2 s all)) |}).
  set (D := distinct String.eqb (flat_map service_of (with_service_in_range d1 d2 all))).
  assert (Hperm : Permutation (sort_by (fun a b => sa_count b <=? sa_count a) (map mk D))
                    (map mk D)) by apply sort_by_perm.
  assert (Hnames : map sa_service (map mk D) = D).
  { rewrite map_map. cbn. apply map_id. }
  assert (Hsome : forall x, In x (with_service_in_range d1 d2 all) ->
                            is_some (rec_service x) = true).
  { intros x Hx. unfold with_service_in_range in Hx. apply filter_In in Hx.
    destruct Hx as [_ Hx]. now apply andb_true_iff in Hx. }
  split; [| split; [| split; [| split; [| split]]]].
  - apply sort_by_strongly_sorted.
    + intros a b. apply Z.leb_le.
    + intros a b. lia.
    + intros a b c. lia.
  - eapply Permutation_NoDup.
    + apply Permutation_sym, Permutation_map, Hperm.
    + rewrite Hnames. apply (distinct_NoDup String.eqb String.eqb_eq).
  - intros s.
    assert (Hin : In s (map sa_service (sort_by (fun a b => sa_count b <=? sa_count a)
                                          (map mk D))) <-> In s D).
    { rewrite <- Hnames at 2. split; apply Permutation_in, Permutation_map;
        [exact Hperm | apply Permutation_sym, Hperm]. }
    rewrite Hin. unfold D. rewrite service_names_spec. split.
    + intros [r Hr]. exists r. now apply service_group_spec in Hr.
    + intros [r Hr]. exists r. now apply service_group_spec.
  - intros row Hrow. apply (Permutation_in _ Hperm) in Hrow.
    apply in_map_iff in Hrow. destruct Hrow as [s [<- Hs]].
    cbn [mk sa_service sa_count sa_total_revenue sa_average_price sa_min_price
           sa_max_price].
    apply service_names_spec in Hs. destruct Hs as [r0 Hr0].
    destruct (service_group d1 d2 s all) as [| x g] eqn:Hg; [destruct Hr0 |].
    rewrite <- Hg.
    assert (Hne : map rec_price (service_group d1 d2 s all) <> [])
      by (rewrite Hg; discriminate).
    pose proof (average_spec _ Hne) as Havg. cbv zeta in Havg.
    rewrite count_rows_map in Havg. destruct Havg as (A1 & A2 & A3 & A4 & A5).
    split; [intros r; apply service_group_spec |].
    split; [reflexivity |].
    split; [rewrite Hg; unfold count_rows; cbn [List.length]; lia |].
    split; [reflexivity |].
    split; [exact A1 |]. split; [exact A2 |]. split; [exact A3 |].
    split; [exact A4 |]. split; [exact A5 |].
    clear A1 A2 A3 A4 A5 Hne.
    rewrite Hg. cbn [map].
    destruct (min_Z_spec (rec_price x) (map rec_price g)) as [Hmin_in Hmin_le].
    destruct (max_Z_spec (rec_price x) (map rec_price g)) as [Hmax_in Hmax_le].
    change (rec_price x :: map rec_price g) with (map rec_price (x :: g))
      in Hmin_in, Hmax_in, Hmin_le, Hmax_le.
    split; [| split].
    + apply in_map_iff in Hmin_in. destruct Hmin_in as [r [Hp Hr]]. now exists r.
    + apply in_map_iff in Hmax_in. destruct Hmax_in as [r [Hp Hr]]. now exists r.
    + intros r Hr. split; [apply Hmin_le | apply Hmax_le]; now apply in_map.
  - rewrite (sum_Z_perm _ _ (Permutation_map sa_count Hperm)), map_map.
    cbn [mk sa_count].
    rewrite (count_rows_sum (with_service_in_range d1 d2 all)).
    rewrite <- (sum_by_option_group rec_service (fun _ => 1) _ Hsome).
    f_equal. apply map_ext. intros s. apply count_rows_sum.
  - rewrite (sum_Z_perm _ _ (Permutation_map sa_total_revenue Hperm)), map_map.
    cbn [mk sa_total_revenue].
    exact (sum_by_option_group rec_service rec_price _ Hsome).
Qed.

(** X21: GET /reports/service-analysis/:startDate/:endDate, for a range the
    store reads: the answer is 200 with one row for each service that a
    record in the inclusive range carries, ordered by the number of
    records, largest first.  A row carries the number of the records of
    its service in the range (at least one), the sum of their prices,
    and the lowest and the highest of their prices: each is the price of
    one of those records and bounds all of them.  Its average is the
    quotient of sum by count as the store rounds it: to [s] decimals,
    [s] between 2 and 1000 chosen from sum and count, so that it is
    within half a hundredth of the exact quotient, and equal to it when
    the count divides the sum in hundredths.  The counts of the rows add
    up to the number of selected records, and the revenues to the sum of
    their prices.  The database is unchanged. *)
Theorem service_analysis_spec (db : Database) (startDate endDate : string)
    (d1 d2 : Date) :
  date_in startDate = Ok d1 ->
  date_in endDate = Ok d2 ->
  let all := rows (t_records db) in
  let selected :=
    filter (fun r => date_leb d1 (rec_date r) && date_leb (rec_date r) d2
                     && is_some (rec_service r)) all in
  exists report : list ServiceAnalysisRow,
    get_service_analysis startDate endDate db
    = (res_json (J_service_analysis report), db)
    /\ StronglySorted (fun a b => sa_count b <= sa_count a) report
    /\ NoDup (map sa_service report)
    /\ (forall s, In s (map sa_service report) <->
                  exists r, In r all
                            /\ date_leb d1 (rec_date r) = true
                            /\ date_leb (rec_date r) d2 = true
                            /\ rec_service r = Some s)
    /\ (forall row, In row report ->
          let g := filter (fun r => option_eqb String.eqb (rec_service r)
                                      (Some (sa_service row))) selected in
          let total := sum_Z (map rec_price g) in
          let s := div_scale total (count_rows g) in
          (forall r, In r g <->
                     In r all
                     /\ date_leb d1 (rec_date r) = true
                     /\ date_leb (rec_date r) d2 = true
                     /\ rec_service r = Some (sa_service row))
          /\ sa_count row = count_rows g
          /\ 1 <= sa_count row
          /\ sa_total_revenue row = total
          /\ 2 <= s <= 1000
          /\ sa_average_price row
             == rounded_quotient total (count_rows g) s # Z.to_pos (10 ^ s)
          /\ (Qabs (sa_average_price row - (total # 100) / inject_Z (count_rows g))
              <= 1 # (2 * Z.to_pos (10 ^ s)))%Q
          /\ (Qabs (sa_average_price row - (total # 100) / inject_Z (count_rows g))
              <= 1 # 200)%Q
          /\ (forall k, total = count_rows g * k ->
                        sa_average_price row == (total # 100) / inject_Z (count_rows g))
          /\ (exists r, In r g /\ rec_price r = sa_min_price row)
          /\ (exists r, In r g /\ rec_price r = sa_max_price row)
          /\ (forall r, In r g -> sa_min_price row <= rec_price r <= sa_max_price row))
    /\ (forall r, In r selected <->
                  In r all
                  /\ date_leb d1 (rec_date r) = true
                  /\ date_leb (rec_date r) d2 = true
                  /\ rec_service r <> None)
    /\ sum_Z (map sa_count report) = count_rows selected
    /\ sum_Z (map sa_total_revenue report) = sum_Z (map rec_price selected).
Proof.
  intros H1 H2. cbv zeta.
  destruct (service_analysis_groups db startDate endDate d1 d2 H1 H2)
    as (report & Hrun & Hsorted & Hnd & Hnames & Hrows & Hcount & Htotal).
  exists report.
  split; [exact Hrun |]. split; [exact Hsorted |]. split; [exact Hnd |].
  split; [exact Hnames |]. split; [exact Hrows |]. split; [| split].
  - intros r. rewrite filter_In, !andb_true_iff.
    destruct (rec_service r); cbn [is_some]; intuition (discriminate || congruence).
  - exact Hcount.
  - exact Htotal.
Qed.

(** The theorem on the sample month: two services, one record each; the
    counts add up to 2 and the revenues to 300. *)
Lemma service_analysis_spec_witness :
  date_in "2024-03-01" = Ok (mkDate 2024 3 1)
  /\ date_in "2024-03-31" = Ok (mkDate 2024 3 31)
  /\ exists report,
       get_service_analysis "2024-03-01" "2024-03-31" Sample.db_staff
       = (res_json (J_service_analysis report), Sample.db_staff)
       /\ sum_Z (map sa_count report) = 2
       /\ sum_Z (map sa_total_revenue report) = 30000.
Proof.
  assert (H1 : date_in "2024-03-01" = Ok (mkDate 2024 3 1)) by reflexivity.
  assert (H2 : date_in "2024-03-31" = Ok (mkDate 2024 3 31)) by reflexivity.
  split; [exact H1 |]. split; [exact H2 |].
  destruct (service_analysis_spec Sample.db_staff "2024-03-01" "2024-03-31" _ _ H1 H2)
    as [report [Hrun [_ [_ [_ [_ [_ [Hcount Htotal]]]]]]]].
  exists report. exact (conj Hrun (conj Hcount Htotal)).
Defined.

(** An example: the report of the sample month.  The averages carry the
    sixteen decimals of the store. *)
Example service_analysis_march :
  fst (get_service_analysis "2024-03-01" "2024-03-31" Sample.db_staff)
  = res_json
      (J_service_analysis
         [{| sa_service := "Sakal"; sa_count := 1; sa_total_revenue := 10000;
             sa_average_price := 1000000000000000000 # 10000000000000000;
             sa_min_price := 10000; sa_max_price := 10000 |};
          {| sa_service := "Boya"; sa_count := 1; sa_total_revenue := 20000;
             sa_average_price := 2000000000000000000 # 10000000000000000;
             sa_min_price := 20000; sa_max_price := 20000 |}]).
Proof. vm_compute. reflexivity. Qed.

(** X22: GET /reports/staff-performance: the selected records are the
    rows of the records table, each as often as it is there, whose date
    is in the inclusive range and whose staff is not NULL.  Over the
    rows of the report, the service counts add up to the number of
    selected records, and the revenues add up to the sum of their
    prices; every row counts at least one record. *)
Theorem staff_performance_adds_up (db : Database) (startDate endDate : string)
    (d1 d2 : Date) :
  date_in startDate = Ok d1 ->
  date_in endDate = Ok d2 ->
  let all := rows (t_records db) in
  let selected :=
    filter (fun r => date_leb d1 (rec_date r) && date_leb (rec_date r) d2
                     && is_some (rec_staff r)) all in
  exists report : list StaffPerformanceRow,
    get_staff_performance startDate endDate db
    = (res_json (J_staff_performance report), db)
    /\ (forall r, In r selected <->
                  In r all
                  /\ date_leb d1 (rec_date r) = true
                  /\ date_leb (rec_date r) d2 = true
                  /\ rec_staff r <> None)
    /\ sum_Z (map sp_service_count report) = count_rows selected
    /\ sum_Z (map sp_total_revenue report) = sum_Z (map rec_price selected)
    /\ (forall row, In row report -> 1 <= sp_service_count row).
Proof.
  intros H1 H2. cbv zeta.
  set (all := rows (t_records db)).
  assert (Hsel : forall r,
             In r (filter (fun r => date_leb d1 (rec_date r) && date_leb (rec_date r) d2
                                    && is_some (rec_staff r)) all) <->
             In r all /\ date_leb d1 (rec_date r) = true
             /\ date_leb (rec_date r) d2 = true /\ rec_staff r <> None).
  { intros r. rewrite filter_In, !andb_true_iff.
    destruct (rec_staff r); cbn [is_some]; intuition (discriminate || congruence). }
  change (filter (fun r => date_leb d1 (rec_date r) && date_leb (rec_date r) d2
                           && is_some (rec_staff r)) all)
    with (with_staff_in_range d1 d2 all).
  change (filter (fun r => date_leb d1 (rec_date r) && date_leb (rec_date r) d2
                           && is_some (rec_staff r)) all)
    with (with_staff_in_range d1 d2 all) in Hsel.
  eexists. split; [apply (get_staff_performance_run startDate endDate d1 d2 db H1 H2) |].
  fold all. unfold staff_report.
  set (D := distinct String.eqb (flat_map staff_of (with_staff_in_range d1 d2 all))).
  assert (Hperm : Permutation (sort_by highest_revenue_first (map (staff_row d1 d2 all) D))
                    (map (staff_row d1 d2 all) D)) by apply sort_by_perm.
  assert (Hsome : forall x, In x (with_staff_in_range d1 d2 all) ->
                            is_some (rec_staff x) = true).
  { intros x Hx. unfold with_staff_in_range in Hx. apply filter_In in Hx.
    destruct Hx as [_ Hx]. now apply andb_true_iff in Hx. }
  split; [exact Hsel |]. clear Hsel. split; [| split].
  - rewrite (sum_Z_perm _ _ (Permutation_map sp_service_count Hperm)), map_map.
    cbn [staff_row sp_service_count]. unfold staff_group.
    rewrite (count_rows_sum (with_staff_in_range d1 d2 all)).
    rewrite <- (sum_by_option_group rec_staff (fun _ => 1) _ Hsome).
    f_equal. apply map_ext. intros s. apply count_rows_sum.
  - rewrite (sum_Z_perm _ _ (Permutation_map sp_total_revenue Hperm)), map_map.
    cbn [staff_row sp_total_revenue]. unfold staff_group.
    exact (sum_by_option_group rec_staff rec_price _ Hsome).
  - intros row Hrow. apply (Permutation_in _ Hperm) in Hrow.
    apply in_map_iff in Hrow. destruct Hrow as [s [<- Hs]].
    cbn [staff_row sp_service_count]. unfold D in Hs.
    apply staff_names_spec in Hs. destruct Hs as [r Hr].
    apply staff_group_spec in Hr. unfold count_rows.
    destruct (staff_group d1 d2 s all); [destruct Hr | cbn [List.length]; lia].
Qed.

(** The theorem on the sample month: the two records of the month name
    a staff member; the counts add up to 2 and the revenues to 300. *)
Lemma staff_performance_adds_up_witness :
  date_in "2024-03-01" = Ok (mkDate 2024 3 1)
  /\ date_in "2024-03-31" = Ok (mkDate 2024 3 31)
  /\ exists report,
       get_staff_performance "2024-03-01" "2024-03-31" Sample.db_staff
       = (res_json (J_staff_performance report), Sample.db_staff)
       /\ sum_Z (map sp_service_count report) = 2
       /\ sum_Z (map sp_total_revenue report) = 30000.
Proof.
  assert (H1 : date_in "2024-03-01" = Ok (mkDate 2024 3 1)) by reflexivity.
  assert (H2 : date_in "2024-03-31" = Ok (mkDate 2024 3 31)) by reflexivity.
  split; [exact H1 |]. split; [exact H2 |].
  destruct (staff_performance_adds_up Sample.db_staff "2024-03-01" "2024-03-31" _ _ H1 H2)
    as [report [Hrun [_ [Hcount [Htotal _]]]]].
  exists report. exact (conj Hrun (conj Hcount Htotal)).
Defined.

End ServiceAnalysis.

(** ** routes/api.js: parameters the store refuses *)

Section Malformed.
Import Pg Schema Store Api.

(** X23: A path parameter that the store refuses makes the route answer
    500 with its own failure message, never 400 or 404, and the database
    is unchanged.  For an id, that is a text which is empty or begins
    with a character that is neither a blank, a sign nor a digit, or a
    decimal integer outside 32 bits: the four DELETE routes and GET
    /customers/:id.  For a date, that is a text YYYY-MM-DD whose year is
    0 or whose month or day is not in the calendar: the daily lists, the
    daily summary and, for either end of the range, the two range
    reports. *)
Theorem malformed_parameter_answers_500 (db : Database) (p : string) :
  (Refusal.not_an_integer p = true \/ int4_in p = Err numeric_value_out_of_range ->
     delete_records p db = (res_status 500 (J_error "Failed to delete record"), db)
     /\ delete_expenses p db = (res_status 500 (J_error "Failed to delete expense"), db)
     /\ delete_services p db
        = (res_status 500 (J_error "Failed to deactivate service"), db)
     /\ delete_staff p db
        = (res_status 500 (J_error "Failed to deactivate staff member"), db)
     /\ get_customer p db
        = (res_status 500 (J_error "Failed to fetch customer details"), db))
  /\ (date_in p = Err datetime_field_overflow ->
        get_records_daily p db
        = (res_status 500 (J_error "Failed to fetch daily records"), db)
        /\ get_expenses_daily p db
           = (res_status 500 (J_error "Failed to fetch daily expenses"), db)
        /\ get_daily_summary p db
           = (res_status 500 (J_error "Failed to generate daily summary"), db)
        /\ (forall other,
              get_staff_performance p other db
              = (res_status 500 (J_error "Failed to generate staff performance report"),
                 db)
              /\ get_staff_performance other p db
                 = (res_status 500 (J_error "Failed to generate staff performance report"),
                    db)
              /\ get_service_analysis p other db
                 = (res_status 500 (J_error "Failed to generate service analysis"), db)
              /\ get_service_analysis other p db
                 = (res_status 500 (J_error "Failed to generate service analysis"), db))).
Proof.
  split.
  - intros Hp. destruct (refused_id_error p Hp) as [e H].
    unfold delete_records, delete_expenses, delete_services, delete_staff, delete_lookup,
      get_customer, try_catch, hbind, query, delete_record, delete_expense,
      deactivate_lookup, select_customer.
    store_unfold. cbn [check_columns columns table_of forallb existsb String.eqb
                         Ascii.eqb Bool.eqb andb orb].
    rewrite H. repeat split.
  - intros H. rewrite get_records_daily_run, get_expenses_daily_run, H.
    split; [reflexivity |]. split; [reflexivity |].
    split; [exact (daily_summary_malformed_date p db H) |].
    intros other.
    unfold get_staff_performance, get_service_analysis, try_catch, hbind, query,
      staff_performance, service_analysis.
    store_unfold. rewrite H.
    destruct (date_in other); repeat split.
Qed.

(** The theorem for the ids "abc" and "2147483648" and for the date
    "2024-02-31". *)
Lemma malformed_parameter_answers_500_witness :
  Refusal.not_an_integer "abc" = true
  /\ delete_records "abc" Sample.db_day
     = (res_status 500 (J_error "Failed to delete record"), Sample.db_day)
  /\ int4_in "2147483648" = Err numeric_value_out_of_range
  /\ get_customer "2147483648" Sample.db_day
     = (res_status 500 (J_error "Failed to fetch customer details"), Sample.db_day)
  /\ date_in "2024-02-31" = Err datetime_field_overflow
  /\ get_daily_summary "2024-02-31" Sample.db_day
     = (res_status 500 (J_error "Failed to generate daily summary"), Sample.db_day).
Proof.
  assert (H1 : Refusal.not_an_integer "abc" = true) by reflexivity.
  assert (H2 : int4_in "2147483648" = Err numeric_value_out_of_range) by reflexivity.
  assert (H3 : date_in "2024-02-31" = Err datetime_field_overflow) by reflexivity.
  pose proof (proj1 (malformed_parameter_answers_500 Sample.db_day "abc") (or_introl H1))
    as Ha.
  pose proof (proj1 (malformed_parameter_answers_500 Sample.db_day "2147483648")
                (or_intror H2)) as Hb.
  pose proof (proj2 (malformed_parameter_answers_500 Sample.db_day "2024-02-31") H3)
    as Hc.
  exact (conj H1 (conj (proj1 Ha)
           (conj H2 (conj (proj2 (proj2 (proj2 (proj2 Hb))))
              (conj H3 (proj1 (proj2 (proj2 Hc)))))))).
Defined.

End Malformed.

(** ** routes/api.js: a new row in the list of its day *)

Section Posted.
Import Pg Schema Store Api.

Lemma date_eqb_refl (d : Date) : date_eqb d d = true.
Proof. now apply date_eqb_spec. Qed.

Lemma nullable_date (dt : string) (d : Date) :
  nullable date_in (Some dt) = Ok (Some d) -> date_in dt = Ok d.
Proof.
  unfold nullable, rbind. destruct (date_in dt); [| discriminate].
  intros H. now injection H as ->.
Qed.

(** What an answer 200 of POST /records tells. *)
Lemma post_records_stored (now : Z) (b : Body) (db : Database) (row : RecordRow) :
  fst (post_records now b db) = res_json (J_record row) ->
  nullable date_in (b "date") = Ok (Some (rec_date row))
  /\ rec_id row = next_id (t_records db)
  /\ rec_created_at row = now
  /\ snd (post_records now b db) = set_records (append row (bump (t_records db))) db.
Proof.
  unfold post_records, try_catch, hbind, query, hret, insert_record, res_json, res_status.
  store_unfold.
  change (check_columns records
            ["date"; "customer_name"; "service"; "staff"; "price"; "payment_type"])
    with (@Ok unit tt).
  cbn beta iota.
  repeat case_step; cbn; intros H; try discriminate H; injection H as <-; cbn.
  repeat split.
Qed.

Lemma post_expenses_stored (now : Z) (b : Body) (db : Database) (row : ExpenseRow) :
  fst (post_expenses now b db) = res_json (J_expense row) ->
  nullable date_in (b "date") = Ok (Some (exp_date row))
  /\ exp_id row = next_id (t_expenses db)
  /\ exp_created_at row = now
  /\ snd (post_expenses now b db) = set_expenses (append row (bump (t_expenses db))) db.
Proof.
  unfold post_expenses, try_catch, hbind, query, hret, insert_expense, res_json,
    res_status.
  store_unfold.
  change (check_columns expenses ["date"; "type"; "description"; "amount"; "payment_type"])
    with (@Ok unit tt).
  cbn beta iota.
  repeat case_step; cbn; intros H; try discriminate H; injection H as <-; cbn.
  repeat split.
Qed.

(** X24: When POST /records answers 200 with a row, the row carries the next
    id of the sequence and the time of the request, the store read the
    [date] of the body as the date of the row, and GET /records/daily for
    that date then lists the new row together with the records that were
    listed before.  Likewise for POST /expenses and GET /expenses/daily. *)
Theorem posted_row_is_listed (now : Z) (b : Body) (db : Database) (dt : string) :
  b "date" = Some dt ->
  (forall row,
     fst (post_records now b db) = res_json (J_record row) ->
     date_in dt = Ok (rec_date row)
     /\ rec_id row = next_id (t_records db)
     /\ rec_created_at row = now
     /\ exists before after,
          get_records_daily dt db = (res_json (J_records before), db)
          /\ get_records_daily dt (snd (post_records now b db))
             = (res_json (J_records after), snd (post_records now b db))
          /\ In row after
          /\ Permutation after (row :: before))
  /\ (forall row,
        fst (post_expenses now b db) = res_json (J_expense row) ->
        date_in dt = Ok (exp_date row)
        /\ exp_id row = next_id (t_expenses db)
        /\ exp_created_at row = now
        /\ exists before after,
             get_expenses_daily dt db = (res_json (J_expenses before), db)
             /\ get_expenses_daily dt (snd (post_expenses now b db))
                = (res_json (J_expenses after), snd (post_expenses now b db))
             /\ In row after
             /\ Permutation after (row :: before)).
Proof.
  intros Hb. split.
  - intros row Hpost.
    destruct (post_records_stored now b db row Hpost) as [Hdate [Hid [Hnow Hdb]]].
    rewrite Hb in Hdate. apply nullable_date in Hdate.
    split; [exact Hdate |]. split; [exact Hid |]. split; [exact Hnow |].
    rewrite Hdb, !get_records_daily_run, Hdate. do 2 eexists.
    split; [reflexivity |]. split; [reflexivity |].
    cbn [t_records set_records rows append bump].
    rewrite filter_app. cbn [filter]. rewrite date_eqb_refl.
    assert (Hperm : Permutation
                      (sort_by newest_first
                         (filter (fun r => date_eqb (rec_date r) (rec_date row))
                            (rows (t_records db)) ++ [row]))
                      (row :: sort_by newest_first
                                (filter (fun r => date_eqb (rec_date r) (rec_date row))
                                   (rows (t_records db))))).
    { etransitivity; [apply sort_by_perm |].
      etransitivity; [apply Permutation_sym, Permutation_cons_append |].
      apply perm_skip, Permutation_sym, sort_by_perm. }
    split; [| exact Hperm].
    apply (Permutation_in _ (Permutation_sym Hperm)). now left.
  - intros row Hpost.
    destruct (post_expenses_stored now b db row Hpost) as [Hdate [Hid [Hnow Hdb]]].
    rewrite Hb in Hdate. apply nullable_date in Hdate.
    split; [exact Hdate |]. split; [exact Hid |]. split; [exact Hnow |].
    rewrite Hdb, !get_expenses_daily_run, Hdate. do 2 eexists.
    split; [reflexivity |]. split; [reflexivity |].
    cbn [t_expenses set_expenses rows append bump].
    rewrite filter_app. cbn [filter]. rewrite date_eqb_refl.
    assert (Hperm : Permutation
                      (sort_by newest_expense_first
                         (filter (fun r => date_eqb (exp_date r) (exp_date row))
                            (rows (t_expenses db)) ++ [row]))
                      (row :: sort_by newest_expense_first
                                (filter (fun r => date_eqb (exp_date r) (exp_date row))
                                   (rows (t_expenses db))))).
    { etransitivity; [apply sort_by_perm |].
      etransitivity; [apply Permutation_sym, Permutation_cons_append |].
      apply perm_skip, Permutation_sym, sort_by_perm. }
    split; [| exact Hperm].
    apply (Permutation_in _ (Permutation_sym Hperm)). now left.
Qed.

(** The theorem for the cash record of the sample day, posted to a fresh
    installation. *)
Lemma posted_row_is_listed_witness :
  Sample.cash_100 "date" = Some "2024-03-10"
  /\ fst (post_records 1 Sample.cash_100 Sample.db0) = res_json (J_record Sample.cash_row)
  /\ exists before after,
       get_records_daily "2024-03-10" Sample.db0 = (res_json (J_records before), Sample.db0)
       /\ get_records_daily "2024-03-10" (snd (post_records 1 Sample.cash_100 Sample.db0))
          = (res_json (J_records after), snd (post_records 1 Sample.cash_100 Sample.db0))
       /\ In Sample.cash_row after
       /\ Permutation after (Sample.cash_row :: before).
Proof.
  assert (Hb : Sample.cash_100 "date" = Some "2024-03-10") by reflexivity.
  assert (Hpost : fst (post_records 1 Sample.cash_100 Sample.db0)
                  = res_json (J_record Sample.cash_row)) by (vm_compute; reflexivity).
  destruct (proj1 (posted_row_is_listed 1 Sample.cash_100 Sample.db0 "2024-03-10" Hb)
              Sample.cash_row Hpost) as [_ [_ [_ Hlist]]].
  exact (conj Hb (conj Hpost Hlist)).
Defined.

End Posted.

(** ** routes/api.js: the monthly lists, month by month *)

Section Months.
Import Pg Schema Store Api Order.

(** The store's reading of [YYYY-MM-DD], part by part. *)
Lemma date_in_parts (y mm dd : string) :
  String.length y = 4%nat -> String.length mm = 2%nat -> String.length dd = 2%nat ->
  date_in (y ++ "-" ++ mm ++ "-" ++ dd)
  = match digits y, digits mm, digits dd with
    | Some Y, Some M, Some D =>
        if (1 <=? Y) && (1 <=? M) && (M <=? 12) && (1 <=? D) && (D <=? days_in_month Y M)
        then Ok (mkDate Y M D)
        else Err datetime_field_overflow
    | _, _, _ => Err invalid_datetime_format
    end.
Proof.
  intros Hy Hm Hd.
  destruct y as [| a [| b [| c [| d [| ? ?]]]]]; try discriminate Hy.
  destruct mm as [| e [| f [| ? ?]]]; try discriminate Hm.
  destruct dd as [| g [| h [| ? ?]]]; try discriminate Hd.
  unfold date_in. simpl substring. simpl get. simpl String.length.
  destruct (digits (String a (String b (String c (String d ""))))) as [Y |];
    [| reflexivity].
  destruct (digits (String e (String f ""))) as [M |]; [| reflexivity].
  destruct (digits (String g (String h ""))) as [D |]; reflexivity.
Qed.

(** [month.padStart(2, '0')] of a month of one or two digits: two
    characters with the same value. *)
Lemma padStart_month (m : string) (k : Z) :
  (1 <= String.length m <= 2)%nat -> digits m = Some k ->
  String.length (Js.padStart 2 "0" m) = 2%nat
  /\ digits (Js.padStart 2 "0" m) = Some k.
Proof.
  intros Hlen Hk. destruct m as [| c [| c' [| ? ?]]]; cbn in Hlen; try lia.
  - unfold Js.padStart. cbn [String.length Nat.sub Js.pad]. split; [reflexivity |].
    unfold digits in *. cbn [digits_from] in *.
    change (digit_of "0") with (Some 0). cbn beta iota.
    exact Hk.
  - unfold Js.padStart. cbn [String.length Nat.sub Js.pad]. now split.
Qed.

Lemma monthly_dates (y m : string) (n k : Z) :
  String.length y = 4%nat -> digits y = Some n -> 1 <= n ->
  (1 <= String.length m <= 2)%nat -> digits m = Some k ->
  date_in (y ++ "-" ++ Js.padStart 2 "0" m ++ "-01")
  = (if (1 <=? k) && (k <=? 12) && (1 <=? days_in_month n k)
     then Ok (mkDate n k 1) else Err datetime_field_overflow)
  /\ date_in (y ++ "-" ++ Js.padStart 2 "0" m ++ "-31")
     = (if (1 <=? k) && (k <=? 12) && (31 <=? days_in_month n k)
        then Ok (mkDate n k 31) else Err datetime_field_overflow).
Proof.
  intros Hy Hn Hpos Hlen Hk.
  destruct (padStart_month m k Hlen Hk) as [Hlen2 Hk2].
  change "-01" with ("-" ++ "01")%string. change "-31" with ("-" ++ "31")%string.
  rewrite !date_in_parts by (try assumption; reflexivity).
  rewrite Hn, Hk2.
  change (digits "01") with (Some 1). change (digits "31") with (Some 31).
  apply Z.leb_le in Hpos. rewrite Hpos. cbn [andb].
  change (1 <=? 1) with true. change (1 <=? 31) with true.
  rewrite !andb_true_r. split; reflexivity.
Qed.

Lemma in_month (n k : Z) (d : Date) :
  date_leb (mkDate n k 1) d = true /\ date_leb d (mkDate n k 31) = true
  <-> year d = n /\ month d = k /\ 1 <= day d <= 31.
Proof.
  rewrite !date_leb_spec, !date_ltb_spec. destruct d as [y m x].
  cbn [year month day]. split.
  - intros [[H1 | H1] [H2 | H2]]; try (injection H1 as E1 E2 E3);
      try (injection H2 as E4 E5 E6); lia.
  - intros [-> [-> Hx]]. split.
    + destruct (Z.eq_dec x 1) as [-> | Hne]; [now right | left; lia].
    + destruct (Z.eq_dec x 31) as [-> | Hne]; [now right | left; lia].
Qed.

(** X25: GET /records/monthly/:year/:month and GET /expenses/monthly, for a
    year of four digits (not 0000) and a month from 1 to 12 written with
    one or two digits.  In the seven months of 31 days the answer is 200
    with exactly the rows of that year and month, the latest date first
    and within a date the newest first.  In the other five
    months (February, April, June, September and November), in every
    year, the end of the range [YYYY-MM-31] is not a date, and the answer
    is 500 whatever the tables hold.  The database is unchanged. *)
Theorem monthly_lists_by_month (db : Database) (y m : string) (n k : Z) :
  String.length y = 4%nat -> digits y = Some n -> 1 <= n ->
  (1 <= String.length m <= 2)%nat -> digits m = Some k ->
  (In k [1; 3; 5; 7; 8; 10; 12] ->
   (exists l,
      get_records_monthly y m db = (res_json (J_records l), db)
      /\ (forall r, In r l <->
                    In r (rows (t_records db))
                    /\ year (rec_date r) = n /\ month (rec_date r) = k
                    /\ 1 <= day (rec_date r) <= 31)
      /\ StronglySorted
           (fun a b =>
              later_first (rec_date a) (rec_created_at a) (rec_date b) (rec_created_at b))
           l)
   /\ (exists l,
         get_expenses_monthly y m db = (res_json (J_expenses l), db)
         /\ (forall r, In r l <->
                       In r (rows (t_expenses db))
                       /\ year (exp_date r) = n /\ month (exp_date r) = k
                       /\ 1 <= day (exp_date r) <= 31)
         /\ StronglySorted
              (fun a b =>
                 later_first (exp_date a) (exp_created_at a) (exp_date b)
                   (exp_created_at b)) l))
  /\ (In k [2; 4; 6; 9; 11] ->
      get_records_monthly y m db
      = (res_status 500 (J_error "Failed to fetch monthly records"), db)
      /\ get_expenses_monthly y m db
         = (res_status 500 (J_error "Failed to fetch monthly expenses"), db)).
Proof.
  intros Hy Hn Hpos Hlen Hk.
  destruct (monthly_dates y m n k Hy Hn Hpos Hlen Hk) as [Hstart Hend]. split.
  - intros Hlong.
    assert (H31 : (1 <=? k) && (k <=? 12) && (1 <=? days_in_month n k) = true
                  /\ (1 <=? k) && (k <=? 12) && (31 <=? days_in_month n k) = true).
    { repeat (destruct Hlong as [<- | Hlong]; [split; reflexivity |]). destruct Hlong. }
    destruct H31 as [H1 H31]. rewrite H1 in Hstart. rewrite H31 in Hend.
    destruct (monthly_lists_spec db y m _ _ Hstart Hend)
      as [[l [Hrun [Hin Hsorted]]] [l' [Hrun' [Hin' Hsorted']]]].
    split; [exists l | exists l']; (split; [assumption |]);
      (split; [| assumption]); intros r.
    + rewrite Hin, <- in_month. tauto.
    + rewrite Hin', <- in_month. tauto.
  - intros Hshort.
    assert (H31 : (1 <=? k) && (k <=? 12) && (31 <=? days_in_month n k) = false).
    { repeat (destruct Hshort as [<- | Hshort];
              [cbn; try destruct (is_leap n); reflexivity |]).
      destruct Hshort. }
    rewrite H31 in Hend.
    unfold get_records_monthly, get_expenses_monthly, try_catch, hbind, query, hret,
      select_records_between, select_expenses_between.
    store_unfold. cbv zeta. rewrite Hend.
    destruct (date_in (y ++ "-" ++ Js.padStart 2 "0" m ++ "-01")); split; reflexivity.
Qed.

(** The theorem for March and for April 2024. *)
Lemma monthly_lists_by_month_witness :
  String.length "2024" = 4%nat
  /\ digits "2024" = Some 2024
  /\ (1 <= String.length "3" <= 2)%nat
  /\ digits "3" = Some 3
  /\ In 3 [1; 3; 5; 7; 8; 10; 12]
  /\ (exists l,
        get_records_monthly "2024" "3" Sample.db_day
        = (res_json (J_records l), Sample.db_day)
        /\ (forall r, In r l <->
                      In r (rows (t_records Sample.db_day))
                      /\ year (rec_date r) = 2024 /\ month (rec_date r) = 3
                      /\ 1 <= day (rec_date r) <= 31)
        /\ StronglySorted
             (fun a b =>
                later_first (rec_date a) (rec_created_at a) (rec_date b) (rec_created_at b))
             l)
  /\ digits "04" = Some 4
  /\ In 4 [2; 4; 6; 9; 11]
  /\ get_records_monthly "2024" "04" Sample.db_day
     = (res_status 500 (J_error "Failed to fetch monthly records"), Sample.db_day).
Proof.
  assert (Hy : String.length "2024" = 4%nat) by reflexivity.
  assert (Hn : digits "2024" = Some 2024) by reflexivity.
  assert (Hpos : 1 <= 2024) by lia.
  assert (Hlen3 : (1 <= String.length "3" <= 2)%nat) by (cbn; lia).
  assert (Hlen4 : (1 <= String.length "04" <= 2)%nat) by (cbn; lia).
  assert (Hk3 : digits "3" = Some 3) by reflexivity.
  assert (Hk4 : digits "04" = Some 4) by reflexivity.
  assert (Hin3 : In 3 [1; 3; 5; 7; 8; 10; 12]) by (cbn; tauto).
  assert (Hin4 : In 4 [2; 4; 6; 9; 11]) by (cbn; tauto).
  pose proof (proj1 (proj1 (monthly_lists_by_month Sample.db_day "2024" "3" 2024 3
                              Hy Hn Hpos Hlen3 Hk3) Hin3)) as H3.
  pose proof (proj1 (proj2 (monthly_lists_by_month Sample.db_day "2024" "04" 2024 4
                              Hy Hn Hpos Hlen4 Hk4) Hin4)) as H4.
  exact (conj Hy (conj Hn (conj Hlen3 (conj Hk3 (conj Hin3 (conj H3
           (conj Hk4 (conj Hin4 H4)))))))).
Defined.

End Months.

(** ** app.js: the status of every answer *)

Section Statuses.
Import Pg Schema Store Api App.






(** Letters of either case in the fixed segments of a path: GET
    /api/STAFF is GET /api/staff. *)
Example upper_case_path :
  let req := fun p => {| req_method := GET; req_path := p;
                         req_query := Sample.no_query; req_body := Sample.fields [];
                         req_now := 0 |} in
  handle None (req ["API"; "Staff"]) Sample.db0
  = handle None (req ["api"; "staff"]) Sample.db0
  /\ status (fst (handle None (req ["api"; "STAFF"]) Sample.db0)) = 200%nat.
Proof. split; vm_compute; reflexivity. Qed.

End Statuses.
